(** * String Search Server: a shallow embedding of the server runtime

    This development embeds the configuration loader ([server/config.py]),
    the TLS context builder ([server/ssl_utils.py]) and the corpus manager
    and connection handler ([server/server.py]) of the String Search
    Server, and states the properties of its behaviour as theorems.

    Conventions.
    - A Python [str] is a list of Unicode code points ([N]); a Python
      [bytes] value is a list of [byte].
    - Functions that can raise are written in the exception monad
      [result]; a [try ... except] block is [catch].
    - The file system is an explicit argument: a path is mapped to a
      [node], which says whether the path exists, whether it is a regular
      file, whether it can be opened, and which bytes it holds.
    - The built-ins are those of CPython 3.11 on POSIX: the decimal
      digits of Unicode 14.0 and the limit of 4300 digits in [int], the
      POSIX flavour of [pathlib], text files read and decoded in blocks
      of 8192 bytes, a standard output that encodes as UTF-8. *)

From Stdlib Require Import NArith ZArith List String Ascii Bool Lia.
From Stdlib.Strings Require Import Byte.
From stdpp Require Import base gmap sets list.

Local Open Scope N_scope.

(** ** The exception monad *)

Inductive result (E A : Type) : Type :=
| Ok (a : A)
| Raise (e : E).
Arguments Ok {E A} a.
Arguments Raise {E A} e.

Definition rbind {E A B} (m : result E A) (k : A -> result E B) : result E B :=
  match m with
  | Ok a => k a
  | Raise e => Raise e
  end.

Definition catch {E A} (m : result E A) (handler : E -> A) : A :=
  match m with
  | Ok a => a
  | Raise e => handler e
  end.

Definition is_ok {E A} (m : result E A) : bool :=
  match m with
  | Ok _ => true
  | Raise _ => false
  end.

Notation "'let*' x ':=' m 'in' k" := (rbind m (fun x => k))
  (at level 10, x name, m at level 100, k at level 200).

(** ** Python built-ins on [str] and [bytes] *)

Module Py.

Definition str := list N.
Definition bytes := list byte.

#[global] Instance byte_eq_decision : EqDecision byte := Byte.byte_eq_dec.

(** A literal of the source, written as a Rocq string of ASCII characters. *)
Definition lit (s : string) : str := map N_of_ascii (list_ascii_of_string s).

(** [bool(s)] for a string: the empty string is falsy. *)
Definition truthy {A} (s : list A) : bool :=
  match s with
  | [] => false
  | _ :: _ => true
  end.

Definition str_eqb (a b : str) : bool := bool_decide (a = b).

(** The characters [str.strip], [str.isspace] and [int] treat as white
    space (CPython's [_PyUnicode_IsWhitespace]). *)
Definition isspace (c : N) : bool :=
  ((9 <=? c) && (c <=? 13)) || ((28 <=? c) && (c <=? 32))
  || (c =? 133) || (c =? 160) || (c =? 5760)
  || ((8192 <=? c) && (c <=? 8202))
  || (c =? 8232) || (c =? 8233) || (c =? 8239) || (c =? 8287)
  || (c =? 12288).

Fixpoint lstrip_by {A} (p : A -> bool) (s : list A) : list A :=
  match s with
  | [] => []
  | c :: s' => if p c then lstrip_by p s' else s
  end.

Fixpoint rstrip_by {A} (p : A -> bool) (s : list A) : list A :=
  match s with
  | [] => []
  | c :: s' =>
      match rstrip_by p s' with
      | [] => if p c then [] else [c]
      | r => c :: r
      end
  end.

(** [s.strip()] *)
Definition strip (s : str) : str := rstrip_by isspace (lstrip_by isspace s).

(** [s.rstrip(ch)] for a one-character argument. *)
Definition rstrip_char (ch : N) (s : str) : str := rstrip_by (N.eqb ch) s.

Fixpoint startswith {A} `{EqDecision A} (p s : list A) : bool :=
  match p, s with
  | [], _ => true
  | _ :: _, [] => false
  | a :: p', b :: s' => bool_decide (a = b) && startswith p' s'
  end.

(** [t in s] on strings, and [s.find(t) != -1] on bytes. *)
Fixpoint contains {A} `{EqDecision A} (t s : list A) : bool :=
  startswith t s ||
  match s with
  | [] => false
  | _ :: s' => contains t s'
  end.

(** [t] occurs in [s]: what [contains] decides. *)
Definition infix {A} (t s : list A) : Prop := exists a b, s = a ++ t ++ b.

(** [sep.join(parts)] *)
Fixpoint join (sep : str) (parts : list str) : str :=
  match parts with
  | [] => []
  | [p] => p
  | p :: rest => p ++ sep ++ join sep rest
  end.

(** [s.split(ch, 1)] when [ch] occurs in [s]: the text before the first
    occurrence and the text after it. *)
Fixpoint split_once (ch : N) (s : str) : option (str * str) :=
  match s with
  | [] => None
  | c :: s' =>
      if c =? ch then Some ([], s')
      else match split_once ch s' with
           | Some (k, v) => Some (c :: k, v)
           | None => None
           end
  end.

(** [s.lower()].  Only ASCII letters and the Kelvin sign are mapped: this
    agrees with Python on every comparison of the result with an ASCII
    literal, which is the only use the configuration loader makes of it. *)
Definition lower_char (c : N) : N :=
  if (65 <=? c) && (c <=? 90) then c + 32
  else if c =? 8490 then 107
  else c.

Definition lower (s : str) : str := map lower_char s.

(** [int(s)] in base 10, as CPython 3.11 parses it: optional white
    space around, an optional sign, then decimal digits with single
    underscores allowed between digits; more than 4300 digits are
    refused.

    The digits are the decimal digits of every script: [decimal_zeros]
    lists the code points of the zeros of Unicode 14.0 (the database of
    CPython 3.11), each of which is followed by its digits one to
    nine. *)
Definition decimal_zeros : list N :=
  [48; 1632; 1776; 1984; 2406; 2534; 2662; 2790; 2918; 3046; 3174; 3302;
   3430; 3558; 3664; 3792; 3872; 4160; 4240; 6112; 6160; 6470; 6608; 6784;
   6800; 6992; 7088; 7232; 7248; 42528; 43216; 43264; 43472; 43504; 43600;
   44016; 65296; 66720; 68912; 69734; 69872; 69942; 70096; 70384; 70736;
   70864; 71248; 71360; 71472; 71904; 72016; 72784; 73040; 73120; 92768;
   92864; 93008; 120782; 120792; 120802; 120812; 120822; 123200; 123632;
   125264; 130032].

(** [Py_UNICODE_TODECIMAL] *)
Definition todecimal (c : N) : option N :=
  match List.find (fun z => (z <=? c) && (c <? z + 10)) decimal_zeros with
  | Some z => Some (c - z)
  | None => None
  end.

(** The white space [int] skips: below 127 the white space of the C
    locale (so not the separators 28 to 31, which [str.strip] removes),
    from 127 on the white space of Unicode. *)
Definition int_space (c : N) : bool :=
  if c <? 127 then ((9 <=? c) && (c <=? 13)) || (c =? 32) else isspace c.

(** [sys.int_info.default_max_str_digits] *)
Definition max_str_digits : nat := 4300.

Fixpoint digits_value (acc : Z) (count : nat) (after_digit : bool) (s : str)
  : option Z :=
  match s with
  | [] => if after_digit && (count <=? max_str_digits)%nat then Some acc else None
  | c :: s' =>
      match todecimal c with
      | Some d => digits_value (acc * 10 + Z.of_N d) (S count) true s'
      | None =>
          if c =? 95 then
            if after_digit then digits_value acc count false s' else None
          else None
      end
  end.

Definition int (s : str) : option Z :=
  match rstrip_by int_space (lstrip_by int_space s) with
  | [] => None
  | c :: s' =>
      if c =? 45 then option_map Z.opp (digits_value 0 0 false s')
      else if c =? 43 then digits_value 0 0 false s'
      else digits_value 0 0 false (c :: s')
  end.

(** [s.split(sep)] for a one-character separator. *)
Fixpoint split (sep : N) (s : str) : list str :=
  match s with
  | [] => [[]]
  | c :: s' =>
      if c =? sep then [] :: split sep s'
      else match split sep s' with
           | [] => [[c]]
           | part :: parts => (c :: part) :: parts
           end
  end.

(** [str(Path(s))] on POSIX ([pathlib]): empty and ["."] components are
    dropped, slashes are collapsed, a trailing slash goes; leading
    slashes make the root ["/"], exactly two of them the root ["//"]; the
    empty path is ["."].  [".."] components stay. *)
Definition Path (s : str) : str :=
  let rel := lstrip_by (N.eqb 47) s in
  let slashes := (length s - length rel)%nat in
  let root := if (slashes =? 0)%nat then []
              else if (slashes =? 2)%nat then lit "//" else lit "/" in
  let parts :=
    List.filter (fun x => truthy x && negb (str_eqb x (lit "."))) (split 47 rel) in
  let body := join (lit "/") parts in
  if truthy root then root ++ body
  else if truthy body then body else lit ".".

(** Text-mode reading translates ["\r\n"] and a lone ["\r"] to ["\n"]
    (universal newlines, the default of [open]). *)
Fixpoint translate_newlines (s : str) : str :=
  match s with
  | [] => []
  | c :: s' =>
      if c =? 13 then
        match s' with
        | d :: s'' => if d =? 10 then 10 :: translate_newlines s''
                      else 10 :: translate_newlines s'
        | [] => [10]
        end
      else c :: translate_newlines s'
  end.

(** Iterating over a text file yields its lines, each with its
    terminating ["\n"] (the last one possibly without). *)
Fixpoint iter_lines (s : str) : list str :=
  match s with
  | [] => []
  | c :: s' =>
      if c =? 10 then [c] :: iter_lines s'
      else match iter_lines s' with
           | [] => [[c]]
           | l :: ls => (c :: l) :: ls
           end
  end.

End Py.

(** ** The UTF-8 codec

    [bytes.decode("utf-8", errors=...)] and [str.encode("utf-8")] as
    CPython implements them.  An ill-formed sequence ends at the first
    byte that cannot continue it; [errors] says what to do with it. *)

Module Utf8.
Import Py.

Inductive errors := Strict | Ignore | Replace.

Definition b2n (b : byte) : N := Byte.to_N b.

Definition n2b (n : N) : byte :=
  match Byte.of_N n with
  | Some b => b
  | None => x00
  end.

Definition is_cont (b : byte) : bool := (128 <=? b2n b) && (b2n b <=? 191).

(** The second byte of a three-byte sequence: [E0] excludes overlong
    forms, [ED] excludes the surrogates. *)
Definition second_ok3 (b0 b1 : byte) : bool :=
  ((if b2n b0 =? 224 then 160 else 128) <=? b2n b1)
  && (b2n b1 <=? (if b2n b0 =? 237 then 159 else 191)).

(** The second byte of a four-byte sequence: [F0] excludes overlong
    forms, [F4] excludes values above U+10FFFF. *)
Definition second_ok4 (b0 b1 : byte) : bool :=
  ((if b2n b0 =? 240 then 144 else 128) <=? b2n b1)
  && (b2n b1 <=? (if b2n b0 =? 244 then 143 else 191)).

Definition emit (c : N) (k : option str) : option str := option_map (cons c) k.

(** What the error handler does with an ill-formed sequence: raise,
    drop it, or put U+FFFD in its place. *)
Definition on_error (e : errors) (k : option str) : option str :=
  match e with
  | Strict => None
  | Ignore => k
  | Replace => emit 65533 k
  end.

(** [None] is [UnicodeDecodeError]. *)
Fixpoint decode (e : errors) (bs : bytes) {struct bs} : option str :=
  match bs with
  | [] => Some []
  | b0 :: r0 =>
    let n0 := b2n b0 in
    if n0 <? 128 then emit n0 (decode e r0)
    else if (194 <=? n0) && (n0 <=? 223) then
      match r0 with
      | [] => on_error e (Some [])
      | b1 :: r1 =>
        if is_cont b1
        then emit ((n0 - 192) * 64 + (b2n b1 - 128)) (decode e r1)
        else on_error e (decode e r0)
      end
    else if (224 <=? n0) && (n0 <=? 239) then
      match r0 with
      | [] => on_error e (Some [])
      | b1 :: r1 =>
        if second_ok3 b0 b1 then
          match r1 with
          | [] => on_error e (Some [])
          | b2 :: r2 =>
            if is_cont b2
            then emit ((n0 - 224) * 4096 + (b2n b1 - 128) * 64 + (b2n b2 - 128))
                      (decode e r2)
            else on_error e (decode e r1)
          end
        else on_error e (decode e r0)
      end
    else if (240 <=? n0) && (n0 <=? 244) then
      match r0 with
      | [] => on_error e (Some [])
      | b1 :: r1 =>
        if second_ok4 b0 b1 then
          match r1 with
          | [] => on_error e (Some [])
          | b2 :: r2 =>
            if is_cont b2 then
              match r2 with
              | [] => on_error e (Some [])
              | b3 :: r3 =>
                if is_cont b3
                then emit ((n0 - 240) * 262144 + (b2n b1 - 128) * 4096
                           + (b2n b2 - 128) * 64 + (b2n b3 - 128))
                          (decode e r3)
                else on_error e (decode e r2)
              end
            else on_error e (decode e r1)
          end
        else on_error e (decode e r0)
      end
    else on_error e (decode e r0)
  end.

(** The incremental decoder that text-mode reading feeds block by
    block ([final=False]): it decodes the characters that are complete
    and hands back the bytes of a sequence the block ends in the middle
    of, to be put before the next block.  An ill-formed sequence is
    [None], as in [decode Strict], with one exception CPython makes: the
    first two bytes of an encoded surrogate ([ED] and a byte from [A0]
    to [BF]) at the very end of a block are handed back, and fail with
    the next block. *)
Definition keep (c : N) (k : option (str * bytes)) : option (str * bytes) :=
  match k with
  | Some (text, rest) => Some (c :: text, rest)
  | None => None
  end.

Fixpoint decode_stateful (bs : bytes) {struct bs} : option (str * bytes) :=
  match bs with
  | [] => Some ([], [])
  | b0 :: r0 =>
    let n0 := b2n b0 in
    if n0 <? 128 then keep n0 (decode_stateful r0)
    else if (194 <=? n0) && (n0 <=? 223) then
      match r0 with
      | [] => Some ([], bs)
      | b1 :: r1 =>
        if is_cont b1
        then keep ((n0 - 192) * 64 + (b2n b1 - 128)) (decode_stateful r1)
        else None
      end
    else if (224 <=? n0) && (n0 <=? 239) then
      match r0 with
      | [] => Some ([], bs)
      | b1 :: r1 =>
        if second_ok3 b0 b1 then
          match r1 with
          | [] => Some ([], bs)
          | b2 :: r2 =>
            if is_cont b2
            then keep ((n0 - 224) * 4096 + (b2n b1 - 128) * 64 + (b2n b2 - 128))
                      (decode_stateful r2)
            else None
          end
        else
          match r1 with
          | [] => if (n0 =? 237) && is_cont b1 then Some ([], bs) else None
          | _ :: _ => None
          end
      end
    else if (240 <=? n0) && (n0 <=? 244) then
      match r0 with
      | [] => Some ([], bs)
      | b1 :: r1 =>
        if second_ok4 b0 b1 then
          match r1 with
          | [] => Some ([], bs)
          | b2 :: r2 =>
            if is_cont b2 then
              match r2 with
              | [] => Some ([], bs)
              | b3 :: r3 =>
                if is_cont b3
                then keep ((n0 - 240) * 262144 + (b2n b1 - 128) * 4096
                           + (b2n b2 - 128) * 64 + (b2n b3 - 128))
                          (decode_stateful r3)
                else None
              end
            else None
          end
        else None
      end
    else None
  end.

(** [None] is [UnicodeEncodeError]: a surrogate code point has no
    encoding. *)
Definition encode_char (c : N) : option bytes :=
  if c <? 128 then Some [n2b c]
  else if c <? 2048 then Some [n2b (192 + c / 64); n2b (128 + c mod 64)]
  else if c <? 65536 then
    if (55296 <=? c) && (c <=? 57343) then None
    else Some [n2b (224 + c / 4096); n2b (128 + (c / 64) mod 64);
               n2b (128 + c mod 64)]
  else if c <? 1114112 then
    Some [n2b (240 + c / 262144); n2b (128 + (c / 4096) mod 64);
          n2b (128 + (c / 64) mod 64); n2b (128 + c mod 64)]
  else None.

Fixpoint encode (s : str) : option bytes :=
  match s with
  | [] => Some []
  | c :: s' =>
      match encode_char c, encode s' with
      | Some a, Some b => Some (a ++ b)
      | _, _ => None
      end
  end.

(** The shapes a well-formed sequence has, as the decoder tests them. *)
Inductive well_formed : N -> bytes -> Prop :=
| wf1 b0 :
    b2n b0 < 128 -> well_formed (b2n b0) [b0]
| wf2 b0 b1 :
    194 <= b2n b0 <= 223 -> is_cont b1 = true ->
    well_formed ((b2n b0 - 192) * 64 + (b2n b1 - 128)) [b0; b1]
| wf3 b0 b1 b2 :
    224 <= b2n b0 <= 239 -> second_ok3 b0 b1 = true -> is_cont b2 = true ->
    well_formed ((b2n b0 - 224) * 4096 + (b2n b1 - 128) * 64 + (b2n b2 - 128))
                [b0; b1; b2]
| wf4 b0 b1 b2 b3 :
    240 <= b2n b0 <= 244 -> second_ok4 b0 b1 = true ->
    is_cont b2 = true -> is_cont b3 = true ->
    well_formed ((b2n b0 - 240) * 262144 + (b2n b1 - 128) * 4096
                 + (b2n b2 - 128) * 64 + (b2n b3 - 128))
                [b0; b1; b2; b3].

(** The bytes of an ASCII literal. *)
Definition blit (s : string) : bytes := map byte_of_ascii (list_ascii_of_string s).

End Utf8.

(** ** Exceptions and the file system *)

Inductive value_error :=
| InvalidPort (line_number : nat) (value : Py.str)
| MissingLinuxpath
| SslNoAuthMethod
| SslCertKeyPair
| MmapEmptyFile.

Inductive exn :=
| FileNotFoundError
| PermissionError
| IsADirectoryError
| OSError
| UnicodeDecodeError
| UnicodeEncodeError
| ValueError (why : value_error)
| SSLError
| RuntimeError (cause : exn).

(** [isinstance(e, ValueError)]: the Unicode errors are subclasses. *)
Definition is_ValueError (e : exn) : bool :=
  match e with
  | ValueError _ | UnicodeDecodeError | UnicodeEncodeError => true
  | _ => false
  end.

Module Fs.
Import Py.

Inductive access := Readable | Denied | Faulty.

(** What a path names: nothing, something that is not a regular file (a
    directory), or a regular file with its bytes; [access] says whether
    opening it succeeds, is refused, or fails in the operating system. *)
Inductive node :=
| Missing
| Directory
| File (a : access) (data : bytes).

Definition fs := str -> node.

(** [Path.exists()] *)
Definition exists_ (n : node) : bool :=
  match n with
  | Missing => false
  | _ => true
  end.

(** [Path.is_file()] *)
Definition is_file (n : node) : bool :=
  match n with
  | File _ _ => true
  | _ => false
  end.

(** Opening the file for reading: the bytes it holds, or the exception. *)
Definition open_rb (n : node) : result exn bytes :=
  match n with
  | Missing => Raise FileNotFoundError
  | Directory => Raise IsADirectoryError
  | File Readable data => Ok data
  | File Denied _ => Raise PermissionError
  | File Faulty _ => Raise OSError
  end.

(** Reading a file opened with [open(path, "r", encoding="utf-8")].
    The text layer reads the file in blocks of 8192 bytes and decodes
    each block when it needs it, so the lines of the blocks before an
    ill-formed sequence are yielded before the [UnicodeDecodeError] is
    raised. *)
Definition BLOCK : nat := N.to_nat 8192.

Fixpoint blocks (fuel : nat) (data : bytes) : list bytes :=
  match fuel, data with
  | S fuel', _ :: _ => take BLOCK data :: blocks fuel' (drop BLOCK data)
  | _, _ => []
  end.

(** The blocks one after the other, [pending] being the bytes the
    decoder handed back; at the end of the file the decoder is run a
    last time ([final=True]).  The result is the text decoded before the
    failure, if any. *)
Fixpoint read_blocks (pending : bytes) (bl : list bytes) : str * option exn :=
  match bl with
  | [] =>
      match Utf8.decode Utf8.Strict pending with
      | Some text => (text, None)
      | None => ([], Some UnicodeDecodeError)
      end
  | block :: rest =>
      match Utf8.decode_stateful (pending ++ block) with
      | Some (text, pending') =>
          let (text', failure) := read_blocks pending' rest in
          (text ++ text', failure)
      | None => ([], Some UnicodeDecodeError)
      end
  end.

(** Between blocks the newline translator keeps a final ["\r"] back,
    since a ["\n"] may follow. *)
Definition withhold_cr (text : str) : str :=
  if bool_decide (last text = Some 13) then removelast text else text.

(** The lines that are known to be complete: those with their ["\n"]. *)
Definition complete_lines (text : str) : list str :=
  List.filter (fun line => bool_decide (last line = Some 10)) (iter_lines text).

(** [for line in f]: the lines the iteration yields, and the exception
    that ends it, if any. *)
Definition text_lines (data : bytes) : list str * option exn :=
  match read_blocks [] (blocks (length data) data) with
  | (text, None) => (iter_lines (translate_newlines text), None)
  | (text, Some e) =>
      (complete_lines (translate_newlines (withhold_cr text)), Some e)
  end.

(** [open(path, "r", encoding="utf-8")] followed by collecting all the
    lines of the file, as a comprehension over the file does: the lines,
    or the exception. *)
Definition read_lines (n : node) : result exn (list str) :=
  let* data := open_rb n in
  match text_lines data with
  | (lines, None) => Ok lines
  | (_, Some e) => Raise e
  end.

(** [mmap.mmap(fileno, 0, access=ACCESS_READ)]: an empty file cannot be
    mapped. *)
Definition mmap (data : bytes) : result exn bytes :=
  match data with
  | [] => Raise (ValueError MmapEmptyFile)
  | _ => Ok data
  end.

End Fs.

(** ** The configuration loader ([server/config.py]) *)

Module Config.
Import Py.

Record t := mk {
  host : str;
  port : Z;
  linuxpath : str;
  reread_on_query : bool;
  ssl_enabled : bool;
  certfile : option str;
  keyfile : option str;
  cafile : option str;
  psk : option str
}.

(** The attribute values [Config.__init__] sets before loading. *)
Definition defaults : t :=
  {| host := lit "0.0.0.0"; port := 44445%Z; linuxpath := lit ".";
     reread_on_query := false; ssl_enabled := false;
     certfile := None; keyfile := None; cafile := None; psk := None |}.

Definition set_linuxpath (v : str) (c : t) : t :=
  mk (host c) (port c) v (reread_on_query c) (ssl_enabled c)
     (certfile c) (keyfile c) (cafile c) (psk c).
Definition set_host (v : str) (c : t) : t :=
  mk v (port c) (linuxpath c) (reread_on_query c) (ssl_enabled c)
     (certfile c) (keyfile c) (cafile c) (psk c).
Definition set_port (v : Z) (c : t) : t :=
  mk (host c) v (linuxpath c) (reread_on_query c) (ssl_enabled c)
     (certfile c) (keyfile c) (cafile c) (psk c).
Definition set_reread_on_query (v : bool) (c : t) : t :=
  mk (host c) (port c) (linuxpath c) v (ssl_enabled c)
     (certfile c) (keyfile c) (cafile c) (psk c).
Definition set_ssl_enabled (v : bool) (c : t) : t :=
  mk (host c) (port c) (linuxpath c) (reread_on_query c) v
     (certfile c) (keyfile c) (cafile c) (psk c).
Definition set_certfile (v : str) (c : t) : t :=
  mk (host c) (port c) (linuxpath c) (reread_on_query c) (ssl_enabled c)
     (Some v) (keyfile c) (cafile c) (psk c).
Definition set_keyfile (v : str) (c : t) : t :=
  mk (host c) (port c) (linuxpath c) (reread_on_query c) (ssl_enabled c)
     (certfile c) (Some v) (cafile c) (psk c).
Definition set_cafile (v : str) (c : t) : t :=
  mk (host c) (port c) (linuxpath c) (reread_on_query c) (ssl_enabled c)
     (certfile c) (keyfile c) (Some v) (psk c).
Definition set_psk (v : str) (c : t) : t :=
  mk (host c) (port c) (linuxpath c) (reread_on_query c) (ssl_enabled c)
     (certfile c) (keyfile c) (cafile c) (Some v).

(** [value.lower() in ("true", "1", "yes")] *)
Definition parse_bool (value : str) : bool :=
  let v := lower value in
  str_eqb v (lit "true") || str_eqb v (lit "1") || str_eqb v (lit "yes").

(** The port branch: [int(value)], then the range check.  Every failure
    leaves the loop as a [ValueError] whose message starts with the
    number of the line.  Which text follows (the range message, the
    not-a-number message, or the message of [int] itself when that
    contains the words of the range message) is not modelled. *)
Definition parse_port (line_number : nat) (value : str) : result exn Z :=
  match int value with
  | Some p =>
      if negb ((1 <=? p)%Z && (p <=? 65535)%Z)
      then Raise (ValueError (InvalidPort line_number value))
      else Ok p
  | None => Raise (ValueError (InvalidPort line_number value))
  end.

(** What a line of the file is to the loader: skipped, or a key and a
    value. *)
Definition key_value (line : str) : option (str * str) :=
  let line := strip line in
  if negb (truthy line) || startswith (lit "#") line then None
  else if negb (contains (lit "=") line) then None
  else match split_once 61 line with
       | Some (key, value) => Some (lower (strip key), strip value)
       | None => None
       end.

Definition is_path_key (key : str) : bool :=
  str_eqb key (lit "linuxpath") || str_eqb key (lit "file_path").

(** The body of the loop over the lines of the file. *)
Definition process_line (line_number : nat) (c : t) (line : str) : result exn t :=
  match key_value line with
  | None => Ok c
  | Some (key, value) =>
      if is_path_key key then Ok (set_linuxpath value c)
      else if str_eqb key (lit "host") then Ok (set_host value c)
      else if str_eqb key (lit "port") then
        let* p := parse_port line_number value in Ok (set_port p c)
      else if str_eqb key (lit "reread_on_query") then
        Ok (set_reread_on_query (parse_bool value) c)
      else if str_eqb key (lit "ssl_enabled") then
        Ok (set_ssl_enabled (parse_bool value) c)
      else if str_eqb key (lit "certfile") || str_eqb key (lit "ssl_certfile") then
        Ok (set_certfile value c)
      else if str_eqb key (lit "keyfile") || str_eqb key (lit "ssl_keyfile") then
        Ok (set_keyfile value c)
      else if str_eqb key (lit "cafile") || str_eqb key (lit "ssl_cafile") then
        Ok (set_cafile value c)
      else if str_eqb key (lit "psk") then Ok (set_psk value c)
      else Ok c
  end.

Fixpoint process_lines (line_number : nat) (c : t) (lines : list str)
  : result exn t :=
  match lines with
  | [] => Ok c
  | line :: rest =>
      let* c' := process_line (S line_number) c line in
      process_lines (S line_number) c' rest
  end.

(** The check after the loop. *)
Definition validate (c : t) : result exn t :=
  if negb (truthy (linuxpath c)) || str_eqb (linuxpath c) (lit ".")
  then Raise (ValueError MissingLinuxpath)
  else Ok c.

(** The two [except] clauses around the whole body: value, not-found,
    permission and decoding errors pass; anything else becomes a
    [RuntimeError]. *)
Definition reraise (e : exn) : exn :=
  match e with
  | FileNotFoundError | PermissionError => e
  | _ => if is_ValueError e then e else RuntimeError e
  end.

Definition _load_config (files : Fs.fs) (config_file : str) : result exn t :=
  let node := files config_file in
  if negb (Fs.exists_ node) then Raise FileNotFoundError
  else
    match (let* data := Fs.open_rb node in
           let (lines, failure) := Fs.text_lines data in
           let* c := process_lines 0 defaults lines in
           match failure with
           | Some e => Raise e
           | None => validate c
           end) with
    | Ok c => Ok c
    | Raise e => Raise (reraise e)
    end.

(** [Config(config_file)]: the name is made a [Path] first. *)
Definition __init__ (files : Fs.fs) (config_file : str) : result exn t :=
  _load_config files (Path config_file).

End Config.

(** ** The TLS context builder ([server/ssl_utils.py]) *)

Module SslUtils.
Import Py.

Inductive verify_mode := CERT_NONE | CERT_OPTIONAL | CERT_REQUIRED.

(** The part of an [ssl.SSLContext] the builder sets. *)
Record context := mk {
  server_side : bool;
  verify : verify_mode;
  check_hostname : bool;
  cert_chain : option (str * str);
  verify_locations : option str;
  minimum_tls12 : bool;
  ciphers : option str
}.

(** What the TLS library does with the files it is given: [None] is
    success, [Some e] is the exception raised. *)
Record library := {
  load_cert_chain : str -> str -> option exn;
  load_verify_locations : str -> option exn;
  set_ciphers : str -> option exn
}.

(** [ssl.create_default_context(purpose)]: a context made for a server
    ([Purpose.CLIENT_AUTH]) does not verify its peer; one made for a
    client ([Purpose.SERVER_AUTH]) requires a certificate and checks the
    host name. *)
Definition create_default_context (for_server : bool) : context :=
  {| server_side := for_server;
     verify := if for_server then CERT_NONE else CERT_REQUIRED;
     check_hostname := negb for_server;
     cert_chain := None; verify_locations := None;
     minimum_tls12 := false; ciphers := None |}.

(** [not x] for an optional string: [None] and the empty string are
    falsy. *)
Definition given (x : option str) : bool :=
  match x with
  | Some s => truthy s
  | None => false
  end.

(** [str(Path(x))], the name under which the builder tests and loads a
    file that is given. *)
Definition path_of (x : option str) : str :=
  match x with
  | Some s => Path s
  | None => []
  end.

(** The certificate step. *)
Definition setup_cert_chain (lib : library) (files : Fs.fs)
    (certfile keyfile : option str) (ctx : context) : result exn context :=
  if given certfile && given keyfile then
    if negb (Fs.exists_ (files (path_of certfile))) then Raise FileNotFoundError
    else if negb (Fs.exists_ (files (path_of keyfile))) then Raise FileNotFoundError
    else match load_cert_chain lib (path_of certfile) (path_of keyfile) with
         | None =>
             Ok (mk (server_side ctx) (verify ctx) (check_hostname ctx)
                    (Some (path_of certfile, path_of keyfile))
                    (verify_locations ctx) (minimum_tls12 ctx) (ciphers ctx))
         | Some e => Raise e
         end
  else Ok ctx.

(** The CA step: the CA file is loaded, and the verification mode is
    changed only under [verify_client or not server_side]. *)
Definition setup_ca (lib : library) (files : Fs.fs) (cafile : option str)
    (for_server verify_client : bool) (ctx : context) : result exn context :=
  if given cafile then
    if negb (Fs.exists_ (files (path_of cafile))) then Raise FileNotFoundError
    else match load_verify_locations lib (path_of cafile) with
         | None =>
             Ok (mk (server_side ctx)
                    (if verify_client || negb for_server
                     then CERT_REQUIRED else verify ctx)
                    (check_hostname ctx) (cert_chain ctx)
                    (Some (path_of cafile)) (minimum_tls12 ctx) (ciphers ctx))
         | Some e => Raise e
         end
  else Ok ctx.

(** The hardening step; a failure of [set_ciphers] is logged and
    swallowed. *)
Definition harden (lib : library) (ctx : context) : context :=
  let cipher_list := lit "HIGH:!aNULL:!MD5:!RC4" in
  mk (server_side ctx) (verify ctx) (check_hostname ctx) (cert_chain ctx)
     (verify_locations ctx) true
     (match set_ciphers lib cipher_list with
      | None => Some cipher_list
      | Some _ => ciphers ctx
      end).

(** The [except] clauses around the body: the three known exceptions
    pass, anything else becomes a [RuntimeError]. *)
Definition reraise (e : exn) : exn :=
  match e with
  | FileNotFoundError | SSLError => e
  | _ => if is_ValueError e then e else RuntimeError e
  end.

Definition create_ssl_context (lib : library) (files : Fs.fs)
    (certfile keyfile cafile psk : option str)
    (for_server verify_client : bool) : result exn context :=
  if negb (given certfile) && negb (given keyfile) && negb (given psk)
  then Raise (ValueError SslNoAuthMethod)
  else if (given certfile && negb (given keyfile))
          || (given keyfile && negb (given certfile))
  then Raise (ValueError SslCertKeyPair)
  else
    match (let ctx := create_default_context for_server in
           let* ctx := setup_cert_chain lib files certfile keyfile ctx in
           let* ctx := setup_ca lib files cafile for_server verify_client ctx in
           Ok (harden lib ctx)) with
    | Ok ctx => Ok ctx
    | Raise e => Raise (reraise e)
    end.

End SslUtils.

(** ** The corpus manager and the connection handler ([server/server.py]) *)

Module Server.
Import Py.

Record t := mk {
  host : str;
  port : Z;
  reread_on_query : bool;
  ssl_enabled : bool;
  certfile : option str;
  keyfile : option str;
  cafile : option str;
  psk : option str;
  file_path : str;
  file_lines : gset str;
  file_content : str;
  ssl_context : option SslUtils.context;
  stop_event : bool;
  running : bool
}.

Definition STRING_EXISTS : str := lit "STRING EXISTS".
Definition STRING_NOT_FOUND : str := lit "STRING NOT FOUND".

Definition set_cache (lines : gset str) (content : str) (s : t) : t :=
  mk (host s) (port s) (reread_on_query s) (ssl_enabled s) (certfile s)
     (keyfile s) (cafile s) (psk s) (file_path s) lines content
     (ssl_context s) (stop_event s) (running s).

Definition set_ssl (enabled : bool) (ctx : option SslUtils.context) (s : t) : t :=
  mk (host s) (port s) (reread_on_query s) enabled (certfile s)
     (keyfile s) (cafile s) (psk s) (file_path s) (file_lines s)
     (file_content s) ctx (stop_event s) (running s).

Definition set_lifecycle (stop run : bool) (s : t) : t :=
  mk (host s) (port s) (reread_on_query s) (ssl_enabled s) (certfile s)
     (keyfile s) (cafile s) (psk s) (file_path s) (file_lines s)
     (file_content s) (ssl_context s) stop run.

(** [[line.rstrip("\n") for line in f if line.strip()]] *)
Definition kept_lines (lines : list str) : list str :=
  map (rstrip_char 10) (filter (fun line => truthy (strip line)) lines).

(** [_read_file]: every exception yields the empty list. *)
Definition _read_file (files : Fs.fs) (s : t) : list str :=
  catch (let* lines := Fs.read_lines (files (file_path s)) in
         Ok (kept_lines lines))
        (fun _ => []).

(** [_load_file_once]: the two cache fields are assigned together on
    every path. *)
Definition _load_file_once (files : Fs.fs) (s : t) : t :=
  if negb (Fs.is_file (files (file_path s))) then set_cache ∅ [] s
  else
    let lines := _read_file files s in
    if truthy lines
    then set_cache (list_to_set lines) (join (lit (String "010" EmptyString)) lines) s
    else set_cache ∅ [] s.

(** The body of [_mmap_search], inside its [try]. *)
Definition mmap_scan (files : Fs.fs) (s : t) (search_string : str)
  : result exn str :=
  let node := files (file_path s) in
  if negb (Fs.exists_ node) then Ok STRING_NOT_FOUND
  else if negb (Fs.is_file node) then Ok STRING_NOT_FOUND
  else
    let* file := Fs.open_rb node in
    let* mmapped_file := Fs.mmap file in
    match Utf8.encode search_string with
    | Some search_bytes =>
        if contains search_bytes mmapped_file
        then Ok STRING_EXISTS
        else Ok STRING_NOT_FOUND
    | None => Raise UnicodeEncodeError
    end.

Definition _mmap_search (files : Fs.fs) (s : t) (search_string : str) : str :=
  catch (mmap_scan files s search_string) (fun _ => STRING_NOT_FOUND).

(** What a search looks at, in the order it does so. *)
Inductive probe := ReadContent | ReadLines | MmapScan.

(** The body of [search_string], inside its [try]; the result comes with
    the list of the places the search looked at. *)
Definition search_body (files : Fs.fs) (s : t) (search_string : str)
  : result exn (list probe * str) :=
  if negb (truthy search_string) || negb (truthy (strip search_string))
  then Ok ([], STRING_NOT_FOUND)
  else
    let search_str := strip search_string in
    if reread_on_query s
    then Ok ([MmapScan], _mmap_search files s search_str)
    else if truthy (file_content s) && contains search_str (file_content s)
    then Ok ([ReadContent], STRING_EXISTS)
    else if bool_decide (file_lines s ≠ ∅)
            && bool_decide (search_str ∈ file_lines s)
    then Ok ([ReadContent; ReadLines], STRING_EXISTS)
    else Ok ([ReadContent; ReadLines; MmapScan],
             _mmap_search files s search_str).

Definition search_trace (files : Fs.fs) (s : t) (search_string : str)
  : list probe * str :=
  catch (search_body files s search_string) (fun _ => ([], STRING_NOT_FOUND)).

Definition search_string (files : Fs.fs) (s : t) (search_string : str) : str :=
  snd (search_trace files s search_string).

(** [__init__].  The attributes come from the configuration; the cache
    starts empty and is loaded in static mode only; a TLS context is
    built when TLS is enabled, and a [ValueError] or a
    [FileNotFoundError] of the builder turns TLS off.  Any exception that
    leaves the body becomes a [RuntimeError].  The creation of the
    listening socket is taken to succeed. *)
Definition init_body (lib : SslUtils.library) (files : Fs.fs)
    (config_file : str) : result exn t :=
  let* config := Config.__init__ files config_file in
  let s0 :=
    mk (Config.host config) (Config.port config)
       (Config.reread_on_query config) (Config.ssl_enabled config)
       (Config.certfile config) (Config.keyfile config)
       (Config.cafile config) (Config.psk config)
       (Path (Config.linuxpath config)) ∅ [] None false false in
  let s1 := if negb (reread_on_query s0) then _load_file_once files s0 else s0 in
  if ssl_enabled s1 then
    match SslUtils.create_ssl_context lib files (certfile s1) (keyfile s1)
            (cafile s1) (psk s1) true false with
    | Ok ctx => Ok (set_ssl true (Some ctx) s1)
    | Raise e =>
        match e with
        | FileNotFoundError => Ok (set_ssl false None s1)
        | _ => if is_ValueError e then Ok (set_ssl false None s1) else Raise e
        end
    end
  else Ok (set_ssl (ssl_enabled s1) None s1).

Definition __init__ (lib : SslUtils.library) (files : Fs.fs) (config_file : str)
  : result exn t :=
  match init_body lib files config_file with
  | Ok s => Ok s
  | Raise e => Raise (RuntimeError e)
  end.

(** [data.decode("utf-8", errors="ignore")] *)
Definition decode_ignore (data : bytes) : str :=
  match Utf8.decode Utf8.Ignore data with
  | Some text => text
  | None => []
  end.

(** The query of a received chunk:
    [data.decode("utf-8", errors="ignore").rstrip("\x00").strip()] *)
Definition query_of (data : bytes) : str :=
  strip (rstrip_char 0 (decode_ignore data)).

(** What the handler does for one chunk, in order. *)
Inductive action :=
| Search (query : str)
| Send (payload : bytes).

(** How a call of [sendall] ends: it returns, it times out, or it fails
    otherwise. *)
Inductive send_outcome := Sent | SendTimedOut | SendFailed.

(** One round of the loop of [handle_client] after a non-empty [recv]:
    the actions taken, and whether the loop goes on.  For an empty query
    the send is not guarded, so a time-out reaches the [continue] of the
    loop; the send of a search result is guarded, and any failure leaves
    the loop. *)
Definition respond (files : Fs.fs) (s : t) (data : bytes) (out : send_outcome)
  : list action * bool :=
  let query := query_of data in
  if negb (truthy query)
  then ([Send (Utf8.blit (String.append "STRING NOT FOUND" (String "010" EmptyString)))],
        match out with
        | SendFailed => false
        | _ => true
        end)
  else
    let result := search_string files s query in
    match Utf8.encode (result ++ [10]) with
    | Some payload =>
        ([Search query; Send payload],
         match out with
         | Sent => true
         | _ => false
         end)
    | None => ([Search query], false)
    end.

(** What one call of [recv] gives. *)
Inductive received :=
| Data (data : bytes) (out : send_outcome)
| Timeout
| ConnectionReset
| OtherError.

(** One iteration of the loop sees the stop flag, the file system of the
    moment, and the outcome of [recv]. *)
Record round := { stop_set : bool; files_now : Fs.fs; incoming : received }.

(** [handle_client]: the loop, over the rounds the connection goes
    through.  It reads the server object and assigns nothing to it. *)
Fixpoint handle_client (s : t) (rounds : list round) : list action :=
  match rounds with
  | [] => []
  | r :: rest =>
      if stop_set r then []
      else match incoming r with
           | Data [] _ => []
           | Data data out =>
               let '(actions, go_on) := respond (files_now r) s data out in
               if go_on then actions ++ handle_client s rest else actions
           | Timeout => handle_client s rest
           | ConnectionReset => []
           | OtherError => []
           end
  end.

(** [shutdown] and the signal handler [_shutdown]: the stop flag is set
    and [running] is cleared. *)
Definition shutdown (s : t) : t := set_lifecycle true false s.
Definition _shutdown (s : t) : t := set_lifecycle true false s.

(** [start], seen from the caller when it returns or raises: the
    [finally] clause has cleared [running]. *)
Definition start (s : t) : t := set_lifecycle (stop_event s) false s.

(** The calls a server object receives after construction. *)
Inductive op :=
| CallSearch (query : str)
| CallHandleClient (rounds : list round)
| CallStart
| CallShutdown
| Signal.

Definition exec (files : Fs.fs) (s : t) (o : op) : t :=
  match o with
  | CallSearch _ => s
  | CallHandleClient _ => s
  | CallStart => start s
  | CallShutdown => shutdown s
  | Signal => _shutdown s
  end.

Definition run (s : t) (calls : list (Fs.fs * op)) : t :=
  fold_left (fun s c => exec (fst c) s (snd c)) calls s.

End Server.

(** ** The statements of the specification, and concrete worlds *)

Module Spec.
Import Py.

(** The cache is whole: both fields empty, or both populated. *)
Definition cache_whole (s : Server.t) : Prop :=
  (Server.file_lines s = ∅ /\ Server.file_content s = [])
  \/ (Server.file_lines s <> ∅ /\ Server.file_content s <> []).

Definition cache_empty (s : Server.t) : Prop :=
  Server.file_lines s = ∅ /\ Server.file_content s = [].

(** [q] is a full line of the text a file holds, as text-mode reading
    splits it. *)
Definition full_line (q text : str) : Prop :=
  q ∈ map (rstrip_char 10) (iter_lines (translate_newlines text)).

(** The corpus cannot be scanned: the path names nothing or no regular
    file, the file cannot be opened, or it is empty and cannot be
    mapped. *)
Definition unscannable (n : Fs.node) : Prop :=
  match n with
  | Fs.File Fs.Readable (_ :: _) => False
  | _ => True
  end.

(** The corpus-file conditions the specification lists as failures:
    missing, not a regular file, permission denied, an operating-system
    error, or bytes that do not decode. *)
Definition io_failure (n : Fs.node) : Prop :=
  match n with
  | Fs.File Fs.Readable data => Utf8.decode Utf8.Strict data = None
  | _ => True
  end.

(** The query of a chunk as the specification words it: invalid
    sequences replaced, every NUL removed, surrounding white space
    trimmed. *)
Definition query_as_specified (data : bytes) : str :=
  strip (filter (fun c => negb (c =? 0))
           (match Utf8.decode Utf8.Replace data with
            | Some text => text
            | None => []
            end)).

(** The two lines the handler can send. *)
Definition NOT_FOUND_LINE : bytes :=
  Utf8.blit (String.append "STRING NOT FOUND" (String "010" EmptyString)).
Definition EXISTS_LINE : bytes :=
  Utf8.blit (String.append "STRING EXISTS" (String "010" EmptyString)).

Definition port_ok (c : Config.t) : Prop := (1 <= Config.port c <= 65535)%Z.

Definition no_path_key (lines : list str) : Prop :=
  forall line key value,
    line ∈ lines -> Config.key_value line = Some (key, value) ->
    Config.is_path_key key = false.

Definition ports_valid (lines : list str) : Prop :=
  forall line value,
    line ∈ lines -> Config.key_value line = Some (lit "port", value) ->
    exists p, int value = Some p /\ (1 <= p <= 65535)%Z.

End Spec.

Module Examples.
Import Py.

Definition nl : string := String "010" EmptyString.

Definition corpus_path : str := lit "corpus.txt".
Definition config_path : str := lit "server.conf".

(** A disk with a corpus file and a configuration file. *)
Definition disk (corpus config : bytes) : Fs.fs :=
  fun path =>
    if str_eqb path corpus_path then Fs.File Fs.Readable corpus
    else if str_eqb path config_path then Fs.File Fs.Readable config
    else Fs.Missing.

(** The same disk with one more file, at the path [extra]. *)
Definition disk_with (extra : str) (corpus config : bytes) : Fs.fs :=
  fun path =>
    if str_eqb path extra then Fs.File Fs.Readable (Utf8.blit "pem")
    else disk corpus config path.

(** A TLS library that accepts every file, and one that rejects every
    certificate. *)
Definition lenient : SslUtils.library :=
  {| SslUtils.load_cert_chain := fun _ _ => None;
     SslUtils.load_verify_locations := fun _ => None;
     SslUtils.set_ciphers := fun _ => None |}.

Definition picky : SslUtils.library :=
  {| SslUtils.load_cert_chain := fun _ _ => Some SSLError;
     SslUtils.load_verify_locations := fun _ => None;
     SslUtils.set_ciphers := fun _ => None |}.

(** A server object before its cache is loaded. *)
Definition fresh (reread : bool) : Server.t :=
  Server.mk (lit "0.0.0.0") 44445%Z reread false None None None None
            corpus_path ∅ [] None false false.

(** A static server that loaded [corpus]. *)
Definition static_server (corpus : bytes) : Server.t :=
  Server._load_file_once (disk corpus []) (fresh false).

Definition fruit : bytes :=
  Utf8.blit (String.append "apple" (String.append nl (String.append "pear" nl))).

Definition static_conf : bytes :=
  Utf8.blit (String.append "host=127.0.0.1" (String.append nl
            (String.append "port=44445" (String.append nl "linuxpath=corpus.txt")))).

Definition dynamic_conf : bytes :=
  Utf8.blit (String.append "linuxpath=corpus.txt" (String.append nl "reread_on_query=True")).

End Examples.

(** ** The client ([client/client.py]) *)

Module Client.
Import Py.

(** [str.encode("utf-8", errors="replace")]: a character that has no
    encoding (a surrogate) is sent as ["?"]. *)
Definition encode_char_replace (c : N) : bytes :=
  match Utf8.encode_char c with
  | Some enc => enc
  | None => [x3f]
  end.

Definition encode_replace (s : str) : bytes := flat_map encode_char_replace s.

(** The text the bytes of [encode_replace] stand for. *)
Definition scrub_char (c : N) : N :=
  match Utf8.encode_char c with
  | Some _ => c
  | None => 63
  end.

Definition scrub (s : str) : str := map scrub_char s.

(** [bytes.decode("utf-8", errors="replace")] *)
Definition decode_replace (data : bytes) : str :=
  match Utf8.decode Utf8.Replace data with
  | Some text => text
  | None => []
  end.

(** The two kinds of exception [send_query] raises, with the reason. *)
Inductive failure :=
| NotConnected
| EmptyQuery
| ResponseTimeout
| ConnectionLost
| CommunicationError.

(** [isinstance(e, ConnectionError)]: every failure but the rejection of
    an empty query, which is a [ValueError]. *)
Definition is_ConnectionError (f : failure) : bool :=
  match f with
  | EmptyQuery => false
  | _ => true
  end.

(** What [sendall] followed by [recv] gives: the bytes read (none when
    the peer has closed), a time-out, a lost connection, or another
    error. *)
Inductive reply :=
| Received (data : bytes)
| TimedOut
| Lost
| Broken.

(** The bytes of the request: [(query.strip() + "\n").encode(...)] *)
Definition payload_of (query : str) : bytes := encode_replace (strip query ++ [10]).

(** How standard output encodes what [print] writes: as UTF-8, strictly
    (under a UTF-8 locale) or with [surrogateescape] (under the C
    locale), which also writes the code points U+DC80 to U+DCFF. *)
Inductive stdout_errors := StdoutStrict | StdoutSurrogateEscape.

Definition printable_char (out : stdout_errors) (c : N) : bool :=
  match Utf8.encode_char c with
  | Some _ => true
  | None =>
      match out with
      | StdoutStrict => false
      | StdoutSurrogateEscape => (56448 <=? c) && (c <=? 56575)
      end
  end.

(** [print(text)] returns; otherwise it raises [UnicodeEncodeError]. *)
Definition printable (out : stdout_errors) (text : str) : bool :=
  forallb (printable_char out) text.

(** [send_query], on a client that is connected or not, over a peer that
    answers a payload with a [reply].  The query and the response are
    printed before the response is returned, inside the [try]: a query
    that standard output cannot encode ends in the last [except]
    clause. *)
Definition send_query (out : stdout_errors) (connected : bool)
    (peer : bytes -> reply) (query : str) : result failure str :=
  if negb connected then Raise NotConnected
  else if negb (truthy query) || negb (truthy (strip query)) then Raise EmptyQuery
  else
    match peer (payload_of query) with
    | Received [] => Raise CommunicationError
    | Received response_data =>
        let response := strip (decode_replace response_data) in
        if printable out (query ++ response) then Ok response
        else Raise CommunicationError
    | TimedOut => Raise ResponseTimeout
    | Lost => Raise ConnectionLost
    | Broken => Raise CommunicationError
    end.

(** The bytes the handler writes, in order. *)
Definition written (actions : list Server.action) : bytes :=
  flat_map (fun a => match a with
                     | Server.Send payload => payload
                     | Server.Search _ => []
                     end) actions.

(** A server as the peer of the client: the request arrives as one
    chunk, and the client reads what the handler writes for it. *)
Definition served (files : Fs.fs) (s : Server.t) (payload : bytes) : reply :=
  Received (written (fst (Server.respond files s payload Server.Sent))).

End Client.

(** ** Measures of a connection *)

Module Session.
Import Py.

(** A round that ends the loop of the handler: the stop flag is set, the
    peer has closed, or [recv] failed. *)
Definition ends_loop (r : Server.round) : bool :=
  Server.stop_set r ||
  match Server.incoming r with
  | Server.Data [] _ => true
  | Server.Data _ _ => false
  | Server.Timeout => false
  | Server.ConnectionReset => true
  | Server.OtherError => true
  end.

Definition is_send (a : Server.action) : bool :=
  match a with
  | Server.Send _ => true
  | Server.Search _ => false
  end.

Definition is_chunk (r : Server.round) : bool :=
  match Server.incoming r with
  | Server.Data (_ :: _) _ => true
  | _ => false
  end.

(** How many payloads a list of actions sends, and how many non-empty
    chunks a connection receives. *)
Definition sends (actions : list Server.action) : nat :=
  length (List.filter is_send actions).

Definition chunks (rounds : list Server.round) : nat :=
  length (List.filter is_chunk rounds).

End Session.

(** * Properties *)

(** ** Facts about the string built-ins *)

Module PyFacts.
Import Py.

Lemma infix_refl {A} (s : list A) : infix s s.
Proof. exists [], []. simpl. by rewrite app_nil_r. Qed.

Lemma infix_nil {A} (s : list A) : infix [] s.
Proof. by exists [], s. Qed.

Lemma infix_trans {A} (t u s : list A) : infix t u -> infix u s -> infix t s.
Proof.
  intros (a & b & ->) (c & d & ->).
  exists (c ++ a), (b ++ d). by rewrite <- !app_assoc.
Qed.

Lemma infix_cons {A} (t s : list A) c : infix t s -> infix t (c :: s).
Proof. intros (a & b & ->). by exists (c :: a), b. Qed.

Lemma infix_app_l {A} (t s k : list A) : infix t s -> infix t (s ++ k).
Proof. intros (a & b & ->). exists a, (b ++ k). by rewrite <- !app_assoc. Qed.

Lemma infix_app_r {A} (t s k : list A) : infix t s -> infix t (k ++ s).
Proof. intros (a & b & ->). exists (k ++ a), b. by rewrite <- !app_assoc. Qed.

Lemma infix_of_nil {A} (t : list A) : infix t [] -> t = [].
Proof.
  intros (a & b & H). symmetry in H.
  apply app_eq_nil in H as [_ H]. by apply app_eq_nil in H as [H _].
Qed.

Lemma startswith_spec {A} `{EqDecision A} (p s : list A) :
  startswith p s = true <-> exists k, s = p ++ k.
Proof.
  revert s. induction p as [|a p IH]; intros s; simpl.
  - split; [by exists s | done].
  - destruct s as [|b s].
    + split; [done | by intros [k ?]].
    + rewrite andb_true_iff, bool_decide_eq_true, IH. split.
      * intros [-> [k ->]]. by exists k.
      * intros [k Hk]. simplify_eq. eauto.
Qed.

Lemma contains_spec {A} `{EqDecision A} (t s : list A) :
  contains t s = true <-> infix t s.
Proof.
  induction s as [|c s IH]; simpl.
  - rewrite orb_false_r, startswith_spec. split.
    + intros [k Hk]. exists [], k. done.
    + intros Hi. apply infix_of_nil in Hi as ->. by exists [].
  - rewrite orb_true_iff, startswith_spec, IH. split.
    + intros [[k ->] | Hi].
      * by exists [], k.
      * by apply infix_cons.
    + intros (a & b & Hs). destruct a as [|a0 a].
      * left. by exists b.
      * right. simpl in Hs. simplify_eq. by exists a, b.
Qed.

Lemma contains_false {A} `{EqDecision A} (t s : list A) :
  contains t s = false <-> ~ infix t s.
Proof. rewrite <- contains_spec. by destruct (contains t s). Qed.

Lemma contains_nil_r {A} `{EqDecision A} (t : list A) :
  t <> [] -> contains t [] = false.
Proof. intros Ht. apply contains_false. intros Hi. by apply infix_of_nil in Hi. Qed.

(** An occurrence in [a ++ c :: b] that does not contain [c] lies in [a]
    or in [b]. *)
Lemma infix_app_sep {A} (t a b : list A) (c : A) :
  c ∉ t -> infix t (a ++ c :: b) -> infix t a \/ infix t b.
Proof.
  intros Hc (x & y & Heq).
  apply app_eq_app in Heq as [l [[-> Hty] | [-> Hcb]]].
  - apply app_eq_app in Hty as [l' [[-> Hcb] | [-> ->]]].
    + destruct l' as [|c' l'].
      * left. exists x, []. by rewrite !app_nil_r.
      * simpl in Hcb. simplify_eq. exfalso. apply Hc. set_solver.
    + left. by exists x, l'.
  - destruct l as [|c' l].
    + simpl in Hcb. destruct t as [|t0 t].
      * left. apply infix_nil.
      * simpl in Hcb. simplify_eq. exfalso. apply Hc. set_solver.
    + simpl in Hcb. simplify_eq. right. by exists l, y.
Qed.

(** *** Stripping *)

Lemma lstrip_by_suffix {A} (p : A -> bool) (s : list A) :
  exists a, s = a ++ lstrip_by p s.
Proof.
  induction s as [|c s [a IH]]; simpl.
  - by exists [].
  - destruct (p c).
    + exists (c :: a). simpl. by f_equal.
    + by exists [].
Qed.

Lemma rstrip_by_prefix {A} (p : A -> bool) (s : list A) :
  exists b, s = rstrip_by p s ++ b.
Proof.
  induction s as [|c s [b IH]]; simpl.
  - by exists [].
  - destruct (rstrip_by p s) as [|r0 r] eqn:E.
    + destruct (p c).
      * by exists (c :: s).
      * exists b. simpl in *. by f_equal.
    + exists b. simpl in *. by f_equal.
Qed.

Lemma lstrip_by_head {A} (p : A -> bool) (s : list A) c r :
  lstrip_by p s = c :: r -> p c = false.
Proof.
  induction s as [|d s IH]; simpl; [done|].
  destruct (p d) eqn:E; [done|]. intros. by simplify_eq.
Qed.

Lemma rstrip_by_head {A} (p : A -> bool) (s : list A) c :
  p c = false -> exists r, rstrip_by p (c :: s) = c :: r.
Proof. intros Hc. simpl. destruct (rstrip_by p s); rewrite ?Hc; eauto. Qed.

Lemma rstrip_by_idemp {A} (p : A -> bool) (s : list A) :
  rstrip_by p (rstrip_by p s) = rstrip_by p s.
Proof.
  induction s as [|c s IH]; simpl; [done|].
  destruct (rstrip_by p s) as [|r0 r] eqn:E.
  - destruct (p c) eqn:Hc; simpl; [done | by rewrite Hc].
  - change (rstrip_by p (c :: r0 :: r)) with
      (match rstrip_by p (r0 :: r) with
       | [] => if p c then [] else [c]
       | r' => c :: r'
       end).
    by rewrite IH.
Qed.

(** A string with a character outside [p] does not strip to nothing. *)
Lemma rstrip_by_keeps {A} (p : A -> bool) (s : list A) c :
  c ∈ s -> p c = false -> rstrip_by p s <> [].
Proof.
  induction s as [|d s IH]; [set_solver|].
  intros Hin Hc. simpl. destruct (rstrip_by p s) eqn:E; [|done].
  apply elem_of_cons in Hin as [<- | Hin]; [by rewrite Hc|].
  by destruct (IH Hin Hc).
Qed.

Lemma lstrip_by_subset {A} (p : A -> bool) (s : list A) c :
  c ∈ lstrip_by p s -> c ∈ s.
Proof.
  destruct (lstrip_by_suffix p s) as [a Ha]. intros Hc.
  rewrite Ha. set_solver.
Qed.

Lemma rstrip_by_subset {A} (p : A -> bool) (s : list A) c :
  c ∈ rstrip_by p s -> c ∈ s.
Proof.
  destruct (rstrip_by_prefix p s) as [b Hb]. intros Hc.
  rewrite Hb. set_solver.
Qed.

Lemma strip_idemp (s : str) : strip (strip s) = strip s.
Proof.
  unfold strip.
  destruct (lstrip_by isspace s) as [|c r] eqn:E; [done|].
  pose proof (lstrip_by_head _ _ _ _ E) as Hc.
  destruct (rstrip_by_head isspace r c Hc) as [r' Hr].
  rewrite Hr. simpl lstrip_by. rewrite Hc, <- Hr.
  apply rstrip_by_idemp.
Qed.

Lemma strip_infix (s : str) : infix (strip s) s.
Proof.
  unfold strip.
  destruct (lstrip_by_suffix isspace s) as [a Ha].
  destruct (rstrip_by_prefix isspace (lstrip_by isspace s)) as [b Hb].
  exists a, b. by rewrite <- Hb.
Qed.

(** A string that does not strip to nothing has a character that is not
    white space. *)
Lemma strip_nonempty_char (s : str) :
  strip s <> [] -> exists c, c ∈ s /\ isspace c = false.
Proof.
  unfold strip. intros Hs.
  destruct (lstrip_by isspace s) as [|c r] eqn:E; [done|].
  exists c. split.
  - apply (lstrip_by_subset isspace). rewrite E. set_solver.
  - by apply (lstrip_by_head _ _ _ _ E).
Qed.

Lemma truthy_true {A} (s : list A) : truthy s = true <-> s <> [].
Proof. by destruct s. Qed.

Lemma truthy_false {A} (s : list A) : truthy s = false <-> s = [].
Proof. by destruct s. Qed.

(** A [Path] is never the empty string. *)
Lemma Path_nonempty s : Path s <> [].
Proof.
  unfold Path.
  destruct ((length s - length (lstrip_by (N.eqb 47) s)) =? 0)%nat; cbn [truthy].
  - by destruct (join _ _).
  - by destruct ((length s - length (lstrip_by (N.eqb 47) s)) =? 2)%nat.
Qed.

End PyFacts.

(** ** The search *)

Module SearchFacts.
Import Py PyFacts Server.

Lemma search_body_ok files s q : exists r, search_body files s q = Ok r.
Proof. unfold search_body. repeat case_match; eauto. Qed.

Lemma mmap_search_token files s q :
  _mmap_search files s q = STRING_EXISTS \/ _mmap_search files s q = STRING_NOT_FOUND.
Proof.
  unfold _mmap_search, mmap_scan, Fs.open_rb, Fs.mmap.
  repeat (case_match; simpl; auto).
Qed.

(** The search returns one of the two tokens, whatever the state of the
    server and of the disk. *)
Lemma search_string_token files s q :
  search_string files s q = STRING_EXISTS
  \/ search_string files s q = STRING_NOT_FOUND.
Proof.
  unfold search_string, search_trace, search_body.
  pose proof (mmap_search_token files s (strip q)).
  repeat (case_match; simpl; auto).
Qed.

(** What the search does with a query whose trimmed form is not empty. *)
Lemma search_trace_trimmed files s q :
  strip q <> [] ->
  search_trace files s q =
    if reread_on_query s then ([MmapScan], _mmap_search files s (strip q))
    else if contains (strip q) (file_content s) then ([ReadContent], STRING_EXISTS)
    else if bool_decide (strip q ∈ file_lines s)
         then ([ReadContent; ReadLines], STRING_EXISTS)
         else ([ReadContent; ReadLines; MmapScan], _mmap_search files s (strip q)).
Proof.
  intros Ht. unfold search_trace, search_body.
  assert (Hq : truthy q = true).
  { destruct q; [done | done]. }
  apply truthy_true in Ht as Ht'. rewrite Hq, Ht'. simpl.
  destruct (reread_on_query s); [done|].
  destruct (file_content s) as [|c0 content] eqn:Ec.
  - rewrite (contains_nil_r _ Ht). simpl.
    destruct (bool_decide (file_lines s ≠ ∅)) eqn:El; simpl;
      [by destruct (bool_decide (strip q ∈ file_lines s))|].
    apply bool_decide_eq_false in El.
    assert (file_lines s = ∅) as -> by (destruct (decide (file_lines s = ∅)); done).
    rewrite bool_decide_eq_false_2; [done | set_solver].
  - simpl truthy. cbv beta iota. rewrite andb_true_l.
    destruct (contains (strip q) (c0 :: content)); [done|].
    destruct (bool_decide (strip q ∈ file_lines s)) eqn:Em.
    + apply bool_decide_eq_true in Em.
      rewrite bool_decide_eq_true_2; [done | set_solver].
    + by rewrite andb_false_r.
Qed.

(** C9. The search is invariant under surrounding white space: a query
    whose trimmed form is not empty gets the result of its trimmed form,
    in static and in dynamic mode alike. *)
Theorem search_string_strip_invariant files s q :
  strip q <> [] ->
  search_string files s q = search_string files s (strip q).
Proof.
  intros Ht. unfold search_string.
  rewrite (search_trace_trimmed files s q Ht).
  rewrite (search_trace_trimmed files s (strip q)); rewrite strip_idemp; done.
Qed.

Lemma search_string_strip_invariant_witness :
  strip (lit " pear  ") <> []
  /\ search_string (Examples.disk Examples.fruit []) (Examples.static_server Examples.fruit)
       (lit " pear  ")
     = search_string (Examples.disk Examples.fruit []) (Examples.static_server Examples.fruit)
         (strip (lit " pear  ")).
Proof.
  split.
  - vm_compute. discriminate.
  - apply search_string_strip_invariant. vm_compute. discriminate.
Defined.

(** C2, as stated, fails on the queries the search takes for empty.  In
    static mode a query of white space is not empty, its trimmed form
    occurs in every cached text, and yet nothing is looked at and the
    answer is the not-found token.  In dynamic mode the empty query does
    not go to the scan, which would find it. *)
Lemma search_order_counterexample :
  let files := Examples.disk Examples.fruit [] in
  (lit " " <> []
   /\ contains (strip (lit " ")) (file_content (Examples.static_server Examples.fruit))
      = true
   /\ search_trace files (Examples.static_server Examples.fruit) (lit " ")
      = ([], STRING_NOT_FOUND))
  /\ (_mmap_search files (Examples.fresh true) [] = STRING_EXISTS
      /\ search_trace files (Examples.fresh true) [] = ([], STRING_NOT_FOUND)).
Proof. cbv zeta. repeat split; by vm_compute. Qed.

(** What the search does with a query whose trimmed form is empty: it
    answers at once. *)
Lemma search_trace_blank files s q :
  strip q = [] -> search_trace files s q = ([], STRING_NOT_FOUND).
Proof.
  intros Ht. unfold search_trace, search_body. rewrite Ht.
  by destruct (truthy q).
Qed.

(** C2, amended. For every query whose trimmed form [t] is not empty: in
    static mode the search looks at the cached text first and answers
    found if [t] occurs in it; otherwise it looks at the cached line set
    and answers found if [t] is a member; otherwise it gives the answer
    of the memory-mapped scan. In dynamic mode it goes to the scan at
    once, and its answer does not depend on the cache fields.  A query
    whose trimmed form is empty gets the not-found token in both modes,
    and nothing is looked at. *)
Theorem search_string_order files s q :
  let t := strip q in
  (t <> [] -> reread_on_query s = false ->
     (contains t (file_content s) = true ->
        search_trace files s q = ([ReadContent], STRING_EXISTS))
     /\ (contains t (file_content s) = false -> t ∈ file_lines s ->
        search_trace files s q = ([ReadContent; ReadLines], STRING_EXISTS))
     /\ (contains t (file_content s) = false -> t ∉ file_lines s ->
        search_trace files s q =
          ([ReadContent; ReadLines; MmapScan], _mmap_search files s t)))
  /\ (t <> [] -> reread_on_query s = true ->
        search_trace files s q = ([MmapScan], _mmap_search files s t)
        /\ forall lines content,
             search_trace files (set_cache lines content s) q
             = search_trace files s q)
  /\ (t = [] ->
        search_trace files s q = ([], STRING_NOT_FOUND)
        /\ search_string files s q = STRING_NOT_FOUND).
Proof.
  intros t. subst t. split_and!.
  - intros Ht Hm. rewrite (search_trace_trimmed files s q Ht), Hm.
    split; [|split].
    + by intros ->.
    + intros -> Hin. by rewrite bool_decide_eq_true_2.
    + intros -> Hin. by rewrite bool_decide_eq_false_2.
  - intros Ht Hm. rewrite (search_trace_trimmed files s q Ht), Hm.
    split; [done|]. intros lines content.
    rewrite (search_trace_trimmed _ _ q Ht). simpl. by rewrite Hm.
  - intros Ht. unfold search_string.
    by rewrite (search_trace_blank files s q Ht).
Qed.

Lemma search_string_order_witness :
  search_trace (Examples.disk Examples.fruit []) (Examples.static_server Examples.fruit)
    (lit "pear")
  = ([ReadContent], STRING_EXISTS)
  /\ search_trace (Examples.disk Examples.fruit []) (Examples.fresh true) (lit "pear")
     = ([MmapScan],
        _mmap_search (Examples.disk Examples.fruit []) (Examples.fresh true)
          (strip (lit "pear")))
  /\ search_trace (Examples.disk Examples.fruit []) (Examples.static_server Examples.fruit)
       (lit "  ")
     = ([], STRING_NOT_FOUND).
Proof.
  assert (Ht : strip (lit "pear") <> []) by (vm_compute; discriminate).
  split_and!.
  - destruct (search_string_order (Examples.disk Examples.fruit [])
                (Examples.static_server Examples.fruit) (lit "pear")) as (Hs & _ & _).
    apply (Hs Ht); vm_compute; reflexivity.
  - destruct (search_string_order (Examples.disk Examples.fruit [])
                (Examples.fresh true) (lit "pear")) as (_ & Hd & _).
    apply (Hd Ht). reflexivity.
  - destruct (search_string_order (Examples.disk Examples.fruit [])
                (Examples.static_server Examples.fruit) (lit "  ")) as (_ & _ & Hb).
    apply Hb. vm_compute. reflexivity.
Defined.

End SearchFacts.

(** ** The cache *)

Module CacheFacts.
Import Py PyFacts Server Spec.

Lemma kept_line_nonempty line : truthy (strip line) = true -> rstrip_char 10 line <> [].
Proof.
  intros Ht. apply truthy_true, strip_nonempty_char in Ht as (c & Hin & Hc).
  apply (rstrip_by_keeps _ _ c Hin).
  apply N.eqb_neq. intros <-. done.
Qed.

Lemma kept_lines_nonempty lines l : l ∈ kept_lines lines -> l <> [].
Proof.
  unfold kept_lines. intros Hin.
  apply list_elem_of_fmap in Hin as (line & -> & Hin).
  apply list_elem_of_filter in Hin as [Ht _].
  apply kept_line_nonempty. by destruct (truthy (strip line)).
Qed.

Lemma join_nonempty sep parts l :
  l ∈ parts -> l <> [] -> join sep parts <> [].
Proof.
  induction parts as [|p rest IH]; [set_solver|].
  intros Hin Hl. apply elem_of_cons in Hin as [<- | Hin].
  - destruct rest; simpl; [done|]. by destruct l.
  - specialize (IH Hin Hl). destruct rest as [|r rest]; [set_solver|].
    change (join sep (p :: r :: rest)) with (p ++ sep ++ join sep (r :: rest)).
    intros H. apply app_eq_nil in H as [_ H]. by apply app_eq_nil in H as [_ H].
Qed.

Lemma read_file_kept files s :
  _read_file files s = []
  \/ exists lines, Fs.read_lines (files (file_path s)) = Ok lines
                   /\ _read_file files s = kept_lines lines.
Proof.
  unfold _read_file.
  destruct (Fs.read_lines (files (file_path s))) as [lines|e]; simpl; eauto.
Qed.

(** Loading assigns the two cache fields together. *)
Lemma load_file_once_whole files s : cache_whole (_load_file_once files s).
Proof.
  unfold _load_file_once, cache_whole.
  destruct (Fs.is_file (files (file_path s))); simpl; [|by left].
  destruct (_read_file files s) as [|l0 ls] eqn:E; cbn [truthy]; [by left|].
  right. unfold set_cache. cbn [file_lines file_content]. split.
  - apply (non_empty_inhabited_L l0). set_solver.
  - destruct (read_file_kept files s) as [H | (lines & _ & H)];
      rewrite E in H; [done|].
    apply (join_nonempty _ _ l0); [set_solver|].
    apply (kept_lines_nonempty lines). rewrite <- H. set_solver.
Qed.

Lemma load_file_once_mode files s :
  reread_on_query (_load_file_once files s) = reread_on_query s.
Proof. unfold _load_file_once. by repeat case_match. Qed.

(** What a constructed server looks like. *)
Lemma init_cache lib files config_file s :
  Server.__init__ lib files config_file = Ok s ->
  cache_whole s /\ (reread_on_query s = true -> cache_empty s).
Proof.
  unfold Server.__init__, init_body. intros H.
  destruct (Config.__init__ files config_file) as [config|e]; cbn [rbind] in H; [|done].
  set (s0 := mk _ _ _ _ _ _ _ _ _ _ _ _ _ _) in H.
  set (s1 := if negb (reread_on_query s0) then _ else _) in H.
  assert (Hs1 : cache_whole s1 /\ (reread_on_query s1 = true -> cache_empty s1)).
  { subst s1. destruct (reread_on_query s0) eqn:Em; simpl.
    - split; [by left | done].
    - split; [apply load_file_once_whole|].
      rewrite load_file_once_mode, Em. done. }
  assert (Hset : forall en ctx, cache_whole (set_ssl en ctx s1)
            /\ (reread_on_query (set_ssl en ctx s1) = true ->
                cache_empty (set_ssl en ctx s1))) by (intros; apply Hs1).
  repeat case_match; simplify_eq; apply Hset.
Qed.

Lemma exec_cache files s o :
  file_lines (exec files s o) = file_lines s
  /\ file_content (exec files s o) = file_content s
  /\ reread_on_query (exec files s o) = reread_on_query s.
Proof. by destruct o. Qed.

Lemma run_cache s calls :
  file_lines (run s calls) = file_lines s
  /\ file_content (run s calls) = file_content s
  /\ reread_on_query (run s calls) = reread_on_query s.
Proof.
  unfold run. revert s. induction calls as [|[files o] calls IH]; intros s; [done|].
  simpl. destruct (IH (exec files s o)) as (-> & -> & ->). apply exec_cache.
Qed.

(** C8. After construction, and after any sequence of calls on the
    server object, the two cache fields are both empty or both
    populated; in dynamic mode they are both empty, and stay so. *)
Theorem cache_invariant lib files config_file s calls :
  Server.__init__ lib files config_file = Ok s ->
  cache_whole (run s calls)
  /\ (reread_on_query s = true -> cache_empty (run s calls)).
Proof.
  intros Hinit. destruct (init_cache _ _ _ _ Hinit) as [Hw He].
  destruct (run_cache s calls) as (Hl & Hc & _).
  unfold cache_whole, cache_empty in *. rewrite Hl, Hc. done.
Qed.

Lemma cache_invariant_witness :
  (exists s,
     Server.__init__ Examples.lenient (Examples.disk Examples.fruit Examples.static_conf)
          Examples.config_path = Ok s
     /\ cache_whole (run s [(Examples.disk [] [], CallSearch (lit "pear"));
                            (Examples.disk [] [], CallShutdown)]))
  /\ (exists s,
        Server.__init__ Examples.lenient (Examples.disk Examples.fruit Examples.dynamic_conf)
             Examples.config_path = Ok s
        /\ cache_empty (run s [(Examples.disk Examples.fruit [],
                                CallSearch (lit "pear"))])).
Proof.
  split.
  - destruct (Server.__init__ Examples.lenient (Examples.disk Examples.fruit Examples.static_conf)
                Examples.config_path) as [s|e] eqn:E.
    + exists s. split; [reflexivity|]. by apply (cache_invariant _ _ _ _ _ E).
    + assert (H : is_ok (Server.__init__ Examples.lenient
                           (Examples.disk Examples.fruit Examples.static_conf)
                           Examples.config_path) = true) by (vm_compute; reflexivity).
      rewrite E in H. discriminate H.
  - assert (H : match Server.__init__ Examples.lenient
                        (Examples.disk Examples.fruit Examples.dynamic_conf)
                        Examples.config_path with
                | Ok s => reread_on_query s
                | Raise _ => false
                end = true) by (vm_compute; reflexivity).
    destruct (Server.__init__ Examples.lenient (Examples.disk Examples.fruit Examples.dynamic_conf)
                Examples.config_path) as [s|e] eqn:E; [|discriminate H].
    exists s. split; [reflexivity|]. by apply (cache_invariant _ _ _ _ _ E).
Defined.

End CacheFacts.

(** ** The UTF-8 codec *)

Module Utf8Facts.
Import Py PyFacts Utf8.

Lemma n2b_b2n b : n2b (b2n b) = b.
Proof. unfold n2b, b2n. by rewrite Byte.of_to_N. Qed.

Lemma b2n_n2b n : n < 256 -> b2n (n2b n) = n.
Proof.
  intros Hn. unfold n2b, b2n.
  destruct (Byte.of_N n) as [b|] eqn:E.
  - by apply Byte.to_of_N.
  - apply Byte.of_N_None_iff in E. lia.
Qed.

Lemma b2n_bound b : b2n b < 256.
Proof. unfold b2n. pose proof (Byte.to_N_bounded b). lia. Qed.

Lemma div_mod_unique a b q r : r < b -> a = b * q + r -> a / b = q /\ a mod b = r.
Proof.
  intros Hr Ha. split; symmetry.
  - by apply (N.div_unique a b q r).
  - by apply (N.mod_unique a b q r).
Qed.

Lemma is_cont_range b : is_cont b = true <-> 128 <= b2n b <= 191.
Proof. unfold is_cont. rewrite andb_true_iff, !N.leb_le. done. Qed.

Lemma range_true lo hi n : (lo <=? n) && (n <=? hi) = true <-> lo <= n <= hi.
Proof. rewrite andb_true_iff, !N.leb_le. done. Qed.

(** *** Decoding a well-formed sequence gives a character whose encoding
    is that sequence *)

Lemma encode_char_1 b0 : b2n b0 < 128 -> encode_char (b2n b0) = Some [b0].
Proof.
  intros H. unfold encode_char.
  rewrite (proj2 (N.ltb_lt _ _) H). by rewrite n2b_b2n.
Qed.

Lemma encode_char_2 b0 b1 :
  194 <= b2n b0 <= 223 -> is_cont b1 = true ->
  encode_char ((b2n b0 - 192) * 64 + (b2n b1 - 128)) = Some [b0; b1].
Proof.
  intros H0 H1%is_cont_range.
  set (d := b2n b0 - 192). set (e := b2n b1 - 128).
  destruct (div_mod_unique (d * 64 + e) 64 d e) as [Hq Hr]; [lia | lia |].
  unfold encode_char.
  rewrite (proj2 (N.ltb_ge _ _)) by lia.
  rewrite (proj2 (N.ltb_lt _ _)) by lia.
  rewrite Hq, Hr.
  replace (192 + d) with (b2n b0) by lia.
  replace (128 + e) with (b2n b1) by lia.
  by rewrite !n2b_b2n.
Qed.

Lemma second_ok3_range b0 b1 :
  224 <= b2n b0 <= 239 -> second_ok3 b0 b1 = true ->
  128 <= b2n b1 <= 191
  /\ (b2n b0 = 224 -> 160 <= b2n b1) /\ (b2n b0 = 237 -> b2n b1 <= 159).
Proof.
  intros H0. unfold second_ok3. rewrite andb_true_iff, !N.leb_le.
  destruct (N.eqb_spec (b2n b0) 224), (N.eqb_spec (b2n b0) 237); lia.
Qed.

Lemma second_ok4_range b0 b1 :
  240 <= b2n b0 <= 244 -> second_ok4 b0 b1 = true ->
  128 <= b2n b1 <= 191
  /\ (b2n b0 = 240 -> 144 <= b2n b1) /\ (b2n b0 = 244 -> b2n b1 <= 143).
Proof.
  intros H0. unfold second_ok4. rewrite andb_true_iff, !N.leb_le.
  destruct (N.eqb_spec (b2n b0) 240), (N.eqb_spec (b2n b0) 244); lia.
Qed.

Lemma encode_char_3 b0 b1 b2 :
  224 <= b2n b0 <= 239 -> second_ok3 b0 b1 = true -> is_cont b2 = true ->
  encode_char ((b2n b0 - 224) * 4096 + (b2n b1 - 128) * 64 + (b2n b2 - 128))
  = Some [b0; b1; b2].
Proof.
  intros H0 H1 H2%is_cont_range.
  destruct (second_ok3_range b0 b1 H0 H1) as (H1r & Hlo & Hhi).
  set (b := b2n b0 - 224). set (d := b2n b1 - 128). set (e := b2n b2 - 128).
  set (c := b * 4096 + d * 64 + e).
  destruct (div_mod_unique c 4096 b (d * 64 + e)) as [Hq1 _]; [lia | lia |].
  destruct (div_mod_unique c 64 (b * 64 + d) e) as [Hq2 Hr2]; [lia | lia |].
  destruct (div_mod_unique (b * 64 + d) 64 b d) as [_ Hr3]; [lia | lia |].
  unfold encode_char.
  rewrite (proj2 (N.ltb_ge c 128)) by lia.
  rewrite (proj2 (N.ltb_ge c 2048)) by lia.
  rewrite (proj2 (N.ltb_lt c 65536)) by lia.
  assert (Hs : (55296 <=? c) && (c <=? 57343) = false).
  { apply not_true_iff_false. rewrite range_true. lia. }
  rewrite Hs, Hq1, Hq2, Hr2, Hr3.
  replace (224 + b) with (b2n b0) by lia.
  replace (128 + d) with (b2n b1) by lia.
  replace (128 + e) with (b2n b2) by lia.
  by rewrite !n2b_b2n.
Qed.

Lemma encode_char_4 b0 b1 b2 b3 :
  240 <= b2n b0 <= 244 -> second_ok4 b0 b1 = true ->
  is_cont b2 = true -> is_cont b3 = true ->
  encode_char ((b2n b0 - 240) * 262144 + (b2n b1 - 128) * 4096
               + (b2n b2 - 128) * 64 + (b2n b3 - 128))
  = Some [b0; b1; b2; b3].
Proof.
  intros H0 H1 H2%is_cont_range H3%is_cont_range.
  destruct (second_ok4_range b0 b1 H0 H1) as (H1r & Hlo & Hhi).
  set (a := b2n b0 - 240). set (b := b2n b1 - 128).
  set (d := b2n b2 - 128). set (e := b2n b3 - 128).
  set (c := a * 262144 + b * 4096 + d * 64 + e).
  destruct (div_mod_unique c 262144 a (b * 4096 + d * 64 + e)) as [Hq1 _]; [lia | lia |].
  destruct (div_mod_unique c 4096 (a * 64 + b) (d * 64 + e)) as [Hq2 _]; [lia | lia |].
  destruct (div_mod_unique c 64 (a * 4096 + b * 64 + d) e) as [Hq3 Hr3]; [lia | lia |].
  destruct (div_mod_unique (a * 64 + b) 64 a b) as [_ Hr4]; [lia | lia |].
  destruct (div_mod_unique (a * 4096 + b * 64 + d) 64 (a * 64 + b) d) as [_ Hr5]; [lia | lia |].
  unfold encode_char.
  rewrite (proj2 (N.ltb_ge c 128)) by lia.
  rewrite (proj2 (N.ltb_ge c 2048)) by lia.
  rewrite (proj2 (N.ltb_ge c 65536)) by lia.
  rewrite (proj2 (N.ltb_lt c 1114112)) by lia.
  rewrite Hq1, Hq2, Hq3, Hr3, Hr4, Hr5.
  replace (240 + a) with (b2n b0) by lia.
  replace (128 + b) with (b2n b1) by lia.
  replace (128 + d) with (b2n b2) by lia.
  replace (128 + e) with (b2n b3) by lia.
  by rewrite !n2b_b2n.
Qed.

(** *** The encoding of a character is a well-formed sequence that
    decodes to it *)

Lemma radix64 c :
  exists q1 r1 q2 r2 q3 r3,
    c = 64 * q1 + r1 /\ r1 < 64 /\ q1 = 64 * q2 + r2 /\ r2 < 64
    /\ q2 = 64 * q3 + r3 /\ r3 < 64
    /\ c / 64 = q1 /\ c mod 64 = r1 /\ (c / 64) mod 64 = r2
    /\ c / 4096 = q2 /\ (c / 4096) mod 64 = r3 /\ c / 262144 = q3.
Proof.
  exists (c / 64), (c mod 64), (c / 64 / 64), ((c / 64) mod 64),
         (c / 64 / 64 / 64), ((c / 64 / 64) mod 64).
  assert (H4096 : c / 4096 = c / 64 / 64) by (by rewrite N.Div0.div_div).
  assert (H262144 : c / 262144 = c / 64 / 64 / 64) by (by rewrite !N.Div0.div_div).
  rewrite H4096, H262144.
  repeat split; try apply N.div_mod'; try (apply N.mod_lt; done).
Qed.

Lemma well_formed_encode c enc : well_formed c enc -> encode_char c = Some enc.
Proof.
  destruct 1.
  - by apply encode_char_1.
  - by apply encode_char_2.
  - by apply encode_char_3.
  - by apply encode_char_4.
Qed.

Lemma is_cont_n2b r : r < 64 -> is_cont (n2b (128 + r)) = true.
Proof. intros Hr. apply is_cont_range. rewrite b2n_n2b by lia. lia. Qed.

Lemma encode_well_formed c enc : encode_char c = Some enc -> well_formed c enc.
Proof.
  destruct (radix64 c)
    as (q1 & r1 & q2 & r2 & q3 & r3 & Hc & Hr1 & Hq1 & Hr2 & Hq2 & Hr3
        & E1 & E2 & E3 & E4 & E5 & E6).
  unfold encode_char. rewrite E3, E5, E1, E2, E4, E6.
  destruct (N.ltb_spec c 128) as [H1|H1].
  { intros [= <-]. rewrite <- (b2n_n2b c) at 1 by lia.
    apply wf1. rewrite b2n_n2b; lia. }
  destruct (N.ltb_spec c 2048) as [H2|H2].
  { intros [= <-].
    replace c with ((b2n (n2b (192 + q1)) - 192) * 64 + (b2n (n2b (128 + r1)) - 128)) at 1
      by (rewrite !b2n_n2b; lia).
    apply wf2; [rewrite b2n_n2b; lia | by apply is_cont_n2b]. }
  destruct (N.ltb_spec c 65536) as [H3|H3].
  { destruct ((55296 <=? c) && (c <=? 57343)) eqn:Hs; [done|].
    apply not_true_iff_false in Hs. rewrite range_true in Hs.
    intros [= <-].
    replace c with ((b2n (n2b (224 + q2)) - 224) * 4096
                    + (b2n (n2b (128 + r2)) - 128) * 64
                    + (b2n (n2b (128 + r1)) - 128)) at 1
      by (rewrite !b2n_n2b; lia).
    apply wf3; [rewrite b2n_n2b; lia | | by apply is_cont_n2b].
    unfold second_ok3. rewrite !b2n_n2b by lia. apply range_true.
    destruct (N.eqb_spec (224 + q2) 224), (N.eqb_spec (224 + q2) 237); lia. }
  destruct (N.ltb_spec c 1114112) as [H4|H4]; [|done].
  intros [= <-].
  replace c with ((b2n (n2b (240 + q3)) - 240) * 262144
                  + (b2n (n2b (128 + r3)) - 128) * 4096
                  + (b2n (n2b (128 + r2)) - 128) * 64
                  + (b2n (n2b (128 + r1)) - 128)) at 1
    by (rewrite !b2n_n2b; lia).
  apply wf4; [rewrite b2n_n2b; lia | | by apply is_cont_n2b | by apply is_cont_n2b].
  unfold second_ok4. rewrite !b2n_n2b by lia. apply range_true.
  destruct (N.eqb_spec (240 + q3) 240), (N.eqb_spec (240 + q3) 244); lia.
Qed.

Lemma well_formed_length c enc : well_formed c enc -> (0 < length enc)%nat.
Proof. destruct 1; simpl; lia. Qed.

Lemma range_false lo hi n :
  ~ (lo <= n <= hi) -> (lo <=? n) && (n <=? hi) = false.
Proof. intros H. apply not_true_iff_false. by rewrite range_true. Qed.

(** The decoder, whatever its error handler, reads a well-formed sequence
    as its character and goes on after it. *)
Lemma decode_well_formed e c enc rest :
  well_formed c enc -> decode e (enc ++ rest) = emit c (decode e rest).
Proof.
  destruct 1 as [b0 H0 | b0 b1 H0 H1 | b0 b1 b2 H0 H1 H2 | b0 b1 b2 b3 H0 H1 H2 H3];
    cbn [app decode].
  - by rewrite (proj2 (N.ltb_lt _ _) H0).
  - rewrite (proj2 (N.ltb_ge _ _)) by lia.
    rewrite (proj2 (range_true 194 223 _) H0). by rewrite H1.
  - rewrite (proj2 (N.ltb_ge _ _)) by lia.
    rewrite (range_false 194 223) by lia.
    rewrite (proj2 (range_true 224 239 _) H0). by rewrite H1, H2.
  - rewrite (proj2 (N.ltb_ge _ _)) by lia.
    rewrite (range_false 194 223) by lia.
    rewrite (range_false 224 239) by lia.
    rewrite (proj2 (range_true 240 244 _) H0). by rewrite H1, H2, H3.
Qed.

(** A strict decoding that succeeds read a well-formed sequence first. *)
Lemma decode_strict_inv bs text :
  decode Strict bs = Some text ->
  (bs = [] /\ text = [])
  \/ exists c enc rest text',
       well_formed c enc /\ bs = enc ++ rest /\ text = c :: text'
       /\ decode Strict rest = Some text'.
Proof.
  destruct bs as [|b0 r0]; intros H; [left; by simplify_eq/=|]. right.
  cbn [decode on_error] in H.
  destruct (N.ltb_spec (b2n b0) 128) as [L1|L1].
  { destruct (decode Strict r0) as [t|] eqn:E; [|done]. simplify_eq/=.
    exists (b2n b0), [b0], r0, t. split; [by apply wf1 | done]. }
  destruct ((194 <=? b2n b0) && (b2n b0 <=? 223)) eqn:E2.
  { apply range_true in E2. destruct r0 as [|b1 r1]; [done|].
    destruct (is_cont b1) eqn:Ec; [|done].
    destruct (decode Strict r1) as [t|] eqn:E; [|done]. simplify_eq/=.
    eexists _, [b0; b1], r1, t. split; [by apply wf2 | done]. }
  destruct ((224 <=? b2n b0) && (b2n b0 <=? 239)) eqn:E3.
  { apply range_true in E3. destruct r0 as [|b1 r1]; [done|].
    destruct (second_ok3 b0 b1) eqn:Es; [|done].
    destruct r1 as [|b2 r2]; [done|].
    destruct (is_cont b2) eqn:Ec; [|done].
    destruct (decode Strict r2) as [t|] eqn:E; [|done]. simplify_eq/=.
    eexists _, [b0; b1; b2], r2, t. split; [by apply wf3 | done]. }
  destruct ((240 <=? b2n b0) && (b2n b0 <=? 244)) eqn:E4; [|done].
  apply range_true in E4. destruct r0 as [|b1 r1]; [done|].
  destruct (second_ok4 b0 b1) eqn:Es; [|done].
  destruct r1 as [|b2 r2]; [done|].
  destruct (is_cont b2) eqn:Ec2; [|done].
  destruct r2 as [|b3 r3]; [done|].
  destruct (is_cont b3) eqn:Ec3; [|done].
  destruct (decode Strict r3) as [t|] eqn:E; [|done]. simplify_eq/=.
  eexists _, [b0; b1; b2; b3], r3, t. split; [by apply wf4 | done].
Qed.

(** Induction over a successful strict decoding, one character at a
    time. *)
Lemma decode_strict_ind (P : bytes -> str -> Prop) :
  P [] [] ->
  (forall c enc rest text,
     well_formed c enc -> decode Strict rest = Some text -> P rest text ->
     P (enc ++ rest) (c :: text)) ->
  forall bs text, decode Strict bs = Some text -> P bs text.
Proof.
  intros Hnil Hstep bs.
  induction (Nat.lt_wf_0_projected length bs) as [bs _ IH].
  intros text H.
  destruct (decode_strict_inv bs text H)
    as [[-> ->] | (c & enc & rest & text' & Hwf & -> & -> & Hrest)]; [done|].
  apply Hstep; [done | done |]. apply IH; [|done].
  pose proof (well_formed_length _ _ Hwf). rewrite length_app. lia.
Qed.

(** Decoding and then encoding gives the bytes back. *)
Lemma encode_decode bs text : decode Strict bs = Some text -> encode text = Some bs.
Proof.
  revert bs text. apply decode_strict_ind; [done|].
  intros c enc rest text Hwf _ IH. simpl.
  by rewrite (well_formed_encode _ _ Hwf), IH.
Qed.

(** Where strict decoding succeeds, every error handler gives the same
    text. *)
Lemma decode_strict_any e bs text :
  decode Strict bs = Some text -> decode e bs = Some text.
Proof.
  revert bs text. apply decode_strict_ind; [by destruct e|].
  intros c enc rest text Hwf _ IH.
  by rewrite (decode_well_formed e _ _ _ Hwf), IH.
Qed.

Lemma emit_is_Some c k : is_Some k -> is_Some (emit c k).
Proof. intros [x ->]. by eexists. Qed.

(** Decoding with [errors="ignore"] never raises. *)
Lemma decode_ignore_total bs : is_Some (decode Ignore bs).
Proof.
  induction (Nat.lt_wf_0_projected length bs) as [bs _ IH].
  destruct bs as [|b0 r0]; [by eexists|].
  cbn [decode on_error].
  repeat case_match; subst; try apply emit_is_Some; try (by eexists);
    apply IH; simpl; lia.
Qed.

(** One step of a decoding with [errors="ignore"]: a well-formed
    sequence is read as its character, or some bytes are skipped. *)
Lemma decode_ignore_inv bs text :
  decode Ignore bs = Some text -> bs <> [] ->
  (exists c enc rest text',
     well_formed c enc /\ bs = enc ++ rest /\ text = c :: text'
     /\ decode Ignore rest = Some text')
  \/ (exists skipped rest,
        skipped <> [] /\ bs = skipped ++ rest /\ decode Ignore rest = Some text).
Proof.
  destruct bs as [|b0 r0]; [done|]. intros H _.
  cbn [decode on_error] in H.
  assert (Hskip : forall skipped rest,
            skipped <> [] -> b0 :: r0 = skipped ++ rest ->
            decode Ignore rest = Some text ->
            exists skipped rest,
              skipped <> [] /\ b0 :: r0 = skipped ++ rest
              /\ decode Ignore rest = Some text) by eauto.
  destruct (N.ltb_spec (b2n b0) 128) as [L1|L1].
  { left. destruct (decode Ignore r0) as [t|] eqn:E; [|done]. simplify_eq/=.
    exists (b2n b0), [b0], r0, t. split; [by apply wf1 | done]. }
  destruct ((194 <=? b2n b0) && (b2n b0 <=? 223)) eqn:E2.
  { apply range_true in E2. destruct r0 as [|b1 r1].
    { right. by apply (Hskip [b0] []). }
    destruct (is_cont b1) eqn:Ec; [|right; by apply (Hskip [b0] (b1 :: r1))].
    left. destruct (decode Ignore r1) as [t|] eqn:E; [|done]. simplify_eq/=.
    eexists _, [b0; b1], r1, t. split; [by apply wf2 | done]. }
  destruct ((224 <=? b2n b0) && (b2n b0 <=? 239)) eqn:E3.
  { apply range_true in E3. destruct r0 as [|b1 r1].
    { right. by apply (Hskip [b0] []). }
    destruct (second_ok3 b0 b1) eqn:Es; [|right; by apply (Hskip [b0] (b1 :: r1))].
    destruct r1 as [|b2 r2].
    { right. by apply (Hskip [b0; b1] []). }
    destruct (is_cont b2) eqn:Ec; [|right; by apply (Hskip [b0; b1] (b2 :: r2))].
    left. destruct (decode Ignore r2) as [t|] eqn:E; [|done]. simplify_eq/=.
    eexists _, [b0; b1; b2], r2, t. split; [by apply wf3 | done]. }
  destruct ((240 <=? b2n b0) && (b2n b0 <=? 244)) eqn:E4;
    [|right; by apply (Hskip [b0] r0)].
  apply range_true in E4. destruct r0 as [|b1 r1].
  { right. by apply (Hskip [b0] []). }
  destruct (second_ok4 b0 b1) eqn:Es; [|right; by apply (Hskip [b0] (b1 :: r1))].
  destruct r1 as [|b2 r2].
  { right. by apply (Hskip [b0; b1] []). }
  destruct (is_cont b2) eqn:Ec2; [|right; by apply (Hskip [b0; b1] (b2 :: r2))].
  destruct r2 as [|b3 r3].
  { right. by apply (Hskip [b0; b1; b2] []). }
  destruct (is_cont b3) eqn:Ec3;
    [|right; by apply (Hskip [b0; b1; b2] (b3 :: r3))].
  left. destruct (decode Ignore r3) as [t|] eqn:E; [|done]. simplify_eq/=.
  eexists _, [b0; b1; b2; b3], r3, t. split; [by apply wf4 | done].
Qed.

(** Decoding with [errors="ignore"] only drops bytes: the bytes of the
    text it gives are the chunk with some bytes left out. *)
Lemma decode_ignore_sublist bs text :
  decode Ignore bs = Some text ->
  exists kept, encode text = Some kept /\ sublist kept bs.
Proof.
  revert text. induction (Nat.lt_wf_0_projected length bs) as [bs _ IH].
  intros text H.
  destruct (decide (bs = [])) as [->|Hne].
  { simpl in H. simplify_eq. by exists []. }
  destruct (decode_ignore_inv bs text H Hne)
    as [(c & enc & rest & text' & Hwf & -> & -> & Hrest)
       | (skipped & rest & Hs & -> & Hrest)].
  - destruct (IH rest) with (text := text') as (kept & Hk & Hsub); [|done|].
    { pose proof (well_formed_length _ _ Hwf). rewrite length_app. lia. }
    exists (enc ++ kept). simpl.
    rewrite (well_formed_encode _ _ Hwf), Hk. split; [done|].
    by apply sublist_app.
  - destruct (IH rest) with (text := text) as (kept & Hk & Hsub); [|done|].
    { destruct skipped; [done|]. rewrite length_app. simpl. lia. }
    exists kept. split; [done|]. by apply sublist_inserts_l.
Qed.

(** Encoding and then decoding gives the text back. *)
Lemma decode_encode e text bs : encode text = Some bs -> decode e bs = Some text.
Proof.
  revert bs. induction text as [|c text IH]; intros bs; simpl.
  - intros [= <-]. done.
  - destruct (encode_char c) as [enc|] eqn:Ec; [|done].
    destruct (encode text) as [rest|] eqn:Er; [|done].
    intros [= <-]. apply encode_well_formed in Ec.
    by rewrite (decode_well_formed e _ _ _ Ec), (IH rest eq_refl).
Qed.

(** *** Self-synchronisation: an occurrence of the bytes of a text is an
    occurrence of the text *)

Lemma well_formed_shape c enc :
  well_formed c enc ->
  exists h tl, enc = h :: tl /\ is_cont h = false
               /\ Forall (fun b => is_cont b = true) tl.
Proof.
  assert (Hlead : forall b, ~ (128 <= b2n b <= 191) -> is_cont b = false).
  { intros b Hb. apply not_true_iff_false. by rewrite is_cont_range. }
  destruct 1 as [b0 H0 | b0 b1 H0 H1 | b0 b1 b2 H0 H1 H2 | b0 b1 b2 b3 H0 H1 H2 H3].
  - exists b0, []. split; [done|]. split; [apply Hlead; lia | constructor].
  - exists b0, [b1]. split; [done|]. split; [apply Hlead; lia|].
    by repeat constructor.
  - destruct (second_ok3_range b0 b1 H0 H1) as (H1r & _).
    exists b0, [b1; b2]. split; [done|]. split; [apply Hlead; lia|].
    repeat constructor; [by apply is_cont_range | done].
  - destruct (second_ok4_range b0 b1 H0 H1) as (H1r & _).
    exists b0, [b1; b2; b3]. split; [done|]. split; [apply Hlead; lia|].
    repeat constructor; [by apply is_cont_range | done | done].
Qed.

(** No well-formed sequence is a prefix of another. *)
Lemma well_formed_prefix_free c d x y u v :
  well_formed c x -> well_formed d y -> x ++ u = y ++ v ->
  c = d /\ x = y /\ u = v.
Proof.
  intros Hx Hy Heq.
  pose proof (decode_well_formed Ignore c x u Hx) as Dx.
  pose proof (decode_well_formed Ignore d y v Hy) as Dy.
  rewrite Heq in Dx. rewrite Dx in Dy.
  destruct (decode_ignore_total u) as [tu Eu].
  destruct (decode_ignore_total v) as [tv Ev].
  rewrite Eu, Ev in Dy. simpl in Dy. simplify_eq.
  apply well_formed_encode in Hx, Hy. by simplify_eq.
Qed.

Lemma encode_cons_inv c t bs :
  encode (c :: t) = Some bs ->
  exists x bt, well_formed c x /\ encode t = Some bt /\ bs = x ++ bt.
Proof.
  simpl. destruct (encode_char c) as [x|] eqn:Ec; [|done].
  destruct (encode t) as [bt|] eqn:Et; [|done].
  intros [= <-]. exists x, bt. split; [by apply encode_well_formed | done].
Qed.

Lemma encode_prefix t text bt post :
  encode t = Some bt -> encode text = Some (bt ++ post) ->
  exists k, text = t ++ k.
Proof.
  revert text bt post. induction t as [|c t IH]; intros text bt post Ht Htext.
  - by exists text.
  - apply encode_cons_inv in Ht as (x & bt' & Hx & Ht' & ->).
    destruct text as [|d text].
    + simpl in Htext. simplify_eq.
      apply well_formed_length in Hx.
      assert (Hlen : length ([] : bytes) = length ((x ++ bt') ++ post)) by congruence.
      rewrite !length_app in Hlen. simpl in Hlen. lia.
    + apply encode_cons_inv in Htext as (y & brest & Hy & Hrest & Heq).
      rewrite <- app_assoc in Heq. symmetry in Heq.
      destruct (well_formed_prefix_free _ _ _ _ _ _ Hy Hx Heq) as (-> & -> & ->).
      destruct (IH text bt' post Ht' Hrest) as [k ->].
      by exists k.
Qed.

Lemma encode_infix_at t text bt pre post :
  t <> [] -> encode t = Some bt -> encode text = Some (pre ++ bt ++ post) ->
  infix t text.
Proof.
  intros Hne Ht. revert pre. induction text as [|d text IH]; intros pre Htext.
  - destruct t as [|c t]; [done|].
    apply encode_cons_inv in Ht as (x & bt' & Hx & _ & ->).
    apply well_formed_length in Hx. simpl in Htext.
    assert (Hlen : length ([] : bytes) = length (pre ++ (x ++ bt') ++ post))
      by congruence.
    rewrite !length_app in Hlen. simpl in Hlen. lia.
  - pose proof Htext as Hfull.
    apply encode_cons_inv in Htext as (y & brest & Hy & Hrest & Heq).
    symmetry in Heq. apply app_eq_app in Heq as [l [[Hyl Hbt] | [-> ->]]].
    + destruct pre as [|p pre].
      * rewrite app_nil_l in Hfull.
        destruct (encode_prefix _ _ _ _ Ht Hfull) as [k ->].
        exists [], k. done.
      * destruct l as [|l0 l].
        { simpl in Hbt. subst brest. apply infix_cons. by apply (IH []). }
        exfalso.
        destruct (well_formed_shape _ _ Hy) as (h & tl & -> & _ & Htl).
        simpl in Hyl. injection Hyl as _ Htl'. subst tl.
        apply Forall_app in Htl as [_ Htl]. apply Forall_cons in Htl as [Hl0 _].
        destruct t as [|c t]; [done|].
        apply encode_cons_inv in Ht as (x & bt' & Hx & _ & ->).
        destruct (well_formed_shape _ _ Hx) as (h' & tl' & -> & Hh' & _).
        simpl in Hbt. injection Hbt as <- _. congruence.
    + apply infix_cons. by apply (IH l).
Qed.

(** If the bytes of a non-empty text [t] occur in the bytes of [text],
    then [t] occurs in [text]. *)
Lemma encode_infix t text bt btext :
  t <> [] -> encode t = Some bt -> encode text = Some btext ->
  infix bt btext -> infix t text.
Proof.
  intros Hne Ht Htext (pre & post & ->).
  by apply (encode_infix_at t text bt pre post).
Qed.

Lemma encode_app a b :
  encode (a ++ b) =
    match encode a, encode b with
    | Some x, Some y => Some (x ++ y)
    | _, _ => None
    end.
Proof.
  induction a as [|c a IH]; simpl.
  - by destruct (encode b).
  - rewrite IH. destruct (encode_char c), (encode a), (encode b); simpl; try done.
    by rewrite app_assoc.
Qed.

(** If [t] occurs in an encodable text, its bytes occur in the bytes of
    the text. *)
Lemma infix_encode t text btext :
  infix t text -> encode text = Some btext ->
  exists bt, encode t = Some bt /\ infix bt btext.
Proof.
  intros (a & b & ->). rewrite !encode_app.
  destruct (encode a) as [x|]; [|done].
  destruct (encode t) as [y|]; [|done].
  destruct (encode b) as [z|]; [|done].
  intros [= <-]. exists y. split; [done | by exists x, z].
Qed.

(** The incremental decoder and the strict one agree: what the first
    decodes of a block is what the second decodes of it, whatever
    follows, and what the first rejects the second rejects. *)
Lemma option_map_app_nil (k : option str) : option_map (app []) k = k.
Proof. by destruct k. Qed.

Lemma emit_keep c bs b :
  (forall b', decode Strict (bs ++ b')
     = match decode_stateful bs with
       | Some (text, rest) => option_map (app text) (decode Strict (rest ++ b'))
       | None => None
       end) ->
  emit c (decode Strict (bs ++ b))
  = match keep c (decode_stateful bs) with
    | Some (text, rest) => option_map (app text) (decode Strict (rest ++ b))
    | None => None
    end.
Proof.
  intros H. rewrite H. destruct (decode_stateful bs) as [[t p]|]; [|done].
  simpl. by destruct (decode Strict (p ++ b)).
Qed.

Lemma decode_stateful_spec bs : forall b,
  decode Strict (bs ++ b)
  = match decode_stateful bs with
    | Some (text, rest) => option_map (app text) (decode Strict (rest ++ b))
    | None => None
    end.
Proof.
  induction (Nat.lt_wf_0_projected length bs) as [bs _ IH]. intros b.
  destruct bs as [|b0 r0].
  { simpl. by rewrite option_map_app_nil. }
  cbn [decode_stateful].
  destruct (N.ltb_spec (b2n b0) 128) as [L1|L1].
  { cbn [app decode]. rewrite (proj2 (N.ltb_lt _ _) L1).
    apply emit_keep. intros b'. apply IH. simpl. lia. }
  destruct ((194 <=? b2n b0) && (b2n b0 <=? 223)) eqn:E2.
  { destruct r0 as [|b1 r1]; [by rewrite option_map_app_nil|].
    cbn [app decode on_error]. rewrite (proj2 (N.ltb_ge _ _) L1), E2.
    destruct (is_cont b1); [|done].
    apply emit_keep. intros b'. apply IH. simpl. lia. }
  destruct ((224 <=? b2n b0) && (b2n b0 <=? 239)) eqn:E3.
  { destruct r0 as [|b1 r1]; [by rewrite option_map_app_nil|].
    destruct (second_ok3 b0 b1) eqn:Es.
    - destruct r1 as [|b2 r2]; [by rewrite option_map_app_nil|].
      cbn [app decode on_error]. rewrite (proj2 (N.ltb_ge _ _) L1), E2, E3, Es.
      destruct (is_cont b2); [|done].
      apply emit_keep. intros b'. apply IH. simpl. lia.
    - destruct r1 as [|b2 r2].
      + destruct ((b2n b0 =? 237) && is_cont b1);
          [by rewrite option_map_app_nil|].
        cbn [app decode on_error]. by rewrite (proj2 (N.ltb_ge _ _) L1), E2, E3, Es.
      + cbn [app decode on_error]. by rewrite (proj2 (N.ltb_ge _ _) L1), E2, E3, Es. }
  destruct ((240 <=? b2n b0) && (b2n b0 <=? 244)) eqn:E4.
  { destruct r0 as [|b1 r1]; [by rewrite option_map_app_nil|].
    destruct (second_ok4 b0 b1) eqn:Es.
    - destruct r1 as [|b2 r2]; [by rewrite option_map_app_nil|].
      destruct (is_cont b2) eqn:Ec2.
      + destruct r2 as [|b3 r3]; [by rewrite option_map_app_nil|].
        cbn [app decode on_error].
        rewrite (proj2 (N.ltb_ge _ _) L1), E2, E3, E4, Es, Ec2.
        destruct (is_cont b3); [|done].
        apply emit_keep. intros b'. apply IH. simpl. lia.
      + cbn [app decode on_error].
        by rewrite (proj2 (N.ltb_ge _ _) L1), E2, E3, E4, Es, Ec2.
    - cbn [app decode on_error].
      by rewrite (proj2 (N.ltb_ge _ _) L1), E2, E3, E4, Es. }
  cbn [app decode on_error]. by rewrite (proj2 (N.ltb_ge _ _) L1), E2, E3, E4.
Qed.

End Utf8Facts.

(** ** Lines of a text *)

Module LineFacts.
Import Py PyFacts.

Lemma lstrip_by_keeps {A} (p : A -> bool) (s : list A) c :
  c ∈ s -> p c = false -> c ∈ lstrip_by p s.
Proof.
  induction s as [|d s IH]; [set_solver|].
  intros Hin Hc. simpl. destruct (p d) eqn:Hd; [|done].
  apply elem_of_cons in Hin as [-> | Hin]; [congruence | by apply IH].
Qed.

Lemma strip_keeps (s : str) c : c ∈ s -> isspace c = false -> strip s <> [].
Proof.
  intros Hin Hc. unfold strip.
  apply (rstrip_by_keeps _ _ c); [by apply lstrip_by_keeps | done].
Qed.

Lemma rstrip_char_infix ch (s : str) : infix (rstrip_char ch s) s.
Proof.
  destruct (rstrip_by_prefix (N.eqb ch) s) as [b Hb].
  exists [], b. done.
Qed.

Lemma iter_lines_concat (text : str) : concat (iter_lines text) = text.
Proof.
  induction text as [|c text IH]; simpl; [done|].
  destruct (c =? 10); simpl; [by rewrite IH|].
  destruct (iter_lines text) as [|l ls]; simpl in *; by rewrite <- IH.
Qed.

Lemma elem_infix_concat {A} (l : list A) ls : l ∈ ls -> infix l (concat ls).
Proof.
  induction ls as [|l0 ls IH]; [set_solver|].
  intros [-> | Hin]%elem_of_cons; simpl.
  - exists [], (concat ls). done.
  - apply infix_app_r. by apply IH.
Qed.

(** Every line the iteration yields occurs in the text. *)
Lemma iter_lines_infix (text l : str) : l ∈ iter_lines text -> infix l text.
Proof.
  intros Hin. rewrite <- (iter_lines_concat text). by apply elem_infix_concat.
Qed.

(** What occurs in the translated text and has no line break occurs in
    the text as it is on disk. *)
Lemma translate_prefix (u text : str) :
  10 ∉ u -> (exists k, translate_newlines text = u ++ k) ->
  exists k, text = u ++ k.
Proof.
  revert text. induction u as [|c u IH]; intros text Hu [k Hk].
  - by exists text.
  - destruct text as [|d text]; [done|]. simpl in Hk.
    destruct (N.eqb_spec d 13) as [->|Hd].
    + exfalso. apply Hu.
      destruct text as [|e text]; [|destruct (e =? 10)]; simplify_eq/=; set_solver.
    + simplify_eq/=. destruct (IH text) as [k' ->]; [set_solver | by exists k |].
      by exists k'.
Qed.

Lemma infix_cons_inv {A} (t s : list A) c :
  infix t (c :: s) -> (exists k, c :: s = t ++ k) \/ infix t s.
Proof.
  intros (a & b & H). destruct a as [|a0 a].
  - left. by exists b.
  - right. simpl in H. simplify_eq. by exists a, b.
Qed.

Lemma translate_infix (u text : str) :
  10 ∉ u -> infix u (translate_newlines text) -> infix u text.
Proof.
  intros Hu.
  induction (Nat.lt_wf_0_projected length text) as [text _ IH].
  intros Hi.
  destruct (decide (u = [])) as [->|Hne]; [apply infix_nil|].
  assert (Hhead : forall x k, 10 :: x <> u ++ k).
  { intros x k H. destruct u; simplify_eq/=. set_solver. }
  destruct text as [|d text]; [done|].
  simpl in Hi. destruct (N.eqb_spec d 13) as [->|Hd].
  - destruct text as [|e text].
    + apply infix_cons_inv in Hi as [[k Hk] | Hi].
      * by destruct (Hhead _ _ Hk).
      * by apply infix_of_nil in Hi.
    + destruct (N.eqb_spec e 10) as [->|He].
      * apply infix_cons_inv in Hi as [[k Hk] | Hi].
        { by destruct (Hhead _ _ Hk). }
        do 2 apply infix_cons. apply IH; [simpl; lia | done].
      * apply infix_cons_inv in Hi as [[k Hk] | Hi].
        { by destruct (Hhead _ _ Hk). }
        apply infix_cons. apply IH; [simpl; lia | done].
  - apply infix_cons_inv in Hi as [Hp | Hi].
    + destruct (translate_prefix u (d :: text) Hu) as [k ->].
      { simpl. by rewrite (proj2 (N.eqb_neq d 13) Hd). }
      by exists [], k.
    + apply infix_cons. apply IH; [simpl; lia | done].
Qed.

(** *** Joining *)

Lemma join_cons sep p r rest :
  join sep (p :: r :: rest) = p ++ sep ++ join sep (r :: rest).
Proof. done. Qed.

Lemma join_infix sep parts l : l ∈ parts -> infix l (join sep parts).
Proof.
  induction parts as [|p rest IH]; [set_solver|].
  intros [-> | Hin]%elem_of_cons.
  - destruct rest as [|r rest]; [apply infix_refl|].
    rewrite join_cons. exists [], (sep ++ join sep (r :: rest)). done.
  - destruct rest as [|r rest]; [set_solver|].
    rewrite join_cons. do 2 apply infix_app_r. by apply IH.
Qed.

(** What occurs in the joined text and has no line break occurs in one
    of the lines. *)
Lemma infix_join_line (t : str) parts :
  t <> [] -> 10 ∉ t -> infix t (join [10] parts) ->
  exists l, l ∈ parts /\ infix t l.
Proof.
  intros Hne Ht. induction parts as [|p rest IH]; intros Hi.
  - by apply infix_of_nil in Hi.
  - destruct rest as [|r rest].
    + exists p. split; [set_solver | done].
    + rewrite join_cons in Hi. simpl in Hi.
      apply infix_app_sep in Hi as [Hi | Hi]; [| |done].
      * exists p. split; [set_solver | done].
      * destruct (IH Hi) as (l & Hl & Hil). exists l.
        split; [apply elem_of_cons; by right | done].
Qed.

End LineFacts.

(** ** Reading a text file block by block *)

Module FsFacts.
Import Py PyFacts Utf8 Utf8Facts Fs.

Lemma BLOCK_pos : (0 < BLOCK)%nat.
Proof. unfold BLOCK. lia. Qed.

Lemma blocks_concat fuel : forall data,
  (length data <= fuel)%nat -> concat (blocks fuel data) = data.
Proof.
  induction fuel as [|fuel IH]; intros data Hlen.
  - destruct data; [done | simpl in Hlen; lia].
  - destruct data as [|b data]; [done|].
    cbn [blocks concat]. rewrite IH; [apply take_drop|].
    rewrite length_drop. pose proof BLOCK_pos. simpl in *. lia.
Qed.

(** Reading block by block decodes what decoding the whole file
    decodes, and fails when that fails. *)
Lemma read_blocks_decoded bl : forall pending text,
  decode Strict (pending ++ concat bl) = Some text ->
  read_blocks pending bl = (text, None).
Proof.
  induction bl as [|block rest IH]; intros pending text; cbn [read_blocks concat].
  - rewrite app_nil_r. by intros ->.
  - rewrite app_assoc, decode_stateful_spec.
    destruct (decode_stateful (pending ++ block)) as [[t p']|]; [|done].
    destruct (decode Strict (p' ++ concat rest)) as [t'|] eqn:E; [|done].
    simpl. intros [= <-]. by rewrite (IH _ _ E).
Qed.

Lemma read_blocks_undecodable bl : forall pending,
  decode Strict (pending ++ concat bl) = None ->
  snd (read_blocks pending bl) = Some UnicodeDecodeError.
Proof.
  induction bl as [|block rest IH]; intros pending; cbn [read_blocks concat].
  - rewrite app_nil_r. by intros ->.
  - rewrite app_assoc, decode_stateful_spec.
    destruct (decode_stateful (pending ++ block)) as [[t p']|]; [|done].
    destruct (decode Strict (p' ++ concat rest)) as [t'|] eqn:E; [done|].
    intros _. specialize (IH _ E).
    by destruct (read_blocks p' rest) as [t' f].
Qed.

(** A file that decodes yields all its lines. *)
Lemma text_lines_decoded data text :
  decode Strict data = Some text ->
  text_lines data = (iter_lines (translate_newlines text), None).
Proof.
  intros Hd. unfold text_lines.
  rewrite (read_blocks_decoded _ [] text); [done|].
  by rewrite app_nil_l, blocks_concat.
Qed.

(** A file that does not decode ends the iteration with the decoding
    error, after the lines of the blocks that decode. *)
Lemma text_lines_undecodable data :
  decode Strict data = None ->
  snd (text_lines data) = Some UnicodeDecodeError.
Proof.
  intros Hd. unfold text_lines.
  pose proof (read_blocks_undecodable (blocks (length data) data) []) as H.
  rewrite app_nil_l, blocks_concat in H by done. specialize (H Hd).
  destruct (read_blocks [] (blocks (length data) data)) as [t f].
  simpl in H. by subst f.
Qed.


(** Collecting all the lines does not depend on the blocks. *)
Lemma read_lines_whole n :
  read_lines n =
    let* data := open_rb n in
    match decode Strict data with
    | Some text => Ok (iter_lines (translate_newlines text))
    | None => Raise UnicodeDecodeError
    end.
Proof.
  unfold read_lines. destruct (open_rb n) as [data|e]; [|done]. cbn [rbind].
  destruct (decode Strict data) as [text|] eqn:Hd.
  - by rewrite (text_lines_decoded _ _ Hd).
  - pose proof (text_lines_undecodable _ Hd) as H.
    destruct (text_lines data) as [lines f]. simpl in H. by subst f.
Qed.

End FsFacts.

(** ** Static-mode search against the corpus on disk *)

Module CorpusFacts.
Import Py PyFacts LineFacts Server Spec.

Section Loaded.
Variables (files : Fs.fs) (s0 : Server.t) (data : bytes) (text : str).
Hypothesis static : reread_on_query s0 = false.
Hypothesis on_disk : files (file_path s0) = Fs.File Fs.Readable data.
Hypothesis decoded : Utf8.decode Utf8.Strict data = Some text.

Local Abbreviation s := (_load_file_once files s0).
Local Abbreviation kept := (kept_lines (iter_lines (translate_newlines text))).

Lemma loaded_read_file : _read_file files s0 = kept.
Proof using All.
  unfold _read_file. rewrite FsFacts.read_lines_whole, on_disk. simpl.
  by rewrite decoded.
Qed.

Lemma loaded_cache :
  reread_on_query s = false
  /\ file_path s = file_path s0
  /\ ((kept = [] /\ file_lines s = ∅ /\ file_content s = [])
      \/ (kept <> [] /\ file_lines s = list_to_set kept
          /\ file_content s = join [10] kept)).
Proof using All.
  unfold _load_file_once. rewrite on_disk, loaded_read_file.
  cbn [Fs.is_file negb].
  destruct kept as [|k0 ks] eqn:E; cbn [truthy]; unfold set_cache;
    cbn [file_lines file_content reread_on_query file_path].
  - split; [done|]. split; [done|]. by left.
  - split; [done|]. split; [done|]. by right.
Qed.

(** The kept lines occur in the text on disk, and so does whatever
    occurs in one of them. *)
Lemma kept_infix l t : l ∈ kept -> 10 ∉ t -> infix t l -> infix t text.
Proof using All.
  unfold kept_lines. intros Hl Ht Hi.
  apply list_elem_of_fmap in Hl as (line & -> & Hin).
  apply list_elem_of_filter in Hin as [_ Hin].
  apply translate_infix; [done|].
  eapply infix_trans; [exact Hi|].
  eapply infix_trans; [apply rstrip_char_infix|].
  by apply iter_lines_infix.
Qed.

Lemma full_line_kept q : strip q <> [] -> full_line q text -> q ∈ kept.
Proof using All.
  unfold full_line, kept_lines. intros Hq Hin.
  apply list_elem_of_fmap in Hin as (line & -> & Hin).
  apply list_elem_of_fmap. exists line. split; [done|].
  apply list_elem_of_filter. split; [|done].
  apply strip_nonempty_char in Hq as (c & Hc & Hsp).
  apply Is_true_true, truthy_true. apply (strip_keeps _ c); [|done].
  by apply (rstrip_by_subset (N.eqb 10)).
Qed.

Lemma found_full_line q :
  strip q <> [] -> full_line q text ->
  search_string files s q = STRING_EXISTS.
Proof using All.
  intros Hq Hline. pose proof (full_line_kept q Hq Hline) as Hk.
  destruct loaded_cache as (Hm & _ & [[He _] | (_ & _ & Hc)]).
  { rewrite He in Hk. set_solver. }
  unfold search_string. rewrite (SearchFacts.search_trace_trimmed _ _ _ Hq), Hm, Hc.
  assert (Hin : contains (strip q) (join [10] kept) = true).
  { apply contains_spec. eapply infix_trans; [apply strip_infix|].
    by apply join_infix. }
  by rewrite Hin.
Qed.

Lemma absent_not_found q :
  10 ∉ strip q -> ~ infix (strip q) text ->
  search_string files s q = STRING_NOT_FOUND.
Proof using All.
  intros Hnl Habs.
  assert (Hq : strip q <> []) by (intros E; apply Habs; rewrite E; apply infix_nil).
  destruct loaded_cache as (Hm & Hp & Hcache).
  unfold search_string. rewrite (SearchFacts.search_trace_trimmed _ _ _ Hq), Hm.
  assert (Hcontent : contains (strip q) (file_content s) = false).
  { apply contains_false. intros Hi.
    destruct Hcache as [(_ & _ & Hc) | (_ & _ & Hc)]; rewrite Hc in Hi.
    - by apply infix_of_nil in Hi.
    - apply infix_join_line in Hi as (l & Hl & Hil); [|done|done].
      apply Habs. by apply (kept_infix l). }
  assert (Hlines : strip q ∉ file_lines s).
  { intros Hin.
    destruct Hcache as [(_ & Hl & _) | (_ & Hl & _)]; rewrite Hl in Hin.
    - set_solver.
    - apply elem_of_list_to_set in Hin.
      apply Habs. apply (kept_infix (strip q)); [done | done | apply infix_refl]. }
  rewrite Hcontent, bool_decide_eq_false_2 by done. simpl.
  unfold _mmap_search, mmap_scan. rewrite Hp, on_disk.
  cbn [Fs.exists_ Fs.is_file negb Fs.open_rb rbind].
  destruct data as [|d0 ds] eqn:Ed; [done|]. cbn [Fs.mmap rbind].
  destruct (Utf8.encode (strip q)) as [bt|] eqn:Eb; [|done].
  destruct (contains bt (d0 :: ds)) eqn:Ec; [|done].
  exfalso. apply Habs. apply contains_spec in Ec.
  apply (Utf8Facts.encode_infix _ _ bt (d0 :: ds)); [done | done | | done].
  by apply Utf8Facts.encode_decode.
Qed.

End Loaded.

(** C1, as stated, fails in both halves.  A line of blanks is a
    non-empty full line of the corpus and is not found; and a query that
    spans two lines occurs nowhere in a corpus that has a blank line
    between them, and is found in the cached text, which leaves blank
    lines out. *)
Lemma static_search_counterexample :
  let data := Utf8.blit (String.append "apple" (String.append Examples.nl
               (String.append "  " (String.append Examples.nl
               (String.append Examples.nl (String.append "pear" Examples.nl)))))) in
  let text := lit (String.append "apple" (String.append Examples.nl
               (String.append "  " (String.append Examples.nl
               (String.append Examples.nl (String.append "pear" Examples.nl)))))) in
  let spanning := lit (String.append "apple" (String.append Examples.nl "pear")) in
  Utf8.decode Utf8.Strict data = Some text
  /\ (lit "  " <> [] /\ full_line (lit "  ") text
      /\ search_string (Examples.disk data []) (Examples.static_server data) (lit "  ")
         = STRING_NOT_FOUND)
  /\ (~ infix spanning text
      /\ search_string (Examples.disk data []) (Examples.static_server data) spanning
         = STRING_EXISTS).
Proof.
  cbv zeta. split; [by vm_compute|]. split.
  - split; [by vm_compute|]. split; [|by vm_compute].
    unfold full_line. apply (bool_decide_unpack _). by vm_compute.
  - split; [|by vm_compute]. apply contains_false. by vm_compute.
Qed.

(** C1, amended.  A static server that loaded the corpus [text], with
    the file unchanged since: every query whose trimmed form is not
    empty and that is a full line of the corpus is found; and every
    query whose trimmed form contains no line break and occurs nowhere
    in the corpus is not found. *)
Theorem static_search_correct files s0 data text q :
  reread_on_query s0 = false ->
  files (file_path s0) = Fs.File Fs.Readable data ->
  Utf8.decode Utf8.Strict data = Some text ->
  (strip q <> [] -> full_line q text ->
     search_string files (_load_file_once files s0) q = STRING_EXISTS)
  /\ (10 ∉ strip q -> ~ infix (strip q) text ->
     search_string files (_load_file_once files s0) q = STRING_NOT_FOUND).
Proof.
  intros Hs Hd Ht. split.
  - by apply (found_full_line files s0 data text).
  - by apply (absent_not_found files s0 data text).
Qed.

Lemma static_search_correct_witness :
  search_string (Examples.disk Examples.fruit []) (Examples.static_server Examples.fruit)
    (lit "pear") = STRING_EXISTS
  /\ search_string (Examples.disk Examples.fruit []) (Examples.static_server Examples.fruit)
       (lit "pea r") = STRING_NOT_FOUND.
Proof.
  assert (Hd : Utf8.decode Utf8.Strict Examples.fruit
               = Some (lit (String.append "apple" (String.append Examples.nl
                              (String.append "pear" Examples.nl)))))
    by (vm_compute; reflexivity).
  split.
  - refine (proj1 (static_search_correct (Examples.disk Examples.fruit [])
                     (Examples.fresh false) Examples.fruit _ (lit "pear")
                     eq_refl eq_refl Hd) _ _).
    + vm_compute. discriminate.
    + unfold full_line. apply (bool_decide_unpack _). vm_compute. exact I.
  - refine (proj2 (static_search_correct (Examples.disk Examples.fruit [])
                     (Examples.fresh false) Examples.fruit _ (lit "pea r")
                     eq_refl eq_refl Hd) _ _).
    + apply (bool_decide_unpack _). vm_compute. exact I.
    + apply contains_false. vm_compute. reflexivity.
Defined.

End CorpusFacts.

(** ** Failures of the corpus file *)

Module FailureFacts.
Import Py PyFacts Server Spec.

Lemma mmap_search_unscannable files s q :
  unscannable (files (file_path s)) -> _mmap_search files s q = STRING_NOT_FOUND.
Proof.
  unfold _mmap_search, mmap_scan, unscannable.
  destruct (files (file_path s)) as [| |[] [|d0 ds]]; done.
Qed.

Lemma mmap_search_unencodable files s q :
  Utf8.encode q = None -> _mmap_search files s q = STRING_NOT_FOUND.
Proof.
  intros Hq. unfold _mmap_search, mmap_scan. rewrite Hq.
  destruct (files (file_path s)) as [| |[] [|d0 ds]]; done.
Qed.

(** A file that cannot be read as text leaves the cache empty. *)
Lemma load_file_once_failure files s :
  io_failure (files (file_path s)) \/ unscannable (files (file_path s)) ->
  cache_empty (_load_file_once files s)
  /\ reread_on_query (_load_file_once files s) = reread_on_query s
  /\ file_path (_load_file_once files s) = file_path s.
Proof.
  unfold _load_file_once, _read_file, io_failure, unscannable, cache_empty.
  rewrite FsFacts.read_lines_whole.
  destruct (files (file_path s)) as [| |[] data] eqn:E; simpl; try done.
  intros [Hd | Hd].
  - by rewrite Hd.
  - by destruct data.
Qed.

Lemma search_string_empty_cache files s q :
  cache_empty s -> _mmap_search files s (strip q) = STRING_NOT_FOUND ->
  search_string files s q = STRING_NOT_FOUND.
Proof.
  intros [Hl Hc] Hscan. unfold search_string, search_trace, search_body.
  rewrite Hl, Hc, Hscan. by repeat case_match.
Qed.

(** C3, as stated, fails for the decoding failure: a corpus that is not
    valid UTF-8 leaves the cache empty, and the scan of its bytes still
    finds the query. *)
Lemma io_failure_counterexample :
  let data := Utf8.blit (String.append "apple" Examples.nl) ++ [xff] in
  io_failure (Examples.disk data [] Examples.corpus_path)
  /\ search_string (Examples.disk data []) (Examples.static_server data) (lit "apple")
     = STRING_EXISTS.
Proof. cbv zeta. split; by vm_compute. Qed.

(** C3, amended.  The search never raises: its result is one of the two
    tokens.  A corpus file that is missing, is not a regular file, cannot
    be opened or does not decode leaves the cache empty instead of
    failing the load.  When the file is missing, is not a regular file,
    cannot be opened or is empty, and likewise when the query cannot be
    encoded, the scan answers not found; so the search answers not found
    in dynamic mode, and in static mode on the cache loaded from that
    file. *)
Theorem search_string_never_raises files s q :
  (search_string files s q = STRING_EXISTS
   \/ search_string files s q = STRING_NOT_FOUND)
  /\ (io_failure (files (file_path s)) -> cache_empty (_load_file_once files s))
  /\ (Utf8.encode (strip q) = None ->
        _mmap_search files s (strip q) = STRING_NOT_FOUND)
  /\ (unscannable (files (file_path s)) ->
        _mmap_search files s (strip q) = STRING_NOT_FOUND
        /\ (reread_on_query s = true ->
              search_string files s q = STRING_NOT_FOUND)
        /\ search_string files (_load_file_once files s) q = STRING_NOT_FOUND).
Proof.
  split; [apply SearchFacts.search_string_token|].
  split; [intros H; by apply load_file_once_failure; left|].
  split; [apply mmap_search_unencodable|].
  intros Hu. pose proof (mmap_search_unscannable files s (strip q) Hu) as Hscan.
  split; [done|]. split.
  - intros Hm. unfold search_string, search_trace, search_body.
    rewrite Hm, Hscan. by repeat case_match.
  - destruct (load_file_once_failure files s (or_intror Hu)) as (He & _ & Hp).
    apply search_string_empty_cache; [done|].
    apply mmap_search_unscannable. by rewrite Hp.
Qed.

Lemma search_string_never_raises_witness :
  search_string (fun _ => Fs.Missing)
    (_load_file_once (fun _ => Fs.Missing) (Examples.fresh false)) (lit "apple")
  = STRING_NOT_FOUND.
Proof.
  apply (search_string_never_raises (fun _ => Fs.Missing) (Examples.fresh false)
           (lit "apple")).
  simpl. exact I.
Defined.

End FailureFacts.

(** ** The connection handler *)

Module HandlerFacts.
Import Py PyFacts Server Spec.

Lemma decode_ignore_strict data text :
  Utf8.decode Utf8.Strict data = Some text -> decode_ignore data = text.
Proof.
  intros H. unfold decode_ignore.
  by rewrite (Utf8Facts.decode_strict_any Utf8.Ignore _ _ H).
Qed.

Lemma decode_ignore_drops data :
  exists kept, Utf8.encode (decode_ignore data) = Some kept /\ sublist kept data.
Proof.
  unfold decode_ignore.
  destruct (Utf8Facts.decode_ignore_total data) as [text Ht]. rewrite Ht.
  by apply Utf8Facts.decode_ignore_sublist.
Qed.

(** The actions of one round: the not-found line alone for an empty
    query, else one search and the status line of its result. *)
Lemma respond_actions files s data out :
  let query := query_of data in
  (query = [] -> fst (respond files s data out) = [Send NOT_FOUND_LINE])
  /\ (query <> [] ->
        (search_string files s query = STRING_EXISTS
         /\ fst (respond files s data out) = [Search query; Send EXISTS_LINE])
        \/ (search_string files s query = STRING_NOT_FOUND
            /\ fst (respond files s data out)
               = [Search query; Send NOT_FOUND_LINE])).
Proof.
  intros query. unfold respond. fold query. split.
  - by intros ->.
  - intros Hq. apply truthy_true in Hq as ->. simpl negb. cbv iota.
    destruct (SearchFacts.search_string_token files s query) as [-> | ->];
      [left | right]; split; done.
Qed.

(** C4, as stated, fails on a NUL inside the chunk: only trailing NULs
    are removed, so the query keeps it and is not the query the
    statement describes; the reply differs too.  And an invalid byte is
    dropped, not replaced: the chunk of one invalid byte gives the empty
    query. *)
Lemma respond_counterexample :
  let data := [x61; x70; x00; x70; x6c; x65] in
  let files := Examples.disk Examples.fruit [] in
  let s := Examples.static_server Examples.fruit in
  query_as_specified data = lit "apple"
  /\ search_string files s (query_as_specified data) = STRING_EXISTS
  /\ query_of data = [97; 112; 0; 112; 108; 101]
  /\ fst (respond files s data Sent)
     = [Search [97; 112; 0; 112; 108; 101]; Send NOT_FOUND_LINE]
  /\ query_as_specified [xff] = [65533]
  /\ query_of [xff] = [].
Proof. cbv zeta. repeat split; by vm_compute. Qed.

(** C4, amended.  For every non-empty chunk the query is the chunk
    decoded with invalid sequences dropped (the decoded text encodes to
    the chunk with some bytes left out, and a chunk that is valid UTF-8
    decodes to its text), without its trailing NULs, then trimmed.  If
    the query is empty the handler sends the not-found line and does not
    search; otherwise it searches once and sends exactly one of the two
    status lines, the one of the search result, and nothing of the
    query. *)
Theorem respond_contract files s data out :
  data <> [] ->
  let query := strip (rstrip_char 0 (decode_ignore data)) in
  (exists kept, Utf8.encode (decode_ignore data) = Some kept /\ sublist kept data)
  /\ (forall text, Utf8.decode Utf8.Strict data = Some text ->
        query = strip (rstrip_char 0 text))
  /\ (query = [] ->
        fst (respond files s data out) = [Send NOT_FOUND_LINE])
  /\ (query <> [] ->
        (search_string files s query = STRING_EXISTS
         /\ fst (respond files s data out) = [Search query; Send EXISTS_LINE])
        \/ (search_string files s query = STRING_NOT_FOUND
            /\ fst (respond files s data out)
               = [Search query; Send NOT_FOUND_LINE])).
Proof.
  intros _ query.
  split; [apply decode_ignore_drops|].
  split; [intros text H; subst query; by rewrite (decode_ignore_strict _ _ H)|].
  apply respond_actions.
Qed.

Lemma respond_contract_witness :
  fst (respond (Examples.disk Examples.fruit [])
         (Examples.static_server Examples.fruit) [x20; x0a; x00; x00] Sent)
  = [Send NOT_FOUND_LINE].
Proof.
  apply (respond_contract (Examples.disk Examples.fruit [])
           (Examples.static_server Examples.fruit) [x20; x0a; x00; x00] Sent).
  - discriminate.
  - vm_compute. reflexivity.
Defined.

(** Over a whole connection, whatever arrives: every payload sent is one
    of the two status lines. *)
Lemma handle_client_sends_status_lines s rounds payload :
  Send payload ∈ handle_client s rounds ->
  payload = EXISTS_LINE \/ payload = NOT_FOUND_LINE.
Proof.
  induction rounds as [|r rest IH]; simpl; [by intros ?%elem_of_nil|].
  destruct (stop_set r); [by intros ?%elem_of_nil|].
  destruct (incoming r) as [data out| | |];
    [| exact IH | by intros ?%elem_of_nil | by intros ?%elem_of_nil].
  destruct data as [|d0 ds]; [by intros ?%elem_of_nil|].
  destruct (respond (files_now r) s (d0 :: ds) out) as [actions go_on] eqn:E.
  assert (Hact : Send payload ∈ actions ->
                 payload = EXISTS_LINE \/ payload = NOT_FOUND_LINE).
  { destruct (respond_actions (files_now r) s (d0 :: ds) out) as (He & Hs).
    rewrite E in He, Hs. simpl in He, Hs.
    destruct (decide (query_of (d0 :: ds) = [])) as [Hq | Hq].
    - rewrite (He Hq). intros Hin. apply list_elem_of_singleton in Hin.
      right. congruence.
    - destruct (Hs Hq) as [[_ ->] | [_ ->]]; intros Hin;
        apply elem_of_cons in Hin as [Hin | Hin]; try done;
        apply list_elem_of_singleton in Hin; [left | right]; congruence. }
  destruct go_on; [|done].
  intros Hin. apply elem_of_app in Hin as [Hin | Hin]; [by apply Hact | by apply IH].
Qed.

End HandlerFacts.

(** ** The TLS context builder and the start of the server *)

Module TlsFacts.
Import Py PyFacts SslUtils Spec.

Lemma create_no_method lib files certfile keyfile cafile psk fs vc :
  given certfile = false -> given keyfile = false -> given psk = false ->
  create_ssl_context lib files certfile keyfile cafile psk fs vc
  = Raise (ValueError SslNoAuthMethod).
Proof. intros Hc Hk Hp. unfold create_ssl_context. by rewrite Hc, Hk, Hp. Qed.

Lemma create_unpaired lib files certfile keyfile cafile psk fs vc :
  given certfile <> given keyfile ->
  exists why, create_ssl_context lib files certfile keyfile cafile psk fs vc
              = Raise (ValueError why).
Proof.
  intros Hne. unfold create_ssl_context.
  destruct (given certfile), (given keyfile), (given psk); simpl; try done; eauto.
Qed.

Lemma create_missing_pair lib files certfile keyfile cafile psk fs vc :
  given certfile = true -> given keyfile = true ->
  Fs.exists_ (files (path_of certfile)) = false
  \/ Fs.exists_ (files (path_of keyfile)) = false ->
  create_ssl_context lib files certfile keyfile cafile psk fs vc
  = Raise FileNotFoundError.
Proof.
  intros Hc Hk Hmiss. unfold create_ssl_context, setup_cert_chain.
  rewrite Hc, Hk. simpl.
  destruct (Fs.exists_ (files (path_of certfile))); simpl; [|done].
  destruct Hmiss as [? | ->]; done.
Qed.

(** C5, as stated, fails: with a CA file that exists, the context the
    server builds (server side, [verify_client] left at its default)
    has the CA loaded and does not verify its peer. *)
Lemma ca_verification_counterexample :
  exists ctx,
    create_ssl_context Examples.lenient
      (Examples.disk_with (lit "ca.crt") [] [])
      None None (Some (lit "ca.crt")) (Some (lit "supersecretkey123")) true false
    = Ok ctx
    /\ verify_locations ctx = Some (lit "ca.crt")
    /\ verify ctx = CERT_NONE.
Proof. eexists. split; [by vm_compute|]. split; by vm_compute. Qed.

(** C5, amended.  In a server-side context that was built: when a CA
    file is supplied, the file exists, it is loaded as the verification
    location, and peer verification is on exactly when [verify_client]
    was requested; when no CA file is supplied, nothing is loaded and
    verification is off. *)
Theorem create_ssl_context_verification
    lib files certfile keyfile cafile psk verify_client ctx :
  create_ssl_context lib files certfile keyfile cafile psk true verify_client
  = Ok ctx ->
  (given cafile = true ->
     Fs.exists_ (files (path_of cafile)) = true
     /\ verify_locations ctx = Some (path_of cafile)
     /\ verify ctx = if verify_client then CERT_REQUIRED else CERT_NONE)
  /\ (given cafile = false ->
        verify_locations ctx = None /\ verify ctx = CERT_NONE).
Proof.
  unfold create_ssl_context, setup_cert_chain, setup_ca, harden.
  intros H. repeat (case_match; simplify_eq/=); split; intros; simplify_eq/=;
    rewrite ?orb_false_r; try done;
    (split; [by apply negb_false_iff | done]).
Qed.

Lemma create_ssl_context_verification_witness :
  exists ctx,
    create_ssl_context Examples.lenient
      (Examples.disk_with (lit "ca.crt") [] [])
      None None (Some (lit "ca.crt")) (Some (lit "supersecretkey123")) true true
    = Ok ctx
    /\ verify ctx = CERT_REQUIRED.
Proof.
  eexists. split; [by vm_compute|].
  refine (proj2 (proj2 (proj1 (create_ssl_context_verification Examples.lenient
            (Examples.disk_with (lit "ca.crt") [] [])
            None None (Some (lit "ca.crt")) (Some (lit "supersecretkey123"))
            true _ _) _))).
  - vm_compute. reflexivity.
  - reflexivity.
Defined.

End TlsFacts.

Module InitFacts.
Import Py PyFacts SslUtils Server Spec.

(** C6, as stated, fails when the builder fails with another error than
    a value or a file-not-found error: a certificate the TLS library
    rejects aborts the construction of the server. *)
Lemma init_tls_counterexample :
  let conf := Utf8.blit
    (String.append "linuxpath=corpus.txt" (String.append Examples.nl
    (String.append "ssl_enabled=true" (String.append Examples.nl
    (String.append "certfile=server.pem" (String.append Examples.nl
                   "keyfile=server.pem")))))) in
  let files := Examples.disk_with (lit "server.pem") Examples.fruit conf in
  create_ssl_context Examples.picky files (Some (lit "server.pem"))
    (Some (lit "server.pem")) None None true false = Raise SSLError
  /\ Server.__init__ Examples.picky files Examples.config_path = Raise (RuntimeError SSLError).
Proof. cbv zeta. split; by vm_compute. Qed.

Lemma init_unfold lib files config_file config :
  Config.__init__ files config_file = Ok config ->
  Config.ssl_enabled config = true ->
  exists s1,
    ssl_enabled s1 = true
    /\ certfile s1 = Config.certfile config /\ keyfile s1 = Config.keyfile config
    /\ cafile s1 = Config.cafile config /\ psk s1 = Config.psk config
    /\ init_body lib files config_file =
       match create_ssl_context lib files (certfile s1) (keyfile s1)
               (cafile s1) (psk s1) true false with
       | Ok ctx => Ok (set_ssl true (Some ctx) s1)
       | Raise e =>
           match e with
           | FileNotFoundError => Ok (set_ssl false None s1)
           | _ => if is_ValueError e then Ok (set_ssl false None s1) else Raise e
           end
       end.
Proof.
  intros Hload Hssl. unfold init_body. rewrite Hload. cbn [rbind].
  set (s0 := mk _ _ _ _ _ _ _ _ _ _ _ _ _ _).
  set (s1 := if negb (reread_on_query s0) then _ else _).
  assert (Hs1 : ssl_enabled s1 = true
                /\ certfile s1 = Config.certfile config
                /\ keyfile s1 = Config.keyfile config
                /\ cafile s1 = Config.cafile config
                /\ psk s1 = Config.psk config).
  { subst s1. destruct (negb (reread_on_query s0)); [|done].
    unfold _load_file_once. by repeat case_match. }
  exists s1. destruct Hs1 as (-> & ? & ? & ? & ?). repeat split; done.
Qed.

(** C6, amended.  With TLS enabled, when the builder fails with a value
    error (no certificate pair and no PSK, or one of the pair without the
    other) or with a file-not-found error (a certificate, key or CA file
    that is missing), the construction of the server completes with TLS
    turned off and no context. *)
Theorem init_tls_degrades lib files config_file config :
  Config.__init__ files config_file = Ok config ->
  Config.ssl_enabled config = true ->
  (given (Config.certfile config) = false
   /\ given (Config.keyfile config) = false
   /\ given (Config.psk config) = false)
  \/ given (Config.certfile config) <> given (Config.keyfile config)
  \/ (given (Config.certfile config) = true
      /\ given (Config.keyfile config) = true
      /\ (Fs.exists_ (files (path_of (Config.certfile config))) = false
          \/ Fs.exists_ (files (path_of (Config.keyfile config))) = false))
  \/ (exists e,
        create_ssl_context lib files (Config.certfile config)
          (Config.keyfile config) (Config.cafile config) (Config.psk config)
          true false = Raise e
        /\ (is_ValueError e = true \/ e = FileNotFoundError)) ->
  exists s,
    Server.__init__ lib files config_file = Ok s
    /\ ssl_enabled s = false /\ ssl_context s = None.
Proof.
  intros Hload Hssl Hcause.
  destruct (init_unfold lib files config_file config Hload Hssl)
    as (s1 & _ & -> & -> & -> & -> & Hbody).
  assert (Hraise : exists e,
            create_ssl_context lib files (Config.certfile config)
              (Config.keyfile config) (Config.cafile config) (Config.psk config)
              true false = Raise e
            /\ (is_ValueError e = true \/ e = FileNotFoundError)).
  { destruct Hcause as [(Hc & Hk & Hp) | [Hne | [(Hc & Hk & Hm) | H]]]; [| | |done].
    - eexists. split; [by apply TlsFacts.create_no_method | by left].
    - destruct (TlsFacts.create_unpaired lib files _ _ (Config.cafile config)
                  (Config.psk config) true false Hne) as [why Hwhy].
      eexists. split; [exact Hwhy | by left].
    - eexists. split; [by apply TlsFacts.create_missing_pair | by right]. }
  destruct Hraise as (e & He & Hclass).
  unfold Server.__init__. rewrite Hbody, He.
  exists (set_ssl false None s1).
  destruct Hclass as [Hv | ->]; [|done].
  rewrite Hv. by destruct e.
Qed.

Lemma init_tls_degrades_witness :
  exists s,
    Server.__init__ Examples.lenient
      (Examples.disk Examples.fruit
         (Utf8.blit (String.append "linuxpath=corpus.txt"
                       (String.append Examples.nl "ssl_enabled=true"))))
      Examples.config_path = Ok s
    /\ ssl_enabled s = false /\ ssl_context s = None.
Proof.
  eapply (init_tls_degrades Examples.lenient _ Examples.config_path
            (Config.mk (lit "0.0.0.0") 44445%Z (lit "corpus.txt") false true
                       None None None None)).
  - vm_compute. reflexivity.
  - reflexivity.
  - left. repeat split; reflexivity.
Defined.

End InitFacts.

(** ** The configuration loader *)

Module ConfigFacts.
Import Py PyFacts Config Spec.

Lemma port_key_tests :
  is_path_key (lit "port") = false
  /\ str_eqb (lit "port") (lit "host") = false
  /\ str_eqb (lit "port") (lit "port") = true.
Proof. by vm_compute. Qed.

Lemma parse_port_ok n value p :
  parse_port n value = Ok p <-> int value = Some p /\ (1 <= p <= 65535)%Z.
Proof.
  unfold parse_port. destruct (int value) as [p'|].
  - split.
    + destruct ((1 <=? p')%Z && (p' <=? 65535)%Z) eqn:E; simpl; [|done].
      intros [= <-]. apply andb_true_iff in E as [H1 H2].
      apply Z.leb_le in H1, H2. done.
    + intros [[= ->] [H1 H2]].
      apply Z.leb_le in H1, H2. by rewrite H1, H2.
  - split; [done | by intros [? _]].
Qed.

Lemma parse_port_raise n value e :
  parse_port n value = Raise e ->
  e = ValueError (InvalidPort n value).
Proof. unfold parse_port. repeat case_match; intros; by simplify_eq. Qed.

(** What one line does to the settings. *)
Lemma process_line_ok n c line c' :
  process_line n c line = Ok c' ->
  (port_ok c -> port_ok c')
  /\ ((exists key value,
         key_value line = Some (key, value) /\ is_path_key key = true
         /\ linuxpath c' = value)
      \/ (linuxpath c' = linuxpath c
          /\ forall key value,
               key_value line = Some (key, value) -> is_path_key key = false)).
Proof.
  unfold process_line.
  destruct (key_value line) as [[key value]|]; [|intros [= <-]; split; [done|by right]].
  destruct (is_path_key key) eqn:Ep.
  { intros [= <-]. split; [done|]. left. by exists key, value. }
  assert (Hright : forall c0, linuxpath c0 = linuxpath c ->
            linuxpath c0 = linuxpath c
            /\ forall key0 value0,
                 Some (key, value) = Some (key0, value0) -> is_path_key key0 = false).
  { intros c0 H0. split; [done|]. by intros ? ? [= <- <-]. }
  destruct (str_eqb key (lit "host")); [intros [= <-]; split; [done | right; by apply Hright]|].
  destruct (str_eqb key (lit "port")).
  { destruct (parse_port n value) as [p|e] eqn:Epp; [|done].
    intros [= <-]. apply parse_port_ok in Epp as [_ Hp].
    split; [done | right; by apply Hright]. }
  repeat (case_match; [intros [= <-]; split; [done | right; by apply Hright]|]).
  intros [= <-]; split; [done | right; by apply Hright].
Qed.

Lemma process_line_raise n c line e :
  process_line n c line = Raise e ->
  exists value,
    e = ValueError (InvalidPort n value)
    /\ key_value line = Some (lit "port", value).
Proof.
  unfold process_line.
  destruct (key_value line) as [[key value]|]; [|done].
  destruct (is_path_key key); [done|].
  destruct (str_eqb key (lit "host")); [done|].
  destruct (str_eqb key (lit "port")) eqn:Ek.
  - apply bool_decide_eq_true in Ek as ->.
    destruct (parse_port n value) as [p|e'] eqn:Epp; [done|].
    intros [= <-]. apply parse_port_raise in Epp as ->. eauto.
  - by repeat case_match.
Qed.

Lemma process_line_port n c line value :
  key_value line = Some (lit "port", value) ->
  process_line n c line =
    match parse_port n value with
    | Ok p => Ok (set_port p c)
    | Raise e => Raise e
    end.
Proof.
  intros Hkv. unfold process_line. rewrite Hkv.
  destruct port_key_tests as (-> & -> & ->). done.
Qed.

Lemma process_lines_raise n c lines e :
  process_lines n c lines = Raise e -> exists why, e = ValueError why.
Proof.
  revert n c. induction lines as [|line rest IH]; intros n c; simpl; [done|].
  destruct (process_line (S n) c line) as [c'|e'] eqn:E; simpl.
  - apply IH.
  - intros [= <-]. apply process_line_raise in E as (v & -> & _). eauto.
Qed.

Lemma process_lines_port_ok n c lines c' :
  process_lines n c lines = Ok c' -> port_ok c -> port_ok c'.
Proof.
  revert n c. induction lines as [|line rest IH]; intros n c; simpl.
  - by intros [= <-].
  - destruct (process_line (S n) c line) as [c1|e] eqn:E; simpl; [|done].
    intros H Hc. apply (IH _ _ H). by apply (process_line_ok _ _ _ _ E).
Qed.

(** A port line with a bad value fails the loop. *)
Lemma process_lines_bad_port n c lines line value :
  line ∈ lines -> key_value line = Some (lit "port", value) ->
  (forall p, int value = Some p -> ~ (1 <= p <= 65535)%Z) ->
  exists why, process_lines n c lines = Raise (ValueError why).
Proof.
  intros Hin Hkv Hbad. revert n c.
  induction lines as [|l rest IH]; intros n c; [set_solver|]. simpl.
  destruct (process_line (S n) c l) as [c1|e] eqn:E; simpl.
  - apply elem_of_cons in Hin as [<- | Hin]; [|by apply IH].
    rewrite (process_line_port _ _ _ _ Hkv) in E.
    destruct (parse_port (S n) value) as [p|e] eqn:Ep; [|done].
    apply parse_port_ok in Ep as [Hi Hr]. by destruct (Hbad p Hi).
  - apply process_line_raise in E as (v & -> & _). eauto.
Qed.

(** With valid port lines the loop completes. *)
Lemma process_lines_valid n c lines :
  ports_valid lines -> exists c', process_lines n c lines = Ok c'.
Proof.
  revert n c. induction lines as [|l rest IH]; intros n c Hv; simpl; [eauto|].
  destruct (process_line (S n) c l) as [c1|e] eqn:E; simpl.
  - apply IH. intros line value Hin. apply Hv. set_solver.
  - exfalso. pose proof (process_line_raise _ _ _ _ E) as (v & -> & Hkv).
    rewrite (process_line_port _ _ _ _ Hkv) in E.
    destruct (Hv l v ltac:(set_solver) Hkv) as (p & Hp & Hr).
    destruct (parse_port (S n) v) as [p'|e] eqn:Ep; [done|].
    assert (Hok : parse_port (S n) v = Ok p) by (by apply parse_port_ok).
    congruence.
Qed.

(** The corpus path after the loop is the value of the last path line, or
    the initial one when there is none. *)
Lemma process_lines_no_path n c lines c' :
  process_lines n c lines = Ok c' -> no_path_key lines ->
  linuxpath c' = linuxpath c.
Proof.
  revert n c. induction lines as [|l rest IH]; intros n c; simpl.
  - by intros [= <-].
  - destruct (process_line (S n) c l) as [c1|e] eqn:E; simpl; [|done].
    intros H Hno. rewrite (IH _ _ H); [|intros ? ? ? ?; apply Hno; set_solver].
    apply process_line_ok in E as [_ [(k & v & Hkv & Hp & _) | [Hl _]]]; [|done].
    rewrite (Hno l k v) in Hp; [done | set_solver | done].
Qed.

Lemma process_lines_last_path n c pre line post key value c' :
  process_lines n c (pre ++ line :: post) = Ok c' ->
  key_value line = Some (key, value) -> is_path_key key = true ->
  no_path_key post ->
  linuxpath c' = value.
Proof.
  revert n c. induction pre as [|l pre IH]; intros n c; simpl.
  - destruct (process_line (S n) c line) as [c1|e] eqn:E; simpl; [|done].
    intros H Hkv Hp Hno. rewrite (process_lines_no_path _ _ _ _ H Hno).
    apply process_line_ok in E as [_ [(k & v & Hkv' & _ & Hl) | [_ Hnone]]].
    + congruence.
    + rewrite (Hnone _ _ Hkv) in Hp. done.
  - destruct (process_line (S n) c l) as [c1|e] eqn:E; simpl; [|done].
    apply IH.
Qed.

Lemma load_readable files config_file data text :
  files (Path config_file) = Fs.File Fs.Readable data ->
  Utf8.decode Utf8.Strict data = Some text ->
  Config.__init__ files config_file =
    match (let* c := process_lines 0 defaults (iter_lines (translate_newlines text)) in
           validate c) with
    | Ok c => Ok c
    | Raise e => Raise (reraise e)
    end.
Proof.
  intros Hf Hd. unfold Config.__init__, _load_config.
  rewrite Hf. simpl. rewrite (FsFacts.text_lines_decoded _ _ Hd).
  by destruct (process_lines 0 defaults (iter_lines (translate_newlines text))).
Qed.

Lemma load_ok_inv files config_file c :
  Config.__init__ files config_file = Ok c ->
  exists lines c0, process_lines 0 defaults lines = Ok c0 /\ validate c0 = Ok c.
Proof.
  unfold Config.__init__, _load_config.
  destruct (negb (Fs.exists_ (files (Path config_file)))); [done|].
  destruct (Fs.open_rb (files (Path config_file))) as [data|e]; simpl; [|done].
  destruct (Fs.text_lines data) as [lines failure].
  destruct (process_lines 0 defaults lines) as [c0|e] eqn:E; simpl; [|done].
  destruct failure as [e|]; [done|].
  destruct (validate c0) as [c1|e] eqn:Ev; [|done].
  intros [= <-]. eauto.
Qed.

Lemma validate_ok c c' :
  validate c = Ok c' -> c' = c /\ linuxpath c <> [] /\ linuxpath c <> lit ".".
Proof.
  unfold validate.
  destruct (linuxpath c) as [|x l] eqn:El; simpl; [done|].
  destruct (str_eqb (x :: l) (lit ".")) eqn:E; [done|].
  apply bool_decide_eq_false in E. intros [= <-]. done.
Qed.

Lemma validate_sentinel c :
  linuxpath c = lit "." -> validate c = Raise (ValueError MissingLinuxpath).
Proof. unfold validate. by intros ->. Qed.

(** When the loop can only end with the sentinel path, the load fails
    with a value error: the one of the first bad port line, or the one of
    the missing path. *)
Lemma load_sentinel files config_file data text :
  files (Path config_file) = Fs.File Fs.Readable data ->
  Utf8.decode Utf8.Strict data = Some text ->
  (forall c0, process_lines 0 defaults (iter_lines (translate_newlines text)) = Ok c0 ->
              linuxpath c0 = lit ".") ->
  exists why,
    Config.__init__ files config_file = Raise (ValueError why)
    /\ (ports_valid (iter_lines (translate_newlines text)) -> why = MissingLinuxpath).
Proof.
  intros Hf Hd Hpath. rewrite (load_readable _ _ _ _ Hf Hd).
  destruct (process_lines 0 defaults (iter_lines (translate_newlines text)))
    as [c0|e] eqn:E; simpl.
  - rewrite (validate_sentinel c0 (Hpath c0 eq_refl)). simpl. eauto.
  - destruct (process_lines_raise _ _ _ _ E) as [why ->]. simpl.
    exists why. split; [done|]. intros Hv.
    destruct (process_lines_valid 0 defaults _ Hv) as [c' Hc']. congruence.
Qed.

(** C7.  Loading fails with a file-not-found error when the file does
    not exist; with a value error when a port line has a value that is
    not a number or is outside 1-65535; and with a value error when no
    line gives a corpus path.  A failure returns no settings; settings
    that are returned have a port in 1-65535 and a corpus path that is
    not empty (and is not the default). *)
Theorem load_config_contract files config_file :
  (files (Path config_file) = Fs.Missing ->
     Config.__init__ files config_file = Raise FileNotFoundError)
  /\ (forall data text line value,
        files (Path config_file) = Fs.File Fs.Readable data ->
        Utf8.decode Utf8.Strict data = Some text ->
        line ∈ iter_lines (translate_newlines text) ->
        key_value line = Some (lit "port", value) ->
        (forall p, int value = Some p -> ~ (1 <= p <= 65535)%Z) ->
        exists why, Config.__init__ files config_file = Raise (ValueError why))
  /\ (forall data text,
        files (Path config_file) = Fs.File Fs.Readable data ->
        Utf8.decode Utf8.Strict data = Some text ->
        no_path_key (iter_lines (translate_newlines text)) ->
        exists why,
          Config.__init__ files config_file = Raise (ValueError why)
          /\ (ports_valid (iter_lines (translate_newlines text)) ->
              why = MissingLinuxpath))
  /\ (forall c, Config.__init__ files config_file = Ok c ->
        port_ok c /\ linuxpath c <> [] /\ linuxpath c <> lit ".").
Proof.
  split; [|split; [|split]].
  - intros Hf. unfold Config.__init__, _load_config. by rewrite Hf.
  - intros data text line value Hf Hd Hin Hkv Hbad.
    rewrite (load_readable _ _ _ _ Hf Hd).
    destruct (process_lines_bad_port 0 defaults _ line value Hin Hkv Hbad)
      as [why ->].
    by exists why.
  - intros data text Hf Hd Hno. apply (load_sentinel _ _ data text Hf Hd).
    intros c0 Hc0. by rewrite (process_lines_no_path _ _ _ _ Hc0 Hno).
  - intros c Hload.
    destruct (load_ok_inv _ _ _ Hload) as (lines & c0 & Hloop & Hval).
    apply validate_ok in Hval as (-> & Hne & Hdot).
    split; [|done].
    apply (process_lines_port_ok _ _ _ _ Hloop). unfold port_ok. simpl. lia.
Qed.

Lemma load_config_contract_witness :
  exists why,
    Config.__init__ (Examples.disk []
            (Utf8.blit (String.append "linuxpath=corpus.txt"
                          (String.append Examples.nl "port=999999"))))
         Examples.config_path
    = Raise (ValueError why).
Proof.
  refine (proj1 (proj2 (load_config_contract _ Examples.config_path))
            (Utf8.blit (String.append "linuxpath=corpus.txt"
                          (String.append Examples.nl "port=999999")))
            (lit (String.append "linuxpath=corpus.txt"
                          (String.append Examples.nl "port=999999")))
            (lit "port=999999") (lit "999999") _ _ _ _ _).
  - reflexivity.
  - vm_compute. reflexivity.
  - apply (bool_decide_unpack _). vm_compute. exact I.
  - vm_compute. reflexivity.
  - intros p Hp. vm_compute in Hp. injection Hp as <-. lia.
Defined.

(** C10.  A configuration whose corpus path is the single character
    ["."] is rejected although the value is present: it is the default
    the loader starts from.  A configuration without any corpus-path
    line is rejected in the same way, with the same value error (the one
    of the missing path, unless a bad port line has failed the load
    before). *)
Theorem load_config_rejects_dot files config_file data text :
  files (Path config_file) = Fs.File Fs.Readable data ->
  Utf8.decode Utf8.Strict data = Some text ->
  (forall pre line post key,
     iter_lines (translate_newlines text) = pre ++ line :: post ->
     key_value line = Some (key, lit ".") -> is_path_key key = true ->
     no_path_key post ->
     exists why,
       Config.__init__ files config_file = Raise (ValueError why)
       /\ (ports_valid (iter_lines (translate_newlines text)) ->
           why = MissingLinuxpath))
  /\ (no_path_key (iter_lines (translate_newlines text)) ->
      exists why,
        Config.__init__ files config_file = Raise (ValueError why)
        /\ (ports_valid (iter_lines (translate_newlines text)) ->
            why = MissingLinuxpath)).
Proof.
  intros Hf Hd. split.
  - intros pre line post key Hlines Hkv Hkey Hno.
    apply (load_sentinel _ _ data text Hf Hd).
    intros c0 Hc0. rewrite Hlines in Hc0.
    by apply (process_lines_last_path _ _ _ _ _ _ _ _ Hc0 Hkv Hkey Hno).
  - intros Hno. apply (load_sentinel _ _ data text Hf Hd).
    intros c0 Hc0. by rewrite (process_lines_no_path _ _ _ _ Hc0 Hno).
Qed.

Lemma load_config_rejects_dot_witness :
  exists why,
    Config.__init__ (Examples.disk []
            (Utf8.blit (String.append "host=127.0.0.1"
                          (String.append Examples.nl "linuxpath = ."))))
         Examples.config_path
    = Raise (ValueError why)
    /\ (ports_valid
          (iter_lines (translate_newlines
             (lit (String.append "host=127.0.0.1"
                     (String.append Examples.nl "linuxpath = .")))))
        -> why = MissingLinuxpath).
Proof.
  refine (proj1 (load_config_rejects_dot _ Examples.config_path
            (Utf8.blit (String.append "host=127.0.0.1"
                          (String.append Examples.nl "linuxpath = .")))
            (lit (String.append "host=127.0.0.1"
                          (String.append Examples.nl "linuxpath = ."))) _ _)
            [lit (String.append "host=127.0.0.1" Examples.nl)]
            (lit "linuxpath = .") [] (lit "linuxpath") _ _ _ _).
  - reflexivity.
  - vm_compute. reflexivity.
  - vm_compute. reflexivity.
  - vm_compute. reflexivity.
  - vm_compute. reflexivity.
  - intros line key value Hin. by apply elem_of_nil in Hin.
Defined.

End ConfigFacts.

(** ** More on the search *)

Module SearchExtra.
Import Py PyFacts LineFacts Server Spec.

Lemma tokens_differ : STRING_EXISTS <> STRING_NOT_FOUND.
Proof. by vm_compute. Qed.

Lemma decode_nil_text text : Utf8.decode Utf8.Strict [] = Some text -> text = [].
Proof. simpl. by intros [= <-]. Qed.

(** The scan of a file of valid UTF-8 finds the texts that occur in the
    text of the file, and no other. *)
Lemma mmap_search_iff files s data text t :
  files (file_path s) = Fs.File Fs.Readable data ->
  Utf8.decode Utf8.Strict data = Some text ->
  t <> [] ->
  _mmap_search files s t = STRING_EXISTS <-> infix t text.
Proof.
  intros Hf Hd Ht. pose proof (Utf8Facts.encode_decode _ _ Hd) as He.
  unfold _mmap_search, mmap_scan. rewrite Hf.
  cbn [Fs.exists_ Fs.is_file negb Fs.open_rb rbind].
  destruct data as [|d0 ds].
  { apply decode_nil_text in Hd as ->. cbn [Fs.mmap rbind catch]. split.
    - intros H. symmetry in H. by destruct (tokens_differ).
    - intros Hi. by apply infix_of_nil in Hi. }
  cbn [Fs.mmap rbind].
  destruct (Utf8.encode t) as [bt|] eqn:Eb.
  - destruct (contains bt (d0 :: ds)) eqn:Ec; cbn [catch]; split.
    + intros _. apply contains_spec in Ec.
      by apply (Utf8Facts.encode_infix t text bt (d0 :: ds)).
    + done.
    + intros H. symmetry in H. by destruct tokens_differ.
    + intros Hi. destruct (Utf8Facts.infix_encode _ _ _ Hi He) as (bt' & Hb' & Hin).
      apply contains_false in Ec. by simplify_eq.
  - cbn [catch]. split.
    + intros H. symmetry in H. by destruct tokens_differ.
    + intros Hi. destruct (Utf8Facts.infix_encode _ _ _ Hi He) as (bt' & Hb' & _).
      congruence.
Qed.

(** X1.  In dynamic mode, over a corpus of valid UTF-8, a query whose
    trimmed form is not empty is found exactly when its trimmed form
    occurs somewhere in the text of the file, across line breaks or
    not. *)
Theorem dynamic_search_substring files s data text q :
  reread_on_query s = true ->
  files (file_path s) = Fs.File Fs.Readable data ->
  Utf8.decode Utf8.Strict data = Some text ->
  strip q <> [] ->
  search_string files s q = STRING_EXISTS <-> infix (strip q) text.
Proof.
  intros Hm Hf Hd Ht. unfold search_string.
  rewrite (SearchFacts.search_trace_trimmed _ _ _ Ht), Hm. simpl.
  by apply (mmap_search_iff files s data text).
Qed.

Lemma dynamic_search_substring_witness :
  search_string (Examples.disk Examples.fruit []) (Examples.fresh true)
    (lit (String.append "le" (String.append Examples.nl "pe")))
  = STRING_EXISTS.
Proof.
  apply (dynamic_search_substring (Examples.disk Examples.fruit [])
           (Examples.fresh true) Examples.fruit
           (lit (String.append "apple" (String.append Examples.nl
                   (String.append "pear" Examples.nl))))).
  - reflexivity.
  - reflexivity.
  - vm_compute. reflexivity.
  - vm_compute. discriminate.
  - apply contains_spec. vm_compute. reflexivity.
Defined.

(** Whatever the mode and the cache, what the scan finds is found. *)
Lemma search_covers_scan files s q :
  strip q <> [] ->
  _mmap_search files s (strip q) = STRING_EXISTS ->
  search_string files s q = STRING_EXISTS.
Proof.
  intros Ht Hscan. unfold search_string.
  rewrite (SearchFacts.search_trace_trimmed _ _ _ Ht).
  repeat case_match; simpl; done.
Qed.

(** X2.  A static server is not blind to the file as it is now: whatever
    its cache holds, a query whose trimmed form occurs in the current
    text of the corpus file is found, because the search falls back on
    the scan. *)
Theorem static_search_sees_current_file files s data text q :
  files (file_path s) = Fs.File Fs.Readable data ->
  Utf8.decode Utf8.Strict data = Some text ->
  strip q <> [] ->
  infix (strip q) text ->
  search_string files s q = STRING_EXISTS.
Proof.
  intros Hf Hd Ht Hi. apply search_covers_scan; [done|].
  by apply (mmap_search_iff files s data text).
Qed.

Lemma static_search_sees_current_file_witness :
  search_string (Examples.disk Examples.fruit [])
    (Examples.static_server (Utf8.blit "plum")) (lit "pear")
  = STRING_EXISTS.
Proof.
  apply (static_search_sees_current_file (Examples.disk Examples.fruit [])
           (Examples.static_server (Utf8.blit "plum")) Examples.fruit
           (lit (String.append "apple" (String.append Examples.nl
                   (String.append "pear" Examples.nl))))).
  - reflexivity.
  - vm_compute. reflexivity.
  - vm_compute. discriminate.
  - apply contains_spec. vm_compute. reflexivity.
Defined.

End SearchExtra.

(** ** More on the cache of a static server *)

Module CacheExtra.
Import Py PyFacts LineFacts Server Spec.

Lemma rstrip_by_keeps_elem {A} (p : A -> bool) (s : list A) c :
  c ∈ s -> p c = false -> c ∈ rstrip_by p s.
Proof.
  induction s as [|d s IH]; [by intros ?%elem_of_nil|].
  intros Hin Hc. simpl.
  apply elem_of_cons in Hin as [<- | Hin].
  - destruct (rstrip_by p s); [rewrite Hc|]; apply elem_of_cons; by left.
  - specialize (IH Hin Hc). destruct (rstrip_by p s) as [|r0 r] eqn:E.
    + by apply elem_of_nil in IH.
    + apply elem_of_cons. by right.
Qed.

Lemma kept_lines_member t lines :
  t ∈ kept_lines lines <->
  t ∈ map (rstrip_char 10) lines /\ strip t <> [].
Proof.
  unfold kept_lines. split.
  - intros Hin. apply list_elem_of_fmap in Hin as (line & -> & Hin).
    apply list_elem_of_filter in Hin as [Ht Hin]. split.
    + apply list_elem_of_fmap. by exists line.
    + apply Is_true_true, truthy_true, strip_nonempty_char in Ht as (c & Hc & Hsp).
      apply (strip_keeps _ c); [|done].
      apply rstrip_by_keeps_elem; [done|].
      apply N.eqb_neq. by intros <-.
  - intros [Hin Ht]. apply list_elem_of_fmap in Hin as (line & -> & Hin).
    apply list_elem_of_fmap. exists line. split; [done|].
    apply list_elem_of_filter. split; [|done].
    apply strip_nonempty_char in Ht as (c & Hc & Hsp).
    apply Is_true_true, truthy_true. apply (strip_keeps _ c); [|done].
    by apply (rstrip_by_subset (N.eqb 10)).
Qed.

(** X3.  After loading a corpus of valid UTF-8, the cached line set
    holds exactly the lines of the file that are not blank, each without
    its line terminator. *)
Theorem loaded_lines_are_nonblank_lines files s0 data text t :
  files (file_path s0) = Fs.File Fs.Readable data ->
  Utf8.decode Utf8.Strict data = Some text ->
  t ∈ file_lines (_load_file_once files s0) <-> full_line t text /\ strip t <> [].
Proof.
  intros Hf Hd. unfold full_line. rewrite <- kept_lines_member.
  unfold _load_file_once, _read_file. rewrite FsFacts.read_lines_whole, Hf.
  cbn [Fs.is_file negb Fs.open_rb rbind]. rewrite Hd. cbn [rbind catch].
  destruct (kept_lines (iter_lines (translate_newlines text))) as [|k0 ks] eqn:E;
    cbn [truthy]; unfold set_cache; cbn [file_lines].
  - split; [by intros ?%elem_of_empty | by intros ?%elem_of_nil].
  - by rewrite elem_of_list_to_set.
Qed.

Lemma loaded_lines_are_nonblank_lines_witness :
  lit "pear" ∈ file_lines (_load_file_once (Examples.disk Examples.fruit [])
                             (Examples.fresh false)).
Proof.
  apply (loaded_lines_are_nonblank_lines (Examples.disk Examples.fruit [])
           (Examples.fresh false) Examples.fruit
           (lit (String.append "apple" (String.append Examples.nl
                   (String.append "pear" Examples.nl))))).
  - reflexivity.
  - vm_compute. reflexivity.
  - split.
    + unfold full_line. apply (bool_decide_unpack _). vm_compute. exact I.
    + vm_compute. discriminate.
Defined.

(** A line the cache holds is found on any disk. *)
Lemma cached_line_found files later s0 data text q :
  reread_on_query s0 = false ->
  files (file_path s0) = Fs.File Fs.Readable data ->
  Utf8.decode Utf8.Strict data = Some text ->
  strip q <> [] -> full_line q text ->
  search_string later (_load_file_once files s0) q = STRING_EXISTS.
Proof.
  intros Hs Hf Hd Hq Hline.
  pose proof (CorpusFacts.full_line_kept files s0 data text Hs Hf Hd q Hq Hline) as Hk.
  destruct (CorpusFacts.loaded_cache files s0 data text Hs Hf Hd)
    as (Hm & _ & [[He _] | (_ & _ & Hc)]).
  { rewrite He in Hk. by apply elem_of_nil in Hk. }
  unfold search_string. rewrite (SearchFacts.search_trace_trimmed _ _ _ Hq), Hm, Hc.
  assert (Hin : contains (strip q)
                  (join [10] (kept_lines (iter_lines (translate_newlines text))))
                = true).
  { apply contains_spec. eapply infix_trans; [apply strip_infix|].
    by apply join_infix. }
  by rewrite Hin.
Qed.

(** X4.  A static server answers from its cache whatever has become of
    the file: a non-blank line of the corpus it loaded is found on any
    later state of the disk, the file removed or rewritten included. *)
Theorem static_search_survives_file_change files later s0 data text q :
  reread_on_query s0 = false ->
  files (file_path s0) = Fs.File Fs.Readable data ->
  Utf8.decode Utf8.Strict data = Some text ->
  strip q <> [] -> full_line q text ->
  search_string later (_load_file_once files s0) q = STRING_EXISTS.
Proof. apply cached_line_found. Qed.

Lemma static_search_survives_file_change_witness :
  search_string (fun _ => Fs.Missing) (Examples.static_server Examples.fruit)
    (lit "pear") = STRING_EXISTS.
Proof.
  apply (static_search_survives_file_change (Examples.disk Examples.fruit [])
           (fun _ => Fs.Missing) (Examples.fresh false) Examples.fruit
           (lit (String.append "apple" (String.append Examples.nl
                   (String.append "pear" Examples.nl))))).
  - reflexivity.
  - reflexivity.
  - vm_compute. reflexivity.
  - vm_compute. discriminate.
  - unfold full_line. apply (bool_decide_unpack _). vm_compute. exact I.
Defined.

(** X5.  On an unchanged corpus of valid UTF-8 the two modes agree on
    every query whose trimmed form has no line break: the static server
    that loaded the file and a dynamic server on the same file give the
    same answer. *)
Theorem static_dynamic_agree files s0 d data text q :
  reread_on_query s0 = false ->
  reread_on_query d = true ->
  file_path d = file_path s0 ->
  files (file_path s0) = Fs.File Fs.Readable data ->
  Utf8.decode Utf8.Strict data = Some text ->
  10 ∉ strip q ->
  search_string files (_load_file_once files s0) q = search_string files d q.
Proof.
  intros Hs Hdyn Hp Hf Hd Hnl.
  destruct (decide (strip q = [])) as [Hq | Hq].
  { unfold search_string, search_trace, search_body. rewrite Hq. simpl.
    by rewrite !orb_true_r. }
  assert (Hfd : files (file_path d) = Fs.File Fs.Readable data) by (by rewrite Hp).
  destruct (contains (strip q) text) eqn:Ec.
  - apply contains_spec in Ec.
    assert (Hpath : files (file_path (_load_file_once files s0))
                    = Fs.File Fs.Readable data).
    { by destruct (CorpusFacts.loaded_cache files s0 data text Hs Hf Hd)
        as (_ & -> & _). }
    rewrite (SearchExtra.search_covers_scan files d q Hq
               (proj2 (SearchExtra.mmap_search_iff files d data text (strip q)
                         Hfd Hd Hq) Ec)).
    apply SearchExtra.search_covers_scan; [done|].
    by apply (SearchExtra.mmap_search_iff files _ data text).
  - apply contains_false in Ec.
    rewrite (CorpusFacts.absent_not_found files s0 data text Hs Hf Hd q Hnl Ec).
    symmetry. unfold search_string.
    rewrite (SearchFacts.search_trace_trimmed _ _ _ Hq), Hdyn. simpl.
    destruct (SearchFacts.mmap_search_token files d (strip q)) as [He | He]; [|done].
    exfalso. apply Ec.
    by apply (SearchExtra.mmap_search_iff files d data text (strip q)).
Qed.

Lemma static_dynamic_agree_witness :
  search_string (Examples.disk Examples.fruit []) (Examples.static_server Examples.fruit)
    (lit "ppl")
  = search_string (Examples.disk Examples.fruit []) (Examples.fresh true) (lit "ppl").
Proof.
  apply (static_dynamic_agree (Examples.disk Examples.fruit []) (Examples.fresh false)
           (Examples.fresh true) Examples.fruit
           (lit (String.append "apple" (String.append Examples.nl
                   (String.append "pear" Examples.nl))))).
  - reflexivity.
  - reflexivity.
  - reflexivity.
  - reflexivity.
  - vm_compute. reflexivity.
  - apply (bool_decide_unpack _). vm_compute. exact I.
Defined.

End CacheExtra.

(** ** Whole connections *)

Module SessionFacts.
Import Py PyFacts Server Spec Session.

(** X6.  Over a whole connection, whatever arrives and in whatever
    state the disk is: every payload the handler sends is one of the two
    status lines. *)
Theorem handle_client_only_status_lines s rounds payload :
  Send payload ∈ handle_client s rounds ->
  payload = EXISTS_LINE \/ payload = NOT_FOUND_LINE.
Proof. apply HandlerFacts.handle_client_sends_status_lines. Qed.

Lemma handle_client_only_status_lines_witness :
  let rounds :=
    [ {| stop_set := false; files_now := Examples.disk Examples.fruit [];
         incoming := Data (Utf8.blit "pear") Sent |} ] in
  Send EXISTS_LINE ∈ handle_client (Examples.static_server Examples.fruit) rounds
  /\ (EXISTS_LINE = EXISTS_LINE \/ EXISTS_LINE = NOT_FOUND_LINE).
Proof.
  cbv zeta.
  assert (Hin : Send EXISTS_LINE
                ∈ handle_client (Examples.static_server Examples.fruit)
                    [ {| stop_set := false;
                         files_now := Examples.disk Examples.fruit [];
                         incoming := Data (Utf8.blit "pear") Sent |} ]).
  { assert (E : handle_client (Examples.static_server Examples.fruit)
                  [ {| stop_set := false;
                       files_now := Examples.disk Examples.fruit [];
                       incoming := Data (Utf8.blit "pear") Sent |} ]
                = [Search (lit "pear"); Send EXISTS_LINE]) by (by vm_compute).
    rewrite E. apply elem_of_cons. right. apply elem_of_cons. by left. }
  split; [exact Hin|].
  exact (handle_client_only_status_lines _ _ _ Hin).
Defined.

Lemma handle_client_ends s r rest : ends_loop r = true -> handle_client s (r :: rest) = [].
Proof.
  unfold ends_loop. simpl. destruct (stop_set r); [done|]. simpl.
  destruct (incoming r) as [[|d0 ds] out| | |]; done.
Qed.

(** X7.  The loop of the handler stops for good: once the stop flag is
    seen, the peer has closed (a read of no bytes) or [recv] has failed,
    nothing that arrives later is processed.  A [recv] that times out
    changes nothing. *)
Theorem handle_client_stops s pre r post :
  (ends_loop r = true ->
     handle_client s (pre ++ r :: post) = handle_client s pre)
  /\ (stop_set r = false -> incoming r = Timeout ->
        handle_client s (pre ++ r :: post) = handle_client s (pre ++ post)).
Proof.
  split.
  - intros Hr. induction pre as [|p pre IH].
    + by apply handle_client_ends.
    + simpl. destruct (stop_set p); [done|].
      destruct (incoming p) as [[|d0 ds] out| | |]; try done.
      destruct (respond (files_now p) s (d0 :: ds) out) as [actions go_on].
      by rewrite IH.
  - intros Hstop Hto. induction pre as [|p pre IH].
    + simpl. by rewrite Hstop, Hto.
    + simpl. destruct (stop_set p); [done|].
      destruct (incoming p) as [[|d0 ds] out| | |]; try done.
      destruct (respond (files_now p) s (d0 :: ds) out) as [actions go_on].
      by rewrite IH.
Qed.

Lemma handle_client_stops_witness :
  let files := Examples.disk Examples.fruit [] in
  let ask := {| stop_set := false; files_now := files;
                incoming := Data (Utf8.blit "pear") Sent |} in
  let closed := {| stop_set := false; files_now := files; incoming := Data [] Sent |} in
  handle_client (Examples.static_server Examples.fruit) ([ask] ++ closed :: [ask])
  = handle_client (Examples.static_server Examples.fruit) [ask].
Proof.
  cbv zeta.
  refine (proj1 (handle_client_stops _ [_] _ [_]) _).
  reflexivity.
Defined.

Lemma respond_sends files s data out :
  (sends (fst (respond files s data out)) <= 1)%nat.
Proof. unfold respond, sends. repeat case_match; simpl; lia. Qed.

Lemma sends_app a b : sends (a ++ b) = (sends a + sends b)%nat.
Proof. unfold sends. by rewrite List.filter_app, length_app. Qed.

(** X8.  The handler never sends unasked: on any connection it sends at
    most one payload for each non-empty chunk it has received. *)
Theorem handle_client_one_reply_per_chunk s rounds :
  (sends (handle_client s rounds) <= chunks rounds)%nat.
Proof.
  induction rounds as [|r rest IH]; [done|].
  change (chunks (r :: rest))
    with (length (if is_chunk r then r :: List.filter is_chunk rest
                  else List.filter is_chunk rest)).
  fold (chunks rest) in IH. simpl handle_client. unfold is_chunk at 1.
  destruct (stop_set r); [unfold sends; simpl; lia|].
  destruct (incoming r) as [[|d0 ds] out| | |];
    try (unfold sends in *; unfold chunks in *; simpl; lia).
  pose proof (respond_sends (files_now r) s (d0 :: ds) out) as Hone.
  destruct (respond (files_now r) s (d0 :: ds) out) as [actions go_on].
  simpl in Hone. unfold chunks in IH.
  destruct go_on; [rewrite sends_app|]; simpl; lia.
Qed.

End SessionFacts.

(** ** The client against the server *)

Module ClientFacts.
Import Py PyFacts Server Spec Client.

Lemma isspace_bound c : isspace c = true -> c <= 12288.
Proof.
  unfold isspace. intros H.
  repeat (apply orb_true_iff in H as [H | H]);
    try (apply andb_true_iff in H as [H1 H2]; apply N.leb_le in H1, H2; lia);
    apply N.eqb_eq in H; lia.
Qed.

Lemma encode_char_none c : Utf8.encode_char c = None -> 55296 <= c.
Proof.
  unfold Utf8.encode_char.
  destruct (N.ltb_spec c 128); [done|].
  destruct (N.ltb_spec c 2048); [done|].
  destruct (N.ltb_spec c 65536).
  - destruct ((55296 <=? c) && (c <=? 57343)) eqn:E; [|done].
    apply andb_true_iff in E as [E _]. by apply N.leb_le in E.
  - intros _. lia.
Qed.

Lemma isspace_scrub c : isspace (scrub_char c) = isspace c.
Proof.
  unfold scrub_char. destruct (Utf8.encode_char c) eqn:E; [done|].
  apply encode_char_none in E.
  destruct (isspace c) eqn:Es; [|done].
  apply isspace_bound in Es. lia.
Qed.

Lemma lstrip_by_map {A} (p : A -> bool) (f : A -> A) (s : list A) :
  (forall c, p (f c) = p c) ->
  lstrip_by p (map f s) = map f (lstrip_by p s).
Proof.
  intros Hf. induction s as [|c s IH]; [done|].
  simpl. rewrite Hf. by destruct (p c).
Qed.

Lemma rstrip_by_map {A} (p : A -> bool) (f : A -> A) (s : list A) :
  (forall c, p (f c) = p c) ->
  rstrip_by p (map f s) = map f (rstrip_by p s).
Proof.
  intros Hf. induction s as [|c s IH]; [done|].
  simpl. rewrite IH, Hf.
  destruct (rstrip_by p s); simpl; [by destruct (p c) | done].
Qed.

Lemma strip_scrub s : strip (scrub s) = scrub (strip s).
Proof.
  unfold strip, scrub.
  rewrite (lstrip_by_map _ _ _ isspace_scrub).
  by rewrite (rstrip_by_map _ _ _ isspace_scrub).
Qed.

Lemma rstrip_by_snoc {A} (p : A -> bool) (s : list A) c :
  rstrip_by p (s ++ [c]) = if p c then rstrip_by p s else s ++ [c].
Proof.
  induction s as [|d s IH]; simpl; [by destruct (p c)|].
  rewrite IH. destruct (p c) eqn:Hc; [done|].
  by destruct s.
Qed.

Lemma lstrip_by_app {A} (p : A -> bool) (x y : list A) :
  lstrip_by p (x ++ y) =
    match lstrip_by p x with
    | [] => lstrip_by p y
    | l => l ++ y
    end.
Proof.
  induction x as [|c x IH]; simpl; [by destruct (lstrip_by p y)|].
  by destruct (p c).
Qed.

(** A white-space character appended to a string is trimmed away. *)
Lemma strip_snoc_space s c : isspace c = true -> strip (s ++ [c]) = strip s.
Proof.
  intros Hc. unfold strip. rewrite lstrip_by_app.
  destruct (lstrip_by isspace s) as [|h r] eqn:E.
  - simpl. by rewrite Hc.
  - by rewrite rstrip_by_snoc, Hc.
Qed.

Lemma well_formed_replace c :
  Utf8.well_formed (scrub_char c) (encode_char_replace c).
Proof.
  unfold scrub_char, encode_char_replace.
  destruct (Utf8.encode_char c) as [enc|] eqn:E.
  - by apply Utf8Facts.encode_well_formed.
  - by apply (Utf8.wf1 x3f).
Qed.

(** What [encode_replace] writes is valid UTF-8: it decodes, under every
    error handler, to the text with each unencodable character turned
    into a question mark. *)
Lemma decode_encode_replace e s :
  Utf8.decode e (encode_replace s) = Some (scrub s).
Proof.
  induction s as [|c s IH]; [done|].
  change (encode_replace (c :: s)) with (encode_char_replace c ++ encode_replace s).
  by rewrite (Utf8Facts.decode_well_formed e _ _ _ (well_formed_replace c)), IH.
Qed.

Lemma scrub_encodable s b : Utf8.encode s = Some b -> scrub s = s.
Proof.
  revert b. induction s as [|c s IH]; intros b; [done|]. simpl.
  unfold scrub_char.
  destruct (Utf8.encode_char c) as [enc|]; [|done].
  destruct (Utf8.encode s) as [rest|] eqn:E; [|done].
  intros _. by rewrite (IH rest).
Qed.

Lemma query_of_payload q : query_of (payload_of q) = scrub (strip q).
Proof.
  unfold query_of, payload_of, decode_ignore.
  rewrite decode_encode_replace.
  unfold scrub. rewrite map_app. simpl map.
  unfold rstrip_char. rewrite rstrip_by_snoc.
  change (0 =? scrub_char 10) with false. cbv iota.
  rewrite strip_snoc_space by done.
  fold (scrub (strip q)). by rewrite strip_scrub, strip_idemp.
Qed.

(** X9.  The request of the client survives the wire: from the payload
    [send_query] writes, received as one chunk, the handler derives the
    trimmed query, with a question mark for each character that cannot
    be encoded; so it derives exactly the trimmed query whenever that
    can be encoded. *)
Theorem server_reads_client_query q :
  query_of (payload_of q) = scrub (strip q)
  /\ (forall b, Utf8.encode (strip q) = Some b ->
        query_of (payload_of q) = strip q).
Proof.
  split; [apply query_of_payload|].
  intros b Hb. by rewrite query_of_payload, (scrub_encodable _ _ Hb).
Qed.

Lemma server_reads_client_query_witness :
  query_of (payload_of (lit "  pear ")) = lit "pear".
Proof.
  refine (proj2 (server_reads_client_query (lit "  pear ")) (Utf8.blit "pear") _).
  vm_compute. reflexivity.
Defined.

Lemma status_lines_parse :
  strip (decode_replace EXISTS_LINE) = STRING_EXISTS
  /\ strip (decode_replace NOT_FOUND_LINE) = STRING_NOT_FOUND.
Proof. split; by vm_compute. Qed.

Lemma scrub_nonempty s : s <> [] -> scrub s <> [].
Proof. by destruct s. Qed.

Lemma lstrip_by_split {A} (p : A -> bool) (s : list A) :
  exists a, s = a ++ lstrip_by p s /\ forallb p a = true.
Proof.
  induction s as [|c s IH]; [by exists []|]. cbn [lstrip_by].
  destruct (p c) eqn:Ec; [|by exists []].
  destruct IH as (a & Ha & Hp). exists (c :: a). simpl.
  by rewrite <- Ha, Ec, Hp.
Qed.

Lemma rstrip_by_split {A} (p : A -> bool) (s : list A) :
  exists b, s = rstrip_by p s ++ b /\ forallb p b = true.
Proof.
  induction s as [|c s IH]; [by exists []|]. cbn [rstrip_by].
  destruct IH as (b & Hb & Hp).
  destruct (rstrip_by p s) as [|d r] eqn:Er.
  - destruct (p c) eqn:Ec.
    + exists (c :: s). simpl in Hb. subst b. simpl. by rewrite Ec, Hp.
    + exists s. simpl in Hb. subst b. done.
  - exists b. split; [|done]. simpl. f_equal. exact Hb.
Qed.

Lemma printable_space out c : isspace c = true -> printable_char out c = true.
Proof.
  intros Hs. unfold printable_char.
  destruct (Utf8.encode_char c) eqn:E; [done|].
  apply encode_char_none in E. apply isspace_bound in Hs. lia.
Qed.

Lemma printable_spaces out a : forallb isspace a = true -> printable out a = true.
Proof.
  unfold printable. induction a as [|c a IH]; [done|]. simpl.
  intros [Hc Ha]%andb_true_iff. by rewrite (printable_space out c Hc), IH.
Qed.

Lemma printable_encodable out s b : Utf8.encode s = Some b -> printable out s = true.
Proof.
  unfold printable. revert b. induction s as [|c s IH]; intros b; [done|]. simpl.
  unfold printable_char at 1.
  destruct (Utf8.encode_char c); [|done].
  destruct (Utf8.encode s) as [b'|]; [|done]. intros _. by apply (IH b').
Qed.

(** What can be sent unchanged can be printed, white space around it
    included. *)
Lemma printable_query out q b :
  Utf8.encode (strip q) = Some b -> printable out q = true.
Proof.
  intros Hb. destruct (lstrip_by_split isspace q) as (a & Ha & Hpa).
  destruct (rstrip_by_split isspace (lstrip_by isspace q)) as (z & Hz & Hpz).
  rewrite Ha, Hz. fold (strip q). unfold printable. rewrite !forallb_app.
  fold (printable out a) (printable out (strip q)) (printable out z).
  by rewrite (printable_spaces _ _ Hpa), (printable_encodable _ _ _ Hb),
    (printable_spaces _ _ Hpz).
Qed.

Lemma printable_tokens out :
  printable out STRING_EXISTS = true /\ printable out STRING_NOT_FOUND = true.
Proof. destruct out; split; by vm_compute. Qed.

(** X10.  Round trip of a query: a connected client whose request
    reaches the handler as one chunk gets back, as the result of
    [send_query], exactly the token [search_string] returns for the
    trimmed query (when the trimmed query is not empty and can be
    encoded), however standard output encodes what is printed. *)
Theorem send_query_round_trip out files s q b :
  strip q <> [] -> Utf8.encode (strip q) = Some b ->
  send_query out true (served files s) q = Ok (search_string files s (strip q)).
Proof.
  intros Hq Hb. unfold send_query.
  assert (Hqt : truthy q = true) by (by destruct q).
  apply truthy_true in Hq as Hst. rewrite Hqt, Hst. simpl.
  unfold served.
  destruct (HandlerFacts.respond_actions files s (payload_of q) Sent) as [_ Hs].
  rewrite query_of_payload, (scrub_encodable _ _ Hb) in Hs.
  destruct status_lines_parse as [He Hn].
  destruct (printable_tokens out) as [Pe Pn].
  pose proof (printable_query out q b Hb) as Pq.
  destruct (Hs Hq) as [[-> ->] | [-> ->]].
  - change (written [Search (strip q); Send EXISTS_LINE]) with EXISTS_LINE.
    change EXISTS_LINE with (x53 :: tl EXISTS_LINE) at 1. cbv beta iota.
    rewrite He. unfold printable in *. by rewrite forallb_app, Pq, Pe.
  - change (written [Search (strip q); Send NOT_FOUND_LINE]) with NOT_FOUND_LINE.
    change NOT_FOUND_LINE with (x53 :: tl NOT_FOUND_LINE) at 1. cbv beta iota.
    rewrite Hn. unfold printable in *. by rewrite forallb_app, Pq, Pn.
Qed.

Lemma send_query_round_trip_witness :
  send_query StdoutStrict true
    (served (Examples.disk Examples.fruit [])
       (Examples.static_server Examples.fruit)) (lit " pear ")
  = Ok (search_string (Examples.disk Examples.fruit [])
          (Examples.static_server Examples.fruit) (strip (lit " pear "))).
Proof.
  apply (send_query_round_trip StdoutStrict _ _ _ (Utf8.blit "pear")).
  - vm_compute. discriminate.
  - vm_compute. reflexivity.
Defined.

End ClientFacts.

(** ** More on the configuration loader *)

Module ConfigExtra.
Import Py PyFacts Config Spec ConfigFacts.

Lemma process_lines_app n c a b :
  process_lines n c (a ++ b) =
    let* c' := process_lines n c a in process_lines (n + length a) c' b.
Proof.
  revert n c. induction a as [|l a IH]; intros n c; simpl.
  - by rewrite Nat.add_0_r.
  - destruct (process_line (S n) c l) as [c1|e]; simpl; [|done].
    rewrite IH. by rewrite Nat.add_succ_comm.
Qed.

Lemma parse_port_number n m value p :
  parse_port n value = Ok p -> parse_port m value = Ok p.
Proof. rewrite !parse_port_ok. done. Qed.

(** The settings a line gives do not depend on its number. *)
Lemma process_line_number n m c line c' :
  process_line n c line = Ok c' -> process_line m c line = Ok c'.
Proof.
  unfold process_line.
  destruct (key_value line) as [[key value]|]; [|done].
  destruct (is_path_key key); [done|].
  destruct (str_eqb key (lit "host")); [done|].
  destruct (str_eqb key (lit "port")); [|done].
  destruct (parse_port n value) as [p|e] eqn:E; [|done].
  by rewrite (parse_port_number n m _ _ E).
Qed.

Lemma process_lines_number n m c lines c' :
  process_lines n c lines = Ok c' -> process_lines m c lines = Ok c'.
Proof.
  revert n m c. induction lines as [|l rest IH]; intros n m c; simpl; [done|].
  destruct (process_line (S n) c l) as [c1|e] eqn:E; simpl; [|done].
  rewrite (process_line_number _ (S m) _ _ _ E). simpl. apply IH.
Qed.

Lemma key_value_skipped line :
  strip line = []
  \/ startswith (lit "#") (strip line) = true
  \/ contains (lit "=") (strip line) = false ->
  key_value line = None.
Proof.
  unfold key_value. intros [-> | [-> | ->]]; [done | | ].
  - by rewrite orb_true_r.
  - by destruct (negb (truthy (strip line)) || startswith (lit "#") (strip line)).
Qed.

Lemma process_lines_skip n c pre line post c' :
  key_value line = None ->
  process_lines n c (pre ++ line :: post) = Ok c' <->
  process_lines n c (pre ++ post) = Ok c'.
Proof.
  intros Hk. rewrite !process_lines_app.
  destruct (process_lines n c pre) as [c1|e]; simpl; [|done].
  unfold process_line. rewrite Hk. simpl.
  split; apply process_lines_number.
Qed.

Lemma load_ok_iff files config_file data text c :
  files (Path config_file) = Fs.File Fs.Readable data ->
  Utf8.decode Utf8.Strict data = Some text ->
  Config.__init__ files config_file = Ok c <->
  exists c0, process_lines 0 defaults (iter_lines (translate_newlines text)) = Ok c0
             /\ validate c0 = Ok c.
Proof.
  intros Hf Hd. rewrite (load_readable _ _ _ _ Hf Hd).
  destruct (process_lines 0 defaults (iter_lines (translate_newlines text)))
    as [c0|e]; simpl.
  - destruct (validate c0) as [c1|e] eqn:Ev.
    + split; [intros [= <-]; eauto | intros (c2 & [= <-] & Hv); congruence].
    + split; [done | intros (c2 & [= <-] & Hv); congruence].
  - split; [done | by intros (c2 & Hc & _)].
Qed.

(** X11.  Blank lines, comment lines and lines without ["="] do not
    count: two configuration files whose lines differ by one such line
    load to the same settings, or both fail. *)
Theorem load_config_ignores_skipped_lines
    files1 files2 config_file data1 text1 data2 text2 pre line post c :
  files1 (Path config_file) = Fs.File Fs.Readable data1 ->
  Utf8.decode Utf8.Strict data1 = Some text1 ->
  files2 (Path config_file) = Fs.File Fs.Readable data2 ->
  Utf8.decode Utf8.Strict data2 = Some text2 ->
  iter_lines (translate_newlines text1) = pre ++ line :: post ->
  iter_lines (translate_newlines text2) = pre ++ post ->
  strip line = []
  \/ startswith (lit "#") (strip line) = true
  \/ contains (lit "=") (strip line) = false ->
  Config.__init__ files1 config_file = Ok c <->
  Config.__init__ files2 config_file = Ok c.
Proof.
  intros Hf1 Hd1 Hf2 Hd2 Hl1 Hl2 Hskip.
  rewrite (load_ok_iff _ _ _ _ _ Hf1 Hd1), (load_ok_iff _ _ _ _ _ Hf2 Hd2).
  rewrite Hl1, Hl2.
  pose proof (key_value_skipped line Hskip) as Hk.
  split; intros (c0 & Hc0 & Hv); exists c0; split; try done;
    by apply (process_lines_skip 0 defaults pre line post c0 Hk).
Qed.

Lemma load_config_ignores_skipped_lines_witness :
  is_ok (Config.__init__
           (Examples.disk []
              (Utf8.blit (String.append "# corpus" (String.append Examples.nl
                            "linuxpath=corpus.txt"))))
           Examples.config_path) = true.
Proof.
  destruct (Config.__init__ (Examples.disk [] (Utf8.blit "linuxpath=corpus.txt"))
              Examples.config_path) as [c|e] eqn:E;
    [|by vm_compute in E].
  assert (H : Config.__init__
                (Examples.disk []
                   (Utf8.blit (String.append "# corpus" (String.append Examples.nl
                                 "linuxpath=corpus.txt"))))
                Examples.config_path = Ok c).
  { apply (load_config_ignores_skipped_lines
             (Examples.disk []
                (Utf8.blit (String.append "# corpus" (String.append Examples.nl
                              "linuxpath=corpus.txt"))))
             (Examples.disk [] (Utf8.blit "linuxpath=corpus.txt"))
             Examples.config_path
             (Utf8.blit (String.append "# corpus" (String.append Examples.nl
                              "linuxpath=corpus.txt")))
             (lit (String.append "# corpus" (String.append Examples.nl
                              "linuxpath=corpus.txt")))
             (Utf8.blit "linuxpath=corpus.txt") (lit "linuxpath=corpus.txt")
             [] (lit (String.append "# corpus" Examples.nl))
             [lit "linuxpath=corpus.txt"] c).
    - reflexivity.
    - by vm_compute.
    - reflexivity.
    - by vm_compute.
    - by vm_compute.
    - by vm_compute.
    - right. left. by vm_compute.
    - exact E. }
  by rewrite H.
Defined.

(** X12.  A configuration whose port lines are valid and whose last
    corpus-path line gives a value that is neither empty nor ["."] loads,
    with that value as corpus path and a port in 1-65535. *)
Theorem load_config_succeeds files config_file data text pre line post key value :
  files (Path config_file) = Fs.File Fs.Readable data ->
  Utf8.decode Utf8.Strict data = Some text ->
  iter_lines (translate_newlines text) = pre ++ line :: post ->
  ports_valid (pre ++ line :: post) ->
  key_value line = Some (key, value) -> is_path_key key = true ->
  no_path_key post ->
  value <> [] -> value <> lit "." ->
  exists c, Config.__init__ files config_file = Ok c
            /\ linuxpath c = value /\ port_ok c.
Proof.
  intros Hf Hd Hl Hv Hkv Hkey Hno Hne Hdot.
  destruct (process_lines_valid 0 defaults _ Hv) as [c0 Hc0].
  pose proof (process_lines_last_path _ _ _ _ _ _ _ _ Hc0 Hkv Hkey Hno) as Hp.
  exists c0. split; [|split; [done|]].
  - apply (load_ok_iff _ _ _ _ _ Hf Hd). rewrite Hl. exists c0. split; [done|].
    unfold validate, str_eqb. rewrite Hp.
    rewrite (bool_decide_eq_false_2 _ Hdot).
    by destruct value.
  - apply (process_lines_port_ok _ _ _ _ Hc0). unfold port_ok. simpl. lia.
Qed.

Lemma load_config_succeeds_witness :
  exists c,
    Config.__init__ (Examples.disk [] (Utf8.blit "LinuxPath = corpus.txt"))
      Examples.config_path = Ok c
    /\ linuxpath c = lit "corpus.txt" /\ port_ok c.
Proof.
  apply (load_config_succeeds _ _ (Utf8.blit "LinuxPath = corpus.txt")
           (lit "LinuxPath = corpus.txt") [] (lit "LinuxPath = corpus.txt") []
           (lit "linuxpath") (lit "corpus.txt")).
  - reflexivity.
  - by vm_compute.
  - by vm_compute.
  - intros l v Hin Hkv. apply list_elem_of_singleton in Hin as ->.
    vm_compute in Hkv. discriminate Hkv.
  - by vm_compute.
  - by vm_compute.
  - intros l k v Hin. by apply elem_of_nil in Hin.
  - discriminate.
  - by vm_compute.
Defined.

Lemma process_line_keeps n c line c' :
  process_line n c line = Ok c' ->
  ((forall v, key_value line <> Some (lit "port", v)) -> port c' = port c)
  /\ ((forall v, key_value line <> Some (lit "host", v)) -> host c' = host c)
  /\ ((forall v, key_value line <> Some (lit "reread_on_query", v)) ->
        reread_on_query c' = reread_on_query c)
  /\ ((forall v, key_value line <> Some (lit "ssl_enabled", v)) ->
        ssl_enabled c' = ssl_enabled c).
Proof.
  unfold process_line.
  destruct (key_value line) as [[key value]|]; [|by intros [= <-]].
  destruct (is_path_key key); [by intros [= <-]|].
  destruct (str_eqb key (lit "host")) eqn:Eh.
  { apply bool_decide_eq_true in Eh as ->. intros [= <-].
    repeat split; try done. intros Hno. by destruct (Hno value). }
  destruct (str_eqb key (lit "port")) eqn:Ep.
  { apply bool_decide_eq_true in Ep as ->.
    destruct (parse_port n value) as [p|e]; [|done]. intros [= <-].
    repeat split; try done. intros Hno. by destruct (Hno value). }
  destruct (str_eqb key (lit "reread_on_query")) eqn:Er.
  { apply bool_decide_eq_true in Er as ->. intros [= <-].
    repeat split; try done. intros Hno. by destruct (Hno value). }
  destruct (str_eqb key (lit "ssl_enabled")) eqn:Es.
  { apply bool_decide_eq_true in Es as ->. intros [= <-].
    repeat split; try done. intros Hno. by destruct (Hno value). }
  repeat case_match; by intros [= <-].
Qed.

Lemma process_lines_keeps n c lines c' :
  process_lines n c lines = Ok c' ->
  ((forall line v, line ∈ lines -> key_value line <> Some (lit "port", v)) ->
     port c' = port c)
  /\ ((forall line v, line ∈ lines -> key_value line <> Some (lit "host", v)) ->
        host c' = host c)
  /\ ((forall line v, line ∈ lines ->
         key_value line <> Some (lit "reread_on_query", v)) ->
        reread_on_query c' = reread_on_query c)
  /\ ((forall line v, line ∈ lines ->
         key_value line <> Some (lit "ssl_enabled", v)) ->
        ssl_enabled c' = ssl_enabled c).
Proof.
  revert n c. induction lines as [|l rest IH]; intros n c; simpl.
  - by intros [= <-].
  - destruct (process_line (S n) c l) as [c1|e] eqn:E; simpl; [|done].
    intros H. destruct (IH _ _ H) as (I1 & I2 & I3 & I4).
    destruct (process_line_keeps _ _ _ _ E) as (K1 & K2 & K3 & K4).
    repeat split; intros Hno.
    + rewrite I1; [apply K1; intros v; apply Hno; apply elem_of_cons; by left|].
      intros line v Hin. apply Hno. apply elem_of_cons. by right.
    + rewrite I2; [apply K2; intros v; apply Hno; apply elem_of_cons; by left|].
      intros line v Hin. apply Hno. apply elem_of_cons. by right.
    + rewrite I3; [apply K3; intros v; apply Hno; apply elem_of_cons; by left|].
      intros line v Hin. apply Hno. apply elem_of_cons. by right.
    + rewrite I4; [apply K4; intros v; apply Hno; apply elem_of_cons; by left|].
      intros line v Hin. apply Hno. apply elem_of_cons. by right.
Qed.

(** X13.  Settings a configuration file does not mention keep their
    defaults: without a port line the port is 44445, without a host line
    the host is 0.0.0.0, without a [reread_on_query] line the server is
    static, and without an [ssl_enabled] line TLS is off. *)
Theorem load_config_defaults files config_file data text c :
  files (Path config_file) = Fs.File Fs.Readable data ->
  Utf8.decode Utf8.Strict data = Some text ->
  Config.__init__ files config_file = Ok c ->
  ((forall line v, line ∈ iter_lines (translate_newlines text) ->
      key_value line <> Some (lit "port", v)) -> port c = 44445%Z)
  /\ ((forall line v, line ∈ iter_lines (translate_newlines text) ->
         key_value line <> Some (lit "host", v)) -> host c = lit "0.0.0.0")
  /\ ((forall line v, line ∈ iter_lines (translate_newlines text) ->
         key_value line <> Some (lit "reread_on_query", v)) ->
        reread_on_query c = false)
  /\ ((forall line v, line ∈ iter_lines (translate_newlines text) ->
         key_value line <> Some (lit "ssl_enabled", v)) ->
        ssl_enabled c = false).
Proof.
  intros Hf Hd Hload.
  apply (load_ok_iff _ _ _ _ _ Hf Hd) in Hload as (c0 & Hc0 & Hv).
  apply validate_ok in Hv as (-> & _).
  exact (process_lines_keeps _ _ _ _ Hc0).
Qed.

Lemma load_config_defaults_witness :
  exists c,
    Config.__init__ (Examples.disk [] (Utf8.blit "linuxpath=corpus.txt"))
      Examples.config_path = Ok c
    /\ port c = 44445%Z /\ reread_on_query c = false.
Proof.
  destruct (Config.__init__ (Examples.disk [] (Utf8.blit "linuxpath=corpus.txt"))
              Examples.config_path) as [c|e] eqn:E;
    [|by vm_compute in E].
  exists c. split; [done|].
  assert (Hd : Utf8.decode Utf8.Strict (Utf8.blit "linuxpath=corpus.txt")
               = Some (lit "linuxpath=corpus.txt")) by (by vm_compute).
  destruct (load_config_defaults
              (Examples.disk [] (Utf8.blit "linuxpath=corpus.txt"))
              Examples.config_path (Utf8.blit "linuxpath=corpus.txt")
              (lit "linuxpath=corpus.txt") c eq_refl Hd E)
    as (Hp & _ & Hr & _).
  split; [apply Hp | apply Hr];
    intros line v Hin Hkv; apply list_elem_of_singleton in Hin as ->;
    vm_compute in Hkv; discriminate Hkv.
Defined.




(** X15.  The error of a bad port names the line: when the lines before
    it have valid ports, loading fails with the invalid-port value error
    of that line, which carries the number of the line in the file
    (every line counted, from 1) and the value. *)
Theorem load_config_reports_port_line
    files config_file data text pre line post value :
  files (Path config_file) = Fs.File Fs.Readable data ->
  Utf8.decode Utf8.Strict data = Some text ->
  iter_lines (translate_newlines text) = pre ++ line :: post ->
  ports_valid pre ->
  key_value line = Some (lit "port", value) ->
  (forall p, int value = Some p -> ~ (1 <= p <= 65535)%Z) ->
  Config.__init__ files config_file
  = Raise (ValueError (InvalidPort (S (length pre)) value)).
Proof.
  intros Hf Hd Hl Hv Hkv Hbad.
  rewrite (load_readable _ _ _ _ Hf Hd), Hl, process_lines_app.
  destruct (process_lines_valid 0 defaults pre Hv) as [c1 ->]. simpl.
  rewrite (process_line_port _ _ _ _ Hkv). unfold parse_port.
  destruct (int value) as [p|] eqn:Ei.
  - specialize (Hbad p eq_refl).
    assert (Hr : ((1 <=? p)%Z && (p <=? 65535)%Z) = false).
    { apply not_true_iff_false. rewrite andb_true_iff, !Z.leb_le. lia. }
    by rewrite Hr.
  - done.
Qed.

Lemma load_config_reports_port_line_witness :
  Config.__init__
    (Examples.disk []
       (Utf8.blit (String.append "# settings" (String.append Examples.nl
                     "port=http"))))
    Examples.config_path
  = Raise (ValueError (InvalidPort 2 (lit "http"))).
Proof.
  apply (load_config_reports_port_line _ _
           (Utf8.blit (String.append "# settings" (String.append Examples.nl
                         "port=http")))
           (lit (String.append "# settings" (String.append Examples.nl
                         "port=http")))
           [lit (String.append "# settings" Examples.nl)] (lit "port=http") []
           (lit "http")).
  - reflexivity.
  - by vm_compute.
  - by vm_compute.
  - intros l v Hin Hkv. apply list_elem_of_singleton in Hin as ->.
    vm_compute in Hkv. discriminate Hkv.
  - by vm_compute.
  - intros p Hp. vm_compute in Hp. discriminate Hp.
Defined.

End ConfigExtra.

(** ** More on the TLS context builder *)

Module TlsExtra.
Import Py PyFacts SslUtils Spec.

(** X16.  With a certificate and a key that exist and that the TLS
    library accepts, and a CA file that is absent or exists and is
    accepted, the builder returns a context for the requested side with
    the pair loaded and the CA file, if any, as verification location. *)
Theorem create_ssl_context_succeeds
    lib files certfile keyfile cafile psk for_server verify_client :
  given certfile = true -> given keyfile = true ->
  Fs.exists_ (files (path_of certfile)) = true ->
  Fs.exists_ (files (path_of keyfile)) = true ->
  load_cert_chain lib (path_of certfile) (path_of keyfile) = None ->
  given cafile = false
  \/ (Fs.exists_ (files (path_of cafile)) = true
      /\ load_verify_locations lib (path_of cafile) = None) ->
  exists ctx,
    create_ssl_context lib files certfile keyfile cafile psk for_server verify_client
    = Ok ctx
    /\ server_side ctx = for_server
    /\ cert_chain ctx = Some (path_of certfile, path_of keyfile)
    /\ verify_locations ctx = if given cafile then Some (path_of cafile) else None.
Proof.
  intros Hc Hk Hec Hek Hload Hca.
  unfold create_ssl_context, setup_cert_chain, setup_ca.
  rewrite Hc, Hk, Hec, Hek, Hload. simpl.
  destruct Hca as [-> | [Hea Hla]].
  - eexists. split; [reflexivity|]. done.
  - destruct (given cafile); rewrite ?Hea, ?Hla; simpl;
      (eexists; split; [reflexivity|]; done).
Qed.

Lemma create_ssl_context_succeeds_witness :
  exists ctx,
    create_ssl_context Examples.lenient
      (Examples.disk_with (lit "server.pem") [] [])
      (Some (lit "server.pem")) (Some (lit "server.pem")) None None true false
    = Ok ctx
    /\ server_side ctx = true
    /\ cert_chain ctx = Some (lit "server.pem", lit "server.pem")
    /\ verify_locations ctx = None.
Proof.
  apply (create_ssl_context_succeeds Examples.lenient
           (Examples.disk_with (lit "server.pem") [] [])
           (Some (lit "server.pem")) (Some (lit "server.pem")) None None true false).
  - reflexivity.
  - reflexivity.
  - reflexivity.
  - reflexivity.
  - reflexivity.
  - by left.
Defined.

(** X17.  A context built for the client side always requires and
    checks the certificate of its peer, with or without a CA file and
    whatever [verify_client] says. *)
Theorem client_context_verifies
    lib files certfile keyfile cafile psk verify_client ctx :
  create_ssl_context lib files certfile keyfile cafile psk false verify_client
  = Ok ctx ->
  verify ctx = CERT_REQUIRED /\ check_hostname ctx = true.
Proof.
  unfold create_ssl_context, setup_cert_chain, setup_ca, harden.
  intros H. repeat (case_match; simplify_eq/=); done.
Qed.

Lemma client_context_verifies_witness :
  exists ctx,
    create_ssl_context Examples.lenient (fun _ => Fs.Missing)
      None None None (Some (lit "supersecretkey123")) false false = Ok ctx
    /\ verify ctx = CERT_REQUIRED /\ check_hostname ctx = true.
Proof.
  eexists. split; [by vm_compute|].
  apply (client_context_verifies Examples.lenient (fun _ => Fs.Missing)
           None None None (Some (lit "supersecretkey123")) false).
  by vm_compute.
Defined.

(** X18.  The pre-shared key is not enforced: the builder looks at
    whether one is given and at nothing else of it, and not even at that
    when a certificate or a key is given. *)
Theorem psk_not_enforced
    lib files certfile keyfile cafile psk1 psk2 for_server verify_client :
  given psk1 = given psk2 \/ given certfile = true \/ given keyfile = true ->
  create_ssl_context lib files certfile keyfile cafile psk1 for_server verify_client
  = create_ssl_context lib files certfile keyfile cafile psk2 for_server verify_client.
Proof.
  unfold create_ssl_context. intros [-> | [-> | ->]]; [done | |].
  - done.
  - by rewrite !andb_false_r.
Qed.

Lemma psk_not_enforced_witness :
  create_ssl_context Examples.lenient (fun _ => Fs.Missing) None None None
    (Some (lit "a")) true false
  = create_ssl_context Examples.lenient (fun _ => Fs.Missing) None None None
      (Some (lit "another key")) true false.
Proof.
  apply psk_not_enforced. left. reflexivity.
Defined.

(** X19.  A CA file that is named must exist: when the certificate step
    passes (the pair is loaded, or there is no pair and a PSK is given)
    and the CA file is missing, the builder fails with a file-not-found
    error. *)
Theorem create_ssl_context_missing_ca
    lib files certfile keyfile cafile psk for_server verify_client :
  (given certfile = true /\ given keyfile = true
   /\ Fs.exists_ (files (path_of certfile)) = true
   /\ Fs.exists_ (files (path_of keyfile)) = true
   /\ load_cert_chain lib (path_of certfile) (path_of keyfile) = None)
  \/ (given certfile = false /\ given keyfile = false /\ given psk = true) ->
  given cafile = true ->
  Fs.exists_ (files (path_of cafile)) = false ->
  create_ssl_context lib files certfile keyfile cafile psk for_server verify_client
  = Raise FileNotFoundError.
Proof.
  intros Hchain Hca Hmiss.
  unfold create_ssl_context, setup_cert_chain, setup_ca.
  destruct Hchain as [(-> & -> & -> & -> & ->) | (-> & -> & ->)];
    simpl; by rewrite Hca, Hmiss.
Qed.

Lemma create_ssl_context_missing_ca_witness :
  create_ssl_context Examples.lenient (fun _ => Fs.Missing) None None
    (Some (lit "ca.crt")) (Some (lit "supersecretkey123")) true false
  = Raise FileNotFoundError.
Proof.
  apply create_ssl_context_missing_ca.
  - right. repeat split; reflexivity.
  - reflexivity.
  - reflexivity.
Defined.

End TlsExtra.

(** ** Construction of the server, end to end *)

Module InitExtra.
Import Py PyFacts Server Spec.

(** The server object as [__init__] has it before the TLS step. *)
Lemma init_body_shape lib files config_file config :
  Config.__init__ files config_file = Ok config ->
  exists s0 s1,
    file_path s0 = Path (Config.linuxpath config)
    /\ reread_on_query s0 = Config.reread_on_query config
    /\ s1 = (if Config.reread_on_query config then s0
             else _load_file_once files s0)
    /\ host s1 = Config.host config /\ port s1 = Config.port config
    /\ reread_on_query s1 = Config.reread_on_query config
    /\ file_path s1 = Path (Config.linuxpath config)
    /\ stop_event s1 = false /\ running s1 = false
    /\ init_body lib files config_file =
       if Config.ssl_enabled config then
         match SslUtils.create_ssl_context lib files (Config.certfile config)
                 (Config.keyfile config) (Config.cafile config)
                 (Config.psk config) true false with
         | Ok ctx => Ok (set_ssl true (Some ctx) s1)
         | Raise e =>
             match e with
             | FileNotFoundError => Ok (set_ssl false None s1)
             | _ => if is_ValueError e then Ok (set_ssl false None s1) else Raise e
             end
         end
       else Ok (set_ssl false None s1).
Proof.
  intros Hload. unfold init_body. rewrite Hload. cbn [rbind].
  set (s0 := mk _ _ _ _ _ _ _ _ _ _ _ _ _ _).
  exists s0, (if Config.reread_on_query config then s0 else _load_file_once files s0).
  assert (Hs1 : (if negb (reread_on_query s0) then _load_file_once files s0 else s0)
                = (if Config.reread_on_query config then s0
                   else _load_file_once files s0)).
  { subst s0. cbn [reread_on_query]. by destruct (Config.reread_on_query config). }
  rewrite Hs1. clear Hs1.
  set (s1 := if Config.reread_on_query config then _ else _).
  assert (Hf : host s1 = Config.host config /\ port s1 = Config.port config
               /\ reread_on_query s1 = Config.reread_on_query config
               /\ file_path s1 = Path (Config.linuxpath config)
               /\ stop_event s1 = false /\ running s1 = false
               /\ ssl_enabled s1 = Config.ssl_enabled config
               /\ certfile s1 = Config.certfile config
               /\ keyfile s1 = Config.keyfile config
               /\ cafile s1 = Config.cafile config
               /\ psk s1 = Config.psk config).
  { subst s1. destruct (Config.reread_on_query config); [done|].
    unfold _load_file_once. by repeat case_match. }
  destruct Hf as (? & ? & ? & ? & ? & ? & -> & -> & -> & -> & ->).
  repeat split; try done.
  by destruct (Config.ssl_enabled config).
Qed.

(** X20.  Construction fails exactly in two ways, each time with a
    [RuntimeError] around the cause: the configuration could not be
    loaded, or TLS is enabled and the context builder failed with
    something other than a value error or a file-not-found error. *)
Theorem init_failure_causes lib files config_file e :
  Server.__init__ lib files config_file = Raise e <->
  exists c,
    e = RuntimeError c
    /\ (Config.__init__ files config_file = Raise c
        \/ exists config,
             Config.__init__ files config_file = Ok config
             /\ Config.ssl_enabled config = true
             /\ SslUtils.create_ssl_context lib files (Config.certfile config)
                  (Config.keyfile config) (Config.cafile config)
                  (Config.psk config) true false = Raise c
             /\ is_ValueError c = false /\ c <> FileNotFoundError).
Proof.
  unfold Server.__init__.
  destruct (Config.__init__ files config_file) as [config|c0] eqn:Hload.
  - destruct (init_body_shape lib files config_file config Hload)
      as (s0 & s1 & _ & _ & _ & _ & _ & _ & _ & _ & _ & ->).
    split.
    + intros H. destruct (Config.ssl_enabled config) eqn:Hssl; [|done].
      destruct (SslUtils.create_ssl_context _ _ _ _ _ _ _ _) as [ctx|c] eqn:Hc;
        [done|].
      destruct (is_ValueError c) eqn:Hv.
      { by destruct c. }
      assert (Hne : c <> FileNotFoundError).
      { intros ->. discriminate H. }
      exists c. split.
      * destruct c; simplify_eq/=; done.
      * right. exists config. by rewrite Hc.
    + intros (c & -> & [Hbad | (config' & Heq & Hssl & Hc & Hv & Hne)]);
        [done|].
      simplify_eq. rewrite Hssl, Hc, Hv. by destruct c.
  - assert (Hb : init_body lib files config_file = Raise c0).
    { unfold init_body. by rewrite Hload. }
    rewrite Hb. split.
    + intros [= <-]. exists c0. split; [done|by left].
    + intros (c & -> & [Hbad | (config' & Heq & _)]); [|done].
      by simplify_eq.
Qed.

Lemma init_failure_causes_witness :
  Server.__init__ Examples.picky
    (Examples.disk_with (lit "server.pem") Examples.fruit
       (Utf8.blit (String.append "linuxpath=corpus.txt"
          (String.append Examples.nl (String.append "ssl_enabled=true"
          (String.append Examples.nl (String.append "certfile=server.pem"
          (String.append Examples.nl "keyfile=server.pem"))))))))
    Examples.config_path = Raise (RuntimeError SSLError).
Proof.
  apply init_failure_causes. exists SSLError. split; [reflexivity|].
  right.
  exists (Config.mk (lit "0.0.0.0") 44445%Z (lit "corpus.txt") false true
            (Some (lit "server.pem")) (Some (lit "server.pem")) None None).
  split; [by vm_compute|]. split; [reflexivity|].
  split; [by vm_compute|]. split; [reflexivity|discriminate].
Defined.

(** X21.  A server that was constructed carries the settings of a
    configuration that validated: host, port and mode are the configured
    ones and the port is in range; the configured corpus path is neither
    empty nor the default [.], and the server holds it as a [Path],
    which is never empty (but is [.] again for a configured [./]); TLS
    is on exactly when a context is held, and only if the configuration
    asked for it; the server is neither stopped nor running. *)
Theorem init_settings lib files config_file s :
  Server.__init__ lib files config_file = Ok s ->
  exists config,
    Config.__init__ files config_file = Ok config
    /\ host s = Config.host config /\ port s = Config.port config
    /\ reread_on_query s = Config.reread_on_query config
    /\ file_path s = Path (Config.linuxpath config)
    /\ (1 <= port s <= 65535)%Z
    /\ Config.linuxpath config <> [] /\ Config.linuxpath config <> lit "."
    /\ file_path s <> []
    /\ (ssl_enabled s = true <-> is_Some (ssl_context s))
    /\ (ssl_enabled s = true -> Config.ssl_enabled config = true)
    /\ stop_event s = false /\ running s = false.
Proof.
  unfold Server.__init__. intros H.
  destruct (Config.__init__ files config_file) as [config|c0] eqn:Hload.
  2:{ unfold init_body in H. by rewrite Hload in H. }
  destruct (init_body_shape lib files config_file config Hload)
    as (s0 & s1 & _ & _ & _ & Hh & Hp & Hr & Hf & Hst & Hrun & Hb).
  rewrite Hb in H. clear Hb.
  assert (Hconf : port_ok config /\ Config.linuxpath config <> []
                  /\ Config.linuxpath config <> lit ".").
  { destruct (ConfigFacts.load_ok_inv _ _ _ Hload) as (lines & c0 & Hloop & Hval).
    apply ConfigFacts.validate_ok in Hval as (-> & Hne & Hdot).
    split; [|done].
    apply (ConfigFacts.process_lines_port_ok _ _ _ _ Hloop).
    unfold port_ok. simpl. lia. }
  destruct Hconf as (Hport & Hne & Hdot). unfold port_ok in Hport.
  pose proof (Path_nonempty (Config.linuxpath config)) as Hpath.
  assert (Hs : (s = set_ssl false None s1)
               \/ (Config.ssl_enabled config = true
                   /\ exists ctx, s = set_ssl true (Some ctx) s1)).
  { destruct (Config.ssl_enabled config); [|left; by simplify_eq].
    destruct (SslUtils.create_ssl_context _ _ _ _ _ _ _ _) as [ctx|c].
    - right. split; [done|]. exists ctx. by simplify_eq.
    - left. destruct c; simplify_eq/=; try done;
        by (destruct (is_ValueError _); simplify_eq). }
  exists config. split; [done|].
  destruct Hs as [-> | (Hssl & ctx & ->)]; unfold set_ssl;
    cbn [host port reread_on_query file_path ssl_enabled ssl_context
         stop_event running];
    rewrite ?Hh, ?Hp, ?Hr, ?Hf, ?Hst, ?Hrun.
  - repeat split; try done; try lia.
  - repeat split; try done; try lia.
Qed.

Lemma init_settings_witness :
  exists s config,
    Server.__init__ Examples.lenient
      (Examples.disk Examples.fruit Examples.static_conf) Examples.config_path
    = Ok s
    /\ Config.__init__ (Examples.disk Examples.fruit Examples.static_conf)
         Examples.config_path = Ok config
    /\ host s = Config.host config /\ port s = Config.port config
    /\ reread_on_query s = Config.reread_on_query config
    /\ file_path s = Path (Config.linuxpath config)
    /\ (1 <= port s <= 65535)%Z
    /\ Config.linuxpath config <> [] /\ Config.linuxpath config <> lit "."
    /\ file_path s <> []
    /\ (ssl_enabled s = true <-> is_Some (ssl_context s))
    /\ (ssl_enabled s = true -> Config.ssl_enabled config = true)
    /\ stop_event s = false /\ running s = false.
Proof.
  destruct (Server.__init__ Examples.lenient
              (Examples.disk Examples.fruit Examples.static_conf)
              Examples.config_path) as [s|e] eqn:E.
  - exists s.
    destruct (init_settings Examples.lenient
                (Examples.disk Examples.fruit Examples.static_conf)
                Examples.config_path s E) as (config & H).
    exists config. split; [reflexivity|exact H].
  - assert (H : is_ok (Server.__init__ Examples.lenient
                         (Examples.disk Examples.fruit Examples.static_conf)
                         Examples.config_path) = true) by (vm_compute; reflexivity).
    rewrite E in H. discriminate H.
Defined.

(** The TLS fields play no part in a search. *)
Lemma search_string_set_ssl files enabled ctx s q :
  search_string files (set_ssl enabled ctx s) q = search_string files s q.
Proof. reflexivity. Qed.

(** X22.  From the configuration file to the answer: a server
    constructed in static mode over a readable, well-encoded corpus
    finds every non-blank full line of that corpus, on any later state
    of the disk. *)
Theorem init_then_search lib files later config_file s data text q :
  Server.__init__ lib files config_file = Ok s ->
  reread_on_query s = false ->
  files (file_path s) = Fs.File Fs.Readable data ->
  Utf8.decode Utf8.Strict data = Some text ->
  strip q <> [] -> full_line q text ->
  search_string later s q = STRING_EXISTS.
Proof.
  unfold Server.__init__. intros H Hmode Hfile Hd Hq Hline.
  destruct (Config.__init__ files config_file) as [config|c0] eqn:Hload.
  2:{ unfold init_body in H. by rewrite Hload in H. }
  destruct (init_body_shape lib files config_file config Hload)
    as (s0 & s1 & Hf0 & Hr0 & Hs1 & _ & _ & Hr & Hf & _ & _ & Hb).
  rewrite Hb in H. clear Hb.
  assert (Hs : exists enabled ctx, s = set_ssl enabled ctx s1).
  { destruct (Config.ssl_enabled config); [|by exists false, None; simplify_eq].
    destruct (SslUtils.create_ssl_context _ _ _ _ _ _ _ _) as [ctx|c].
    - exists true, (Some ctx). by simplify_eq.
    - exists false, None. destruct c; simplify_eq/=; try done;
        by (destruct (is_ValueError _); simplify_eq). }
  destruct Hs as (enabled & ctx & ->).
  rewrite search_string_set_ssl.
  assert (Hstatic : Config.reread_on_query config = false).
  { rewrite <- Hr. exact Hmode. }
  assert (Hpath : file_path s0 = file_path (set_ssl enabled ctx s1)).
  { unfold set_ssl. cbn [file_path]. by rewrite Hf0, Hf. }
  rewrite Hstatic in Hs1. subst s1.
  apply (CacheExtra.cached_line_found files later s0 data text q); try done.
  - by rewrite Hr0.
  - by rewrite Hpath.
Qed.

Lemma init_then_search_witness :
  exists s,
    Server.__init__ Examples.lenient
      (Examples.disk Examples.fruit Examples.static_conf) Examples.config_path
    = Ok s
    /\ search_string (fun _ => Fs.Missing) s (lit "pear") = STRING_EXISTS.
Proof.
  assert (H : match Server.__init__ Examples.lenient
                      (Examples.disk Examples.fruit Examples.static_conf)
                      Examples.config_path with
              | Ok s => negb (reread_on_query s)
                        && str_eqb (file_path s) Examples.corpus_path
              | Raise _ => false
              end = true) by (vm_compute; reflexivity).
  destruct (Server.__init__ Examples.lenient
              (Examples.disk Examples.fruit Examples.static_conf)
              Examples.config_path) as [s|e] eqn:E; [|discriminate H].
  apply andb_prop in H as [Hm Hp].
  apply negb_true_iff in Hm. apply bool_decide_eq_true_1 in Hp.
  exists s. split; [reflexivity|].
  apply (init_then_search Examples.lenient
           (Examples.disk Examples.fruit Examples.static_conf)
           (fun _ => Fs.Missing) Examples.config_path s Examples.fruit
           (lit (String.append "apple" (String.append Examples.nl
                  (String.append "pear" Examples.nl)))) (lit "pear") E Hm).
  - rewrite Hp. reflexivity.
  - vm_compute. reflexivity.
  - vm_compute. discriminate.
  - unfold full_line. apply (bool_decide_unpack _). vm_compute. exact I.
Defined.

End InitExtra.

(** ** The life cycle of the server object *)

Module LifecycleFacts.
Import Py Server.

Lemma exec_settings files s o :
  host (exec files s o) = host s /\ port (exec files s o) = port s
  /\ reread_on_query (exec files s o) = reread_on_query s
  /\ file_path (exec files s o) = file_path s
  /\ ssl_enabled (exec files s o) = ssl_enabled s
  /\ ssl_context (exec files s o) = ssl_context s.
Proof. by destruct o. Qed.

Lemma run_settings calls : forall s,
  host (run s calls) = host s /\ port (run s calls) = port s
  /\ reread_on_query (run s calls) = reread_on_query s
  /\ file_path (run s calls) = file_path s
  /\ ssl_enabled (run s calls) = ssl_enabled s
  /\ ssl_context (run s calls) = ssl_context s.
Proof.
  induction calls as [|[files o] calls IH]; intros s; [done|].
  change (run s ((files, o) :: calls)) with (run (exec files s o) calls).
  destruct (IH (exec files s o)) as (-> & -> & -> & -> & -> & ->).
  apply exec_settings.
Qed.

(** A stopped server stays stopped. *)
Lemma run_stopped calls : forall s,
  stop_event s = true -> running s = false ->
  stop_event (run s calls) = true /\ running (run s calls) = false.
Proof.
  induction calls as [|[files o] calls IH]; intros s Hs Hr; [done|].
  change (run s ((files, o) :: calls)) with (run (exec files s o) calls).
  apply IH; by destruct o.
Qed.

Lemma run_app s calls1 calls2 :
  run s (calls1 ++ calls2) = run (run s calls1) calls2.
Proof. unfold run. apply fold_left_app. Qed.

(** X23.  Stopping is final and touches nothing else: once [shutdown]
    was called or a signal was handled, whatever was called before and
    whatever is called after ([start] included), the stop event is set
    and the server is not running, while host, port, mode, corpus path
    and TLS state are those the constructor left. *)
Theorem stop_is_permanent s before files o after :
  o = CallShutdown \/ o = Signal ->
  let s' := run s (before ++ (files, o) :: after) in
  stop_event s' = true /\ running s' = false
  /\ host s' = host s /\ port s' = port s
  /\ reread_on_query s' = reread_on_query s
  /\ file_path s' = file_path s
  /\ ssl_enabled s' = ssl_enabled s
  /\ ssl_context s' = ssl_context s.
Proof.
  intros Ho s'. split_and!; try apply run_settings.
  all: subst s'; rewrite run_app;
    change (run (run s before) ((files, o) :: after))
      with (run (exec files (run s before) o) after);
    apply run_stopped; by destruct Ho as [-> | ->].
Qed.

Lemma stop_is_permanent_witness :
  let s' := run (Examples.fresh true)
              ([(Examples.disk [] [], CallSearch (lit "pear"))]
               ++ (Examples.disk [] [], Signal)
               :: [(Examples.disk [] [], CallStart)]) in
  stop_event s' = true /\ running s' = false
  /\ host s' = host (Examples.fresh true) /\ port s' = port (Examples.fresh true)
  /\ reread_on_query s' = reread_on_query (Examples.fresh true)
  /\ file_path s' = file_path (Examples.fresh true)
  /\ ssl_enabled s' = ssl_enabled (Examples.fresh true)
  /\ ssl_context s' = ssl_context (Examples.fresh true).
Proof.
  apply (stop_is_permanent (Examples.fresh true)
           [(Examples.disk [] [], CallSearch (lit "pear"))]
           (Examples.disk [] []) Signal
           [(Examples.disk [] [], CallStart)]).
  by right.
Defined.

End LifecycleFacts.
